(** * Vehicle-Registration-Dashboard: the query layer and the data pipeline

    A shallow embedding of [database_utils.py] (class [DatabaseManager]) and
    of [data_scraper.py] (class [VehicleDataScraper]), with the properties of
    the specification proved or refuted on it.

    - Python exceptions are a [result] monad; [try]/[except] is [try_catch].
    - The SQL text a method assembles is a value of type [query]; the clauses
      appended with [query += " AND ..."] are the elements of a list of
      [condition]s, joined by AND.  [sqlite_eval] gives the statements their
      SQLite meaning on the table [vehicle_registrations].
    - pandas' float64 columns are IEEE-754 binary64 numbers ([spec_float] of
      the standard library, precision 53, emax 1024); NaN is pandas' marker
      of an absent value.
    - SQLite's arithmetic on REAL values and the factors of the generator
      are taken on exact rationals; INTEGER values are unbounded. *)

From Stdlib Require Import List String Ascii Bool ZArith QArith Lia Lqa.
From Stdlib Require Import Permutation Sorted.
From Stdlib Require Import Structures.OrderedTypeEx.
From Stdlib Require Import Floats.SpecFloat.
From Stdlib Require Import DecimalString.
Import ListNotations.

Local Open Scope Z_scope.
Local Open Scope string_scope.
Local Open Scope list_scope.

(** ** Exceptions *)

Inductive exn : Type :=
| Exception (msg : string).

Inductive result (A : Type) : Type :=
| Ok (a : A)
| Raise (e : exn).

Arguments Ok {A} a.
Arguments Raise {A} e.

Definition bind {A B} (m : result A) (k : A -> result B) : result B :=
  match m with
  | Ok a => k a
  | Raise e => Raise e
  end.

Definition try_catch {A} (body : result A) (handler : exn -> result A) : result A :=
  match body with
  | Ok a => Ok a
  | Raise e => handler e
  end.

Notation "x <- m ;; k" := (bind m (fun x => k))
  (at level 61, m at next level, right associativity).

(** ** Generic list operations used by both halves *)

Section ListOps.
Context {A : Type}.

(** Stable insertion sort; [leb a b = true] reads "a may stand before b". *)
Fixpoint insert_sorted (leb : A -> A -> bool) (x : A) (l : list A) : list A :=
  match l with
  | [] => [x]
  | y :: l' => if leb x y then x :: l else y :: insert_sorted leb x l'
  end.

Fixpoint sort_by (leb : A -> A -> bool) (l : list A) : list A :=
  match l with
  | [] => []
  | x :: l' => insert_sorted leb x (sort_by leb l')
  end.

(** First occurrences, in order. *)
Fixpoint distinct (eqb : A -> A -> bool) (l : list A) : list A :=
  match l with
  | [] => []
  | x :: l' => x :: filter (fun y => negb (eqb x y)) (distinct eqb l')
  end.
End ListOps.

(** Python truthiness of an [Optional[List[str]]] argument: [None] and the
    empty list are both false. *)
Definition truthy_list {A} (o : option (list A)) : bool :=
  match o with
  | Some (_ :: _) => true
  | _ => false
  end.

Definition list_of {A} (o : option (list A)) : list A :=
  match o with
  | Some l => l
  | None => []
  end.

(** Python truthiness of an [Optional[str]]. *)
Definition truthy_str (o : option string) : bool :=
  match o with
  | Some (String _ _) => true
  | _ => false
  end.

Definition str_of (o : option string) : string :=
  match o with
  | Some s => s
  | None => ""
  end.

(** ** Dates *)

(** A [datetime]; the time of day is dropped by [strftime('%Y-%m-%d')], the
    only use the store makes of it. *)
Record datetime : Type := {
  dt_year : Z;
  dt_month : Z;
  dt_day : Z
}.

Definition digit (n : Z) : string :=
  String (ascii_of_N (Z.to_N (48 + n mod 10))) "".

Definition zero_pad2 (n : Z) : string := digit (n / 10) ++ digit n.

Definition zero_pad4 (n : Z) : string :=
  digit (n / 1000) ++ digit (n / 100) ++ digit (n / 10) ++ digit n.

(** [d.strftime('%Y-%m-%d')]: the year on four digits, as every platform
    writes the years 1000 to 9999 (a smaller year is not padded by every C
    library). *)
Definition strftime_ymd (d : datetime) : string :=
  zero_pad4 (dt_year d) ++ "-" ++ zero_pad2 (dt_month d) ++ "-" ++ zero_pad2 (dt_day d).

(** Days since 1970-01-01 of a date of the proleptic Gregorian calendar, and
    back; [/] on [Z] rounds down. *)
Definition days_from_civil (d : datetime) : Z :=
  let y := if (dt_month d <=? 2)%Z then dt_year d - 1 else dt_year d in
  let era := y / 400 in
  let yoe := y - era * 400 in
  let mp := if (2 <? dt_month d)%Z then dt_month d - 3 else dt_month d + 9 in
  let doy := (153 * mp + 2) / 5 + dt_day d - 1 in
  let doe := yoe * 365 + yoe / 4 - yoe / 100 + doy in
  era * 146097 + doe - 719468.

Definition civil_from_days (z : Z) : datetime :=
  let z := z + 719468 in
  let era := z / 146097 in
  let doe := z - era * 146097 in
  let yoe := (doe - doe / 1460 + doe / 36524 - doe / 146096) / 365 in
  let doy := doe - (365 * yoe + yoe / 4 - yoe / 100) in
  let mp := (5 * doy + 2) / 153 in
  let m := if (mp <? 10)%Z then mp + 3 else mp - 9 in
  {| dt_year := yoe + era * 400 + (if (m <=? 2)%Z then 1 else 0);
     dt_month := m;
     dt_day := doy - (153 * mp + 2) / 5 + 1 |}.

(** [d - timedelta(days=n)] *)
Definition minus_days (d : datetime) (n : Z) : datetime :=
  civil_from_days (days_from_civil d - n).

(** ** SQLite values and the table [vehicle_registrations] *)

(** A REAL: SQLite stores binary64 numbers, whose finite values are
    rationals.  SQLite's own arithmetic on them (AVG, [*], [/], ROUND) is
    taken exact; NULL is [None], and a NaN result is stored as NULL. *)
Inductive real : Type :=
| Finite (q : Q)
| Infinity (negative : bool).

Definition real_leb (x y : real) : bool :=
  match x, y with
  | Infinity true, _ => true
  | _, Infinity false => true
  | Finite a, Finite b => Qle_bool a b
  | _, _ => false
  end.

(** Ordering of nullable REALs in ORDER BY: NULL sorts before any value. *)
Definition sql_leb (x y : option real) : bool :=
  match x, y with
  | None, _ => true
  | Some _, None => false
  | Some a, Some b => real_leb a b
  end.

(** [x + y]; [None] is the NaN of [inf + -inf]. *)
Definition real_add (x y : real) : option real :=
  match x, y with
  | Finite a, Finite b => Some (Finite (a + b))
  | Infinity s, Finite _ => Some (Infinity s)
  | Finite _, Infinity s => Some (Infinity s)
  | Infinity s, Infinity s' => if Bool.eqb s s' then Some (Infinity s) else None
  end.

Definition real_sum (xs : list real) : option real :=
  fold_left (fun acc x => match acc with
                          | Some a => real_add a x
                          | None => None
                          end) xs (Some (Finite 0)).

Definition real_div_count (x : real) (n : nat) : real :=
  match x with
  | Finite a => Finite (a / inject_Z (Z.of_nat n))
  | Infinity s => Infinity s
  end.

Fixpoint non_null {A} (l : list (option A)) : list A :=
  match l with
  | [] => []
  | Some x :: l' => x :: non_null l'
  | None :: l' => non_null l'
  end.

(** AVG(col): NULLs are skipped; NULL on no value (or on a NaN sum). *)
Definition sql_avg (col : list (option real)) : option real :=
  match non_null col with
  | [] => None
  | xs => match real_sum xs with
          | Some s => Some (real_div_count s (List.length xs))
          | None => None
          end
  end.

Definition sum_int (col : list Z) : Z := fold_right Z.add 0 col.

(** SUM(col) of an INTEGER column: NULL on no row. *)
Definition sql_sum (col : list Z) : option Z :=
  match col with
  | [] => None
  | _ => Some (sum_int col)
  end.

(** Nearest integer, ties away from zero. *)
Definition round_half_away (q : Q) : Z :=
  let n := Qnum q in
  let d := Zpos (Qden q) in
  Z.sgn n * ((2 * Z.abs n + d) / (2 * d)).

(** ROUND(x, 2). *)
Definition sql_round2 (x : option real) : option real :=
  match x with
  | Some (Finite q) => Some (Finite (round_half_away (q * 100) # 100))
  | other => other
  end.

(** [n * 100.0 / d] on INTEGER sums [n] and [d]; a division by zero and a
    NULL operand give NULL. *)
Definition percent_of (n : Z) (d : option Z) : option real :=
  match d with
  | Some (Zpos _ as z) | Some (Zneg _ as z) =>
      Some (Finite (inject_Z n * 100 / inject_Z z))
  | _ => None
  end.

(** One row of [vehicle_registrations], with the columns [to_sql] writes. *)
Record registration : Type := {
  date : string;
  year : Z;
  month : Z;
  quarter : string;
  vehicle_category : string;
  manufacturer : string;
  registrations : Z;
  prev_year_registrations : option real;
  yoy_growth : option real;
  prev_quarter_registrations : option real;
  qoq_growth : option real
}.

Definition table : Type := list registration.

Inductive growth_column : Type := YoyGrowth | QoqGrowth.

Definition growth_of (g : growth_column) (r : registration) : option real :=
  match g with
  | YoyGrowth => yoy_growth r
  | QoqGrowth => qoq_growth r
  end.

(** The conditions the methods put in a WHERE clause. *)
Inductive condition : Type :=
| DateBetween (lo hi : string)          (* date BETWEEN ? AND ? *)
| CategoryIn (cs : list string)         (* vehicle_category IN (?,...) *)
| ManufacturerIn (ms : list string)     (* manufacturer IN (?,...) *)
| CategoryEq (c : string)               (* vehicle_category = ? *)
| GrowthNotNull (g : growth_column).    (* {growth_column} IS NOT NULL *)

Definition mem_str (s : string) (l : list string) : bool :=
  existsb (String.eqb s) l.

(** Text is compared byte by byte (collation BINARY). *)
Definition holds (r : registration) (c : condition) : bool :=
  match c with
  | DateBetween lo hi => String.leb lo (date r) && String.leb (date r) hi
  | CategoryIn cs => mem_str (vehicle_category r) cs
  | ManufacturerIn ms => mem_str (manufacturer r) ms
  | CategoryEq c => String.eqb (vehicle_category r) c
  | GrowthNotNull g => match growth_of g r with Some _ => true | None => false end
  end.

(** WHERE c1 AND c2 AND ... *)
Definition select_where (conds : list condition) (t : table) : table :=
  filter (fun r => forallb (holds r) conds) t.

(** ** The SELECT statements of [DatabaseManager] *)

Record date_range_row : Type := {
  min_date : option string;
  max_date : option string
}.

Record category_summary : Type := {
  cs_vehicle_category : string;
  cs_total_registrations : Z;
  cs_avg_yoy_growth : option real;
  cs_avg_qoq_growth : option real;
  cs_num_manufacturers : Z
}.

Record manufacturer_summary : Type := {
  ms_manufacturer : string;
  ms_vehicle_category : string;
  ms_total_registrations : Z;
  ms_avg_yoy_growth : option real;
  ms_avg_qoq_growth : option real
}.

Record monthly_trend : Type := {
  mt_date : string;
  mt_year : Z;
  mt_month : Z;
  mt_quarter : string;
  mt_vehicle_category : string;
  mt_manufacturer : string;
  mt_registrations : Z;
  mt_yoy_growth : option real;
  mt_qoq_growth : option real
}.

Record growth_leader : Type := {
  gl_manufacturer : string;
  gl_vehicle_category : string;
  avg_growth : option real;
  total_registrations : Z
}.

Record market_share_row : Type := {
  sh_manufacturer : string;
  sh_total_registrations : Z;
  market_share : option real
}.

(** A statement, indexed by the type of the rows it returns. *)
Inductive query : Type -> Type :=
| SelectDateRange : query date_range_row
| SelectCategories : query string
| SelectManufacturers (where_ : list condition) : query string
| SelectRegistrations (where_ : list condition) : query registration
| SelectCategorySummary (where_ : list condition) : query category_summary
| SelectManufacturerSummary (where_ : list condition) : query manufacturer_summary
| SelectMonthlyTrends (where_ : list condition) : query monthly_trend
| SelectGrowthLeaders (g : growth_column) (where_ : list condition) : query growth_leader
| SelectMarketShare (total_where where_ : list condition) : query market_share_row.

(** GROUP BY: one group per distinct key, holding the rows with that key. *)
Definition group_by {K} (eqb : K -> K -> bool) (key : registration -> K)
    (rows : table) : list (K * table) :=
  map (fun k => (k, filter (fun r => eqb (key r) k) rows))
      (distinct eqb (map key rows)).

Definition pair_eqb (a b : string * string) : bool :=
  String.eqb (fst a) (fst b) && String.eqb (snd a) (snd b).

Definition by_manufacturer_category (r : registration) : string * string :=
  (manufacturer r, vehicle_category r).

(** ORDER BY date, vehicle_category, manufacturer, on any row type. *)
Definition date_category_manufacturer_leb {A} (d c m : A -> string) (a b : A) : bool :=
  match String.compare (d a) (d b) with
  | Lt => true
  | Gt => false
  | Eq => match String.compare (c a) (c b) with
          | Lt => true
          | Gt => false
          | Eq => String.leb (m a) (m b)
          end
  end.

Definition min_str (l : list string) : option string :=
  match l with
  | [] => None
  | x :: l' => Some (fold_left (fun a b => if String.leb a b then a else b) l' x)
  end.

Definition max_str (l : list string) : option string :=
  match l with
  | [] => None
  | x :: l' => Some (fold_left (fun a b => if String.leb a b then b else a) l' x)
  end.

Definition trend_key (r : registration) :=
  (date r, year r, month r, quarter r, vehicle_category r, manufacturer r).

Definition trend_key_eqb (a b : string * Z * Z * string * string * string) : bool :=
  let '(d, y, m, q, c, f) := a in
  let '(d', y', m', q', c', f') := b in
  String.eqb d d' && Z.eqb y y' && Z.eqb m m' && String.eqb q q' &&
  String.eqb c c' && String.eqb f f'.

Definition category_summary_of (g : string * table) : category_summary :=
  {| cs_vehicle_category := fst g;
     cs_total_registrations := sum_int (map registrations (snd g));
     cs_avg_yoy_growth := sql_avg (map yoy_growth (snd g));
     cs_avg_qoq_growth := sql_avg (map qoq_growth (snd g));
     cs_num_manufacturers :=
       Z.of_nat (List.length (distinct String.eqb (map manufacturer (snd g)))) |}.

Definition manufacturer_summary_of (g : string * string * table) : manufacturer_summary :=
  {| ms_manufacturer := fst (fst g);
     ms_vehicle_category := snd (fst g);
     ms_total_registrations := sum_int (map registrations (snd g));
     ms_avg_yoy_growth := sql_avg (map yoy_growth (snd g));
     ms_avg_qoq_growth := sql_avg (map qoq_growth (snd g)) |}.

Definition monthly_trend_of
    (g : string * Z * Z * string * string * string * table) : monthly_trend :=
  let '(d, y, m, q, c, f) := fst g in
  {| mt_date := d; mt_year := y; mt_month := m; mt_quarter := q;
     mt_vehicle_category := c; mt_manufacturer := f;
     mt_registrations := sum_int (map registrations (snd g));
     mt_yoy_growth := sql_avg (map yoy_growth (snd g));
     mt_qoq_growth := sql_avg (map qoq_growth (snd g)) |}.

Definition growth_leader_of (col : growth_column) (g : string * string * table)
    : growth_leader :=
  {| gl_manufacturer := fst (fst g);
     gl_vehicle_category := snd (fst g);
     avg_growth := sql_avg (map (growth_of col) (snd g));
     total_registrations := sum_int (map registrations (snd g)) |}.

(** The scalar subquery of the market-share statement is evaluated once,
    [denominator], and used on every row. *)
Definition market_share_of (denominator : option Z) (g : string * table)
    : market_share_row :=
  let total := sum_int (map registrations (snd g)) in
  {| sh_manufacturer := fst g;
     sh_total_registrations := total;
     market_share := sql_round2 (percent_of total denominator) |}.

(** The meaning of each statement on the table.  SQL leaves the order of
    rows that tie under an ORDER BY open (SQLite lists tied groups in the
    order of their GROUP BY key); here they keep the order of the scan, and
    no statement below depends on the order of tied rows. *)
Definition sqlite_eval (t : table) {A} (q : query A) : list A :=
  match q in query T return list T with
  | SelectDateRange =>
      [ {| min_date := min_str (map date t); max_date := max_str (map date t) |} ]
  | SelectCategories =>
      sort_by String.leb (distinct String.eqb (map vehicle_category t))
  | SelectManufacturers w =>
      sort_by String.leb (distinct String.eqb (map manufacturer (select_where w t)))
  | SelectRegistrations w =>
      sort_by (date_category_manufacturer_leb date vehicle_category manufacturer)
              (select_where w t)
  | SelectCategorySummary w =>
      sort_by (fun a b => Z.leb (cs_total_registrations b) (cs_total_registrations a))
              (map category_summary_of
                   (group_by String.eqb vehicle_category (select_where w t)))
  | SelectManufacturerSummary w =>
      sort_by (fun a b => Z.leb (ms_total_registrations b) (ms_total_registrations a))
              (map manufacturer_summary_of
                   (group_by pair_eqb by_manufacturer_category (select_where w t)))
  | SelectMonthlyTrends w =>
      sort_by (date_category_manufacturer_leb mt_date mt_vehicle_category mt_manufacturer)
              (map monthly_trend_of
                   (group_by trend_key_eqb trend_key (select_where w t)))
  | SelectGrowthLeaders col w =>
      firstn 10
        (sort_by (fun a b => sql_leb (avg_growth b) (avg_growth a))
           (filter (fun g => Z.ltb 1000 (total_registrations g))
              (map (growth_leader_of col)
                   (group_by pair_eqb by_manufacturer_category (select_where w t)))))
  | SelectMarketShare total_where w =>
      let denominator := sql_sum (map registrations (select_where total_where t)) in
      sort_by (fun a b => Z.leb (sh_total_registrations b) (sh_total_registrations a))
              (map (market_share_of denominator)
                   (group_by String.eqb manufacturer (select_where w t)))
  end.

(** ** [DatabaseManager] *)

(** What the methods call outside the repository: [sqlite3.connect] and
    [pd.read_sql_query], either of which may raise. *)
Record Backend : Type := {
  connection : Type;
  sqlite3_connect : string -> result connection;
  read_sql_query : forall A, query A -> connection -> result (list A)
}.

(** The clock and the date parser used by [get_date_range]:
    [clock n] is the n-th reading of [datetime.now()] and [to_datetime] is
    [pd.to_datetime] on one cell ([None] being NaT), which raises on text
    that is no date. *)
Record Clock : Type := {
  clock : nat -> datetime;
  to_datetime : option string -> result (option datetime)
}.

(** ['yoy_growth' if growth_type == 'yoy' else 'qoq_growth'] *)
Definition growth_column_of (growth_type : string) : growth_column :=
  if String.eqb growth_type "yoy" then YoyGrowth else QoqGrowth.

Record DatabaseManager : Type := {
  db_path : string
}.

Section Manager.
Variable backend : Backend.
Variable time : Clock.
Variable self : DatabaseManager.

Definition get_connection : result (connection backend) :=
  sqlite3_connect backend (db_path self).

(** [try: ... return df  except Exception: return pd.DataFrame()] *)
Definition execute_query {A} (q : query A) : result (list A) :=
  try_catch
    (conn <- get_connection ;;
     df <- read_sql_query backend A q conn ;;
     Ok df)
    (fun _ => Ok []).

Definition get_date_range : result (option datetime * option datetime) :=
  result_ <- execute_query SelectDateRange ;;
  match result_ with
  | row :: _ =>
      min_d <- to_datetime time (min_date row) ;;
      max_d <- to_datetime time (max_date row) ;;
      Ok (min_d, max_d)
  | [] =>
      Ok (Some (minus_days (clock time 0) 365), Some (clock time 1))
  end.

Definition get_vehicle_categories : result (list string) :=
  result_ <- execute_query SelectCategories ;;
  Ok (match result_ with
      | _ :: _ => result_
      | [] => []
      end).

Definition manufacturers_query (vehicle_category : option string) : query string :=
  if truthy_str vehicle_category
  then SelectManufacturers [CategoryEq (str_of vehicle_category)]
  else SelectManufacturers [].

Definition get_manufacturers (vehicle_category : option string)
    : result (list string) :=
  result_ <- execute_query (manufacturers_query vehicle_category) ;;
  Ok (match result_ with
      | _ :: _ => result_
      | [] => []
      end).

(** The WHERE clause shared by [get_filtered_data] and
    [get_monthly_trends]: the date range, then one IN condition per list
    that is truthy. *)
Definition filter_conditions (start_date end_date : datetime)
    (vehicle_categories manufacturers : option (list string)) : list condition :=
  let where_ := [DateBetween (strftime_ymd start_date) (strftime_ymd end_date)] in
  let where_ :=
    if truthy_list vehicle_categories
    then where_ ++ [CategoryIn (list_of vehicle_categories)]
    else where_ in
  let where_ :=
    if truthy_list manufacturers
    then where_ ++ [ManufacturerIn (list_of manufacturers)]
    else where_ in
  where_.

Definition filtered_data_query (start_date end_date : datetime)
    (vehicle_categories manufacturers : option (list string)) : query registration :=
  SelectRegistrations
    (filter_conditions start_date end_date vehicle_categories manufacturers).

Definition get_filtered_data (start_date end_date : datetime)
    (vehicle_categories manufacturers : option (list string))
    : result (list registration) :=
  execute_query
    (filtered_data_query start_date end_date vehicle_categories manufacturers).

Definition category_summary_query (start_date end_date : datetime)
    : query category_summary :=
  SelectCategorySummary
    [DateBetween (strftime_ymd start_date) (strftime_ymd end_date)].

Definition get_category_summary (start_date end_date : datetime)
    : result (list category_summary) :=
  execute_query (category_summary_query start_date end_date).

Definition manufacturer_summary_query (start_date end_date : datetime)
    (vehicle_category : option string) : query manufacturer_summary :=
  let where_ := [DateBetween (strftime_ymd start_date) (strftime_ymd end_date)] in
  let where_ :=
    if truthy_str vehicle_category
    then where_ ++ [CategoryEq (str_of vehicle_category)]
    else where_ in
  SelectManufacturerSummary where_.

Definition get_manufacturer_summary (start_date end_date : datetime)
    (vehicle_category : option string) : result (list manufacturer_summary) :=
  execute_query (manufacturer_summary_query start_date end_date vehicle_category).

Definition monthly_trends_query (start_date end_date : datetime)
    (vehicle_categories manufacturers : option (list string)) : query monthly_trend :=
  SelectMonthlyTrends
    (filter_conditions start_date end_date vehicle_categories manufacturers).

Definition get_monthly_trends (start_date end_date : datetime)
    (vehicle_categories manufacturers : option (list string))
    : result (list monthly_trend) :=
  execute_query
    (monthly_trends_query start_date end_date vehicle_categories manufacturers).

Definition growth_leaders_query (start_date end_date : datetime)
    (growth_type : string) : query growth_leader :=
  let growth_column := growth_column_of growth_type in
  SelectGrowthLeaders growth_column
    [DateBetween (strftime_ymd start_date) (strftime_ymd end_date);
     GrowthNotNull growth_column].

Definition get_growth_leaders (start_date end_date : datetime)
    (growth_type : string) : result (list growth_leader) :=
  execute_query (growth_leaders_query start_date end_date growth_type).

Definition market_share_query (start_date end_date : datetime)
    (vehicle_category : string) : query market_share_row :=
  SelectMarketShare
    [DateBetween (strftime_ymd start_date) (strftime_ymd end_date);
     CategoryEq vehicle_category]
    [DateBetween (strftime_ymd start_date) (strftime_ymd end_date);
     CategoryEq vehicle_category].

Definition get_market_share_data (start_date end_date : datetime)
    (vehicle_category : string) : result (list market_share_row) :=
  execute_query (market_share_query start_date end_date vehicle_category).
End Manager.

(** The database file as a connection finds it: [None] when it holds no
    table [vehicle_registrations] (a file [sqlite3.connect] has just
    created), on which every statement raises.  What a connection does to
    the files themselves is in [Files] below. *)
Definition sqlite (db : option table) : Backend :=
  {| connection := option table;
     sqlite3_connect := fun _ => Ok db;
     read_sql_query := fun A q conn =>
       match conn with
       | Some t => Ok (sqlite_eval t q)
       | None => Raise (Exception "no such table: vehicle_registrations")
       end |}.


(** ** The filter contract as the specification words it *)

(** "whose category is in [categories] if provided (else all categories)":
    a provided set, empty or not, allows exactly its members. *)
Definition spec_allows (provided : option (list string)) (x : string) : Prop :=
  match provided with
  | None => True
  | Some l => In x l
  end.

(** What the assembled WHERE clause allows: a list that is [None] or empty
    adds no condition. *)
Definition allows (provided : option (list string)) (x : string) : Prop :=
  match provided with
  | Some (y :: l) => In x (y :: l)
  | _ => True
  end.

(** The date of the row lies in the closed range, in the byte order in which
    SQLite compares the stored text with the two bounds. *)
Definition in_range (start_date end_date : datetime) (r : registration) : Prop :=
  String.leb (strftime_ymd start_date) (date r) = true /\
  String.leb (date r) (strftime_ymd end_date) = true.


(** ** Sample data for the store *)

Definition vehicle_data_db : DatabaseManager := {| db_path := "vehicle_data.db" |}.

Definition sample_row (d c m : string) (n : Z) : registration :=
  {| date := d; year := 2024; month := 1; quarter := "Q1";
     vehicle_category := c; manufacturer := m; registrations := n;
     prev_year_registrations := None; yoy_growth := None;
     prev_quarter_registrations := None; qoq_growth := None |}.

Definition jan_2024 : datetime := {| dt_year := 2024; dt_month := 1; dt_day := 1 |}.
Definition dec_2024 : datetime := {| dt_year := 2024; dt_month := 12; dt_day := 31 |}.

Definition honda_row : registration :=
  sample_row "2024-01-31 00:00:00" "2W" "Honda" 300000.

(** The rows of [t] that the growth-leaders statement groups: in the date
    range and with the growth column not NULL. *)
Definition leaders_rows (t : table) (start_date end_date : datetime)
    (growth_type : string) : table :=
  select_where
    [DateBetween (strftime_ymd start_date) (strftime_ymd end_date);
     GrowthNotNull (growth_column_of growth_type)] t.

(** The group of manufacturer [m] in category [c] among them, and its
    [total_registrations]. *)
Definition leaders_group (t : table) (start_date end_date : datetime)
    (growth_type : string) (m c : string) : table :=
  filter (fun r => pair_eqb (by_manufacturer_category r) (m, c))
         (leaders_rows t start_date end_date growth_type).

Definition leaders_group_total (t : table) (start_date end_date : datetime)
    (growth_type : string) (m c : string) : Z :=
  sum_int (map registrations (leaders_group t start_date end_date growth_type m c)).

(** The groups that pass HAVING total_registrations > 1000. *)
Definition leaders_qualifying (t : table) (start_date end_date : datetime)
    (growth_type : string) : list growth_leader :=
  filter (fun g => Z.ltb 1000 (total_registrations g))
    (map (growth_leader_of (growth_column_of growth_type))
         (group_by pair_eqb by_manufacturer_category
                   (leaders_rows t start_date end_date growth_type))).

(** [a] ranks at least as high as [b] under ORDER BY avg_growth DESC. *)
Definition outranks (a b : growth_leader) : Prop :=
  sql_leb (avg_growth b) (avg_growth a) = true.

Definition growth_row (m : string) (n : Z) (yoy : Q) : registration :=
  {| date := "2024-01-31 00:00:00"; year := 2024; month := 1; quarter := "Q1";
     vehicle_category := "3W"; manufacturer := m; registrations := n;
     prev_year_registrations := None; yoy_growth := Some (Finite yoy);
     prev_quarter_registrations := None; qoq_growth := None |}.

(** A store in which the smallest manufacturer has the highest growth. *)
Definition leaders_sample : table :=
  [ growth_row "Atul Auto" 1000 (95 # 1);
    growth_row "Bajaj" 11250 (8 # 1);
    growth_row "Piaggio" 2500 (12 # 1) ].

(** ** Market share: the quantities the claim speaks of *)

(** The rows of the category in the range: the WHERE clause of both the
    outer statement and its scalar subquery. *)
Definition share_rows (t : table) (start_date end_date : datetime)
    (vehicle_category : string) : table :=
  select_where
    [DateBetween (strftime_ymd start_date) (strftime_ymd end_date);
     CategoryEq vehicle_category] t.

(** The numeric value of a returned share (0 for NULL). *)
Definition share_value (r : market_share_row) : Q :=
  match market_share r with
  | Some (Finite q) => q
  | _ => 0%Q
  end.

Definition sum_Q (l : list Q) : Q := fold_right Qplus 0%Q l.

(** Sixty manufacturers of one category, one registration each. *)
Definition sixty_equal : table :=
  map (fun i => sample_row "2024-01-31 00:00:00" "2W"
                           (String (ascii_of_nat (48 + i)) "") 1)
      (seq 0 60).

(** The exact percentage [n * 100 / d] and its rounding to two decimals. *)
Definition exact_share (d n : Z) : Q := (inject_Z n * 100 / inject_Z d)%Q.

Definition rounded_share (d n : Z) : Q :=
  round_half_away (exact_share d n * 100) # 100.

(** The denominator of the shares: all registrations of the category in the
    range, every manufacturer included. *)
Definition category_total (t : table) (start_date end_date : datetime)
    (vehicle_category : string) : Z :=
  sum_int (map registrations (share_rows t start_date end_date vehicle_category)).

(** The registrations of one manufacturer among them. *)
Definition manufacturer_total (t : table) (start_date end_date : datetime)
    (vehicle_category m : string) : Z :=
  sum_int (map registrations
    (filter (fun x => String.eqb (manufacturer x) m)
            (share_rows t start_date end_date vehicle_category))).

(** Two manufacturers of category 4W. *)
Definition market_sample : table :=
  [ sample_row "2024-01-31 00:00:00" "4W" "Maruti Suzuki" 3;
    sample_row "2024-01-31 00:00:00" "4W" "Hyundai" 1;
    sample_row "2024-01-31 00:00:00" "2W" "Honda" 5 ].

(** ** Failure of the underlying query *)

(** The body of the [try] block of [execute_query] raises on [q]. *)
Definition statement_fails (backend : Backend) (self : DatabaseManager)
    {A} (q : query A) : Prop :=
  exists e,
    (conn <- get_connection backend self ;;
     read_sql_query backend A q conn) = Raise e.

(** Python's [len] of the values the methods return: the number of rows of
    a DataFrame, the length of a list, 2 for the pair of [get_date_range]. *)
Class PyLen (A : Type) : Type := py_len : A -> nat.

#[export] Instance PyLen_list {A} : PyLen (list A) := fun l => List.length l.
#[export] Instance PyLen_pair {A B} : PyLen (A * B) := fun _ => 2%nat.

(** "the method returns an empty result table rather than propagating the
    exception" *)
Definition spec_returns_empty {A} `{PyLen A} (r : result A) : Prop :=
  exists v, r = Ok v /\ py_len v = 0%nat.

Definition ascii_digit (c : ascii) : option Z :=
  let n := Z.of_N (N_of_ascii c) in
  if ((48 <=? n) && (n <=? 57))%Z then Some (n - 48) else None.

Fixpoint digits_value (acc : Z) (l : list ascii) : option Z :=
  match l with
  | [] => Some acc
  | c :: l' => match ascii_digit c with
               | Some n => digits_value (acc * 10 + n) l'
               | None => None
               end
  end.

(** A day of the calendar, in the years a pandas [Timestamp] holds with
    every unit. *)
Definition calendar_day (d : datetime) : bool :=
  ((1678 <=? dt_year d) && (dt_year d <=? 2261) &&
   (1 <=? dt_month d) && (dt_month d <=? 12) && (1 <=? dt_day d) &&
   (dt_year (civil_from_days (days_from_civil d)) =? dt_year d) &&
   (dt_month (civil_from_days (days_from_civil d)) =? dt_month d) &&
   (dt_day (civil_from_days (days_from_civil d)) =? dt_day d))%Z.

(** Nothing, or ' HH:MM:SS'. *)
Definition time_of_day (l : list ascii) : bool :=
  match l with
  | [] => true
  | [" "; h1; h2; ":"; m1; m2; ":"; s1; s2]%char =>
      match digits_value 0 [h1; h2], digits_value 0 [m1; m2],
            digits_value 0 [s1; s2] with
      | Some h, Some m, Some s => ((h <? 24) && (m <? 60) && (s <? 60))%Z
      | _, _, _ => false
      end
  | _ => false
  end.

(** [pd.to_datetime] on one cell, for the clock of the samples: NULL gives
    no date, the text [to_sql] writes for a day of the calendar
    ('YYYY-MM-DD', alone or followed by ' HH:MM:SS') gives that day, and
    text without a digit is refused, as pandas refuses it.  Other text is
    refused here too; pandas reads a date from some of it. *)
Definition parse_date (cell : option string) : result (option datetime) :=
  match cell with
  | None => Ok None
  | Some s =>
      match list_ascii_of_string s with
      | y1 :: y2 :: y3 :: y4 :: "-"%char :: m1 :: m2 :: "-"%char :: d1 :: d2 :: time =>
          match digits_value 0 [y1; y2; y3; y4], digits_value 0 [m1; m2],
                digits_value 0 [d1; d2] with
          | Some y, Some m, Some d =>
              let day := {| dt_year := y; dt_month := m; dt_day := d |} in
              if calendar_day day && time_of_day time
              then Ok (Some day)
              else Raise (Exception "Unknown datetime string format")
          | _, _, _ => Raise (Exception "Unknown datetime string format")
          end
      | _ => Raise (Exception "Unknown datetime string format")
      end
  end.

(** A clock that reads 15 June 2025 at every call. *)
Definition noon_clock : Clock :=
  {| clock := fun _ => {| dt_year := 2025; dt_month := 6; dt_day := 15 |};
     to_datetime := parse_date |}.

(** * [data_scraper.py] *)

Module Scraper.

(** ** binary64 *)

Definition float : Type := spec_float.

Definition prec : Z := 53.
Definition emax : Z := 1024.

(** The exponent of the smallest subnormal number. *)
Definition emin : Z := SpecFloat.emin prec emax.

Definition fsub : float -> float -> float := SFsub prec emax.
Definition fmul : float -> float -> float := SFmul prec emax.
Definition fdiv : float -> float -> float := SFdiv prec emax.

(** Conversion of an integer (an int64 cell, a Python int) to float64. *)
Definition float_of_int (n : Z) : float := binary_normalize prec emax n 0 false.

Definition NaN : float := S754_nan.
Definition pos_inf : float := S754_infinity false.
Definition neg_inf : float := S754_infinity true.

(** [pd.isna]: NaN marks an absent value. *)
Definition isna (x : float) : bool :=
  match x with
  | S754_nan => true
  | _ => false
  end.

Definition is_finite (x : float) : bool :=
  match x with
  | S754_zero _ | S754_finite _ _ _ => true
  | _ => false
  end.

(** [x] is a finite number of absolute value below [2^k]. *)
Definition magnitude_below (k : Z) (x : float) : Prop :=
  match x with
  | S754_zero _ => True
  | S754_finite _ m e => Zpos (digits2_pos m) + e <= k
  | _ => False
  end.

(** [m / 2^k] rounded to the nearest integer, ties to the even one. *)
Definition shift_round_even (m k : Z) : Z :=
  let q := m / 2 ^ k in
  let r := m mod 2 ^ k in
  match Z.compare (2 * r) (2 ^ k) with
  | Lt => q
  | Gt => q + 1
  | Eq => if Z.even q then q else q + 1
  end.

(** [np.rint] *)
Definition rint (x : float) : float :=
  match x with
  | S754_finite s m e =>
      if (0 <=? e)%Z then x
      else
        match shift_round_even (Zpos m) (- e) with
        | Z0 => S754_zero s
        | n => binary_normalize prec emax (if s then - n else n) 0 s
        end
  | _ => x
  end.

(** [Series.round(2)]: numpy multiplies by 10**2, rounds to the nearest
    integer and divides by 10**2. *)
Definition round2 (x : float) : float :=
  fdiv (rint (fmul x (float_of_int 100))) (float_of_int 100).

(** ** Rows of the DataFrame *)

(** A row as [generate_synthetic_data] builds it. *)
Record row : Type := {
  date : datetime;
  year : Z;
  month : Z;
  quarter : string;
  vehicle_category : string;
  manufacturer : string;
  registrations : Z
}.

(** A row after [calculate_growth_metrics]: four float64 columns more. *)
Record growth_row : Type := {
  base : row;
  prev_year_registrations : float;
  yoy_growth : float;
  prev_quarter_registrations : float;
  qoq_growth : float
}.

Definition datetime_compare (a b : datetime) : comparison :=
  match Z.compare (dt_year a) (dt_year b) with
  | Eq => match Z.compare (dt_month a) (dt_month b) with
          | Eq => Z.compare (dt_day a) (dt_day b)
          | c => c
          end
  | c => c
  end.

Definition datetime_leb (a b : datetime) : bool :=
  match datetime_compare a b with
  | Gt => false
  | _ => true
  end.

(** The order of [sort_values(['vehicle_category', 'manufacturer', 'date'])]. *)
Definition sort_values_leb (a b : row) : bool :=
  match String.compare (vehicle_category a) (vehicle_category b) with
  | Lt => true
  | Gt => false
  | Eq => match String.compare (manufacturer a) (manufacturer b) with
          | Lt => true
          | Gt => false
          | Eq => datetime_leb (date a) (date b)
          end
  end.

(** Two rows of the same group of [groupby(['vehicle_category', 'manufacturer'])]. *)
Definition same_group (a b : row) : bool :=
  String.eqb (vehicle_category a) (vehicle_category b) &&
  String.eqb (manufacturer a) (manufacturer b).

(** ** [calculate_growth_metrics] *)

(** The value [groupby(...)['registrations'].shift(periods)] gives row [r]:
    the registrations of the row [periods] places before it in its group,
    NaN when the group has no such row.  [earlier] holds the rows before [r]
    in the frame, the nearest first. *)
Definition shift_value (periods : nat) (earlier : list row) (r : row) : float :=
  match nth_error (filter (same_group r) (r :: earlier)) periods with
  | Some p => float_of_int (registrations p)
  | None => NaN
  end.

Fixpoint shift_from (periods : nat) (earlier rows : list row) : list float :=
  match rows with
  | [] => []
  | r :: rest => shift_value periods earlier r :: shift_from periods (r :: earlier) rest
  end.

Definition groupby_shift (periods : nat) (df : list row) : list float :=
  shift_from periods [] df.

(** [((registrations - prev) / prev * 100).round(2)] on one row. *)
Definition growth (registrations : Z) (prev : float) : float :=
  round2 (fmul (fdiv (fsub (float_of_int registrations) prev) prev)
               (float_of_int 100)).

Definition with_growth (r : row) (prev_year prev_quarter : float) : growth_row :=
  {| base := r;
     prev_year_registrations := prev_year;
     yoy_growth := growth (registrations r) prev_year;
     prev_quarter_registrations := prev_quarter;
     qoq_growth := growth (registrations r) prev_quarter |}.

(** Assignment of the new columns, row by row. *)
Fixpoint assign_columns (df : list row) (prev_year prev_quarter : list float)
    : list growth_row :=
  match df, prev_year, prev_quarter with
  | r :: df', y :: prev_year', q :: prev_quarter' =>
      with_growth r y q :: assign_columns df' prev_year' prev_quarter'
  | _, _, _ => []
  end.

Definition calculate_growth_metrics (df : list row) : list growth_row :=
  let df := sort_by sort_values_leb df in
  assign_columns df (groupby_shift 12 df) (groupby_shift 3 df).

(** The partition of a (category, manufacturer) pair, in the order of the
    frame. *)
Definition in_partition (c m : string) (r : row) : bool :=
  String.eqb (vehicle_category r) c && String.eqb (manufacturer r) m.

Definition partition (c m : string) (df : list growth_row) : list growth_row :=
  filter (fun g => in_partition c m (base g)) df.

(** The same computation read row by row: row [r], with the rows before it
    in [earlier], gets both lagged values at once. *)
Fixpoint enrich (earlier rows : list row) : list growth_row :=
  match rows with
  | [] => []
  | r :: rest =>
      with_growth r (shift_value 12 earlier r) (shift_value 3 earlier r)
        :: enrich (r :: earlier) rest
  end.

(** A frame of one partition with the given counts, one row a month from
    January 2020 on. *)
Definition monthly_row (k : nat) (n : Z) : row :=
  {| date := {| dt_year := 2020 + Z.of_nat k / 12;
                dt_month := Z.of_nat k mod 12 + 1; dt_day := 1 |};
     year := 2020 + Z.of_nat k / 12;
     month := Z.of_nat k mod 12 + 1;
     quarter := "Q";
     vehicle_category := "3W";
     manufacturer := "Piaggio";
     registrations := n |}.

Definition monthly_frame (counts : list Z) : list row :=
  map (fun kn => monthly_row (fst kn) (snd kn))
      (combine (seq 0 (List.length counts)) counts).

(** ** [generate_synthetic_data] *)

(** The factors of a count are positive real numbers; the code multiplies
    them in float64 and truncates the product.  [**] is the C library's
    [pow], whose last bit is not specified, so the factors are taken as the
    rationals their literals denote, and the product is exact. *)

(** A Python dict with string keys, in insertion order. *)
Definition dict (V : Type) : Type := list (string * V).

Fixpoint dict_get {V} (k : string) (d : dict V) : result V :=
  match d with
  | [] => Raise (Exception "KeyError")
  | (k', v) :: d' => if String.eqb k k' then Ok v else dict_get k d'
  end.

Definition categories : list string := ["2W"; "3W"; "4W"].

Definition manufacturers : dict (list string) :=
  [ ("2W", ["Hero MotoCorp"; "Honda"; "TVS"; "Bajaj"; "Yamaha"; "Royal Enfield"]);
    ("3W", ["Bajaj"; "Mahindra"; "TVS"; "Piaggio"; "Atul Auto"]);
    ("4W", ["Maruti Suzuki"; "Hyundai"; "Tata"; "Mahindra"; "Kia"; "Toyota"; "MG Motor"]) ].

Definition base_registrations : dict Z :=
  [ ("2W", 1200000); ("3W", 25000); ("4W", 280000) ].

Definition market_shares : dict (dict Q) :=
  [ ("2W", [ ("Hero MotoCorp", 35 # 100); ("Honda", 25 # 100); ("TVS", 15 # 100);
             ("Bajaj", 12 # 100); ("Yamaha", 8 # 100); ("Royal Enfield", 5 # 100) ]);
    ("3W", [ ("Bajaj", 45 # 100); ("Mahindra", 25 # 100); ("TVS", 15 # 100);
             ("Piaggio", 10 # 100); ("Atul Auto", 5 # 100) ]);
    ("4W", [ ("Maruti Suzuki", 40 # 100); ("Hyundai", 18 # 100); ("Tata", 12 # 100);
             ("Mahindra", 10 # 100); ("Kia", 8 # 100); ("Toyota", 7 # 100);
             ("MG Motor", 5 # 100) ]) ]%Q.

(** The last day of month [m] of year [y]. *)
Definition month_end (y m : Z) : datetime :=
  let next := if (m =? 12)%Z
              then {| dt_year := y + 1; dt_month := 1; dt_day := 1 |}
              else {| dt_year := y; dt_month := m + 1; dt_day := 1 |} in
  civil_from_days (days_from_civil next - 1).

(** [pd.date_range(start, end, freq='M')]: the month ends from [start] to
    [end_], both included. *)
Definition date_range_month_end (start end_ : datetime) : list datetime :=
  let first := dt_year start * 12 + (dt_month start - 1) in
  let last := dt_year end_ * 12 + (dt_month end_ - 1) in
  filter (fun d => (days_from_civil start <=? days_from_civil d)%Z &&
                   (days_from_civil d <=? days_from_civil end_)%Z)
         (map (fun k => let i := first + Z.of_nat k in month_end (i / 12) (i mod 12 + 1))
              (seq 0 (Z.to_nat (last - first + 1)))).

(** [str(n)] *)
Definition str (n : Z) : string := NilZero.string_of_int (Z.to_int n).

Definition mem_Z (x : Z) (l : list Z) : bool := existsb (Z.eqb x) l.

(** [int(x)]: truncation towards zero. *)
Definition int_of_Q (x : Q) : Z := Z.quot (Qnum x) (Zpos (Qden x)).

Definition seasonal_factor_of (month : Z) : Q :=
  if mem_Z month [10; 11] then 13 # 10
  else if mem_Z month [3; 4] then 11 # 10
  else if mem_Z month [7; 8] then 8 # 10
  else 1.

Definition covid_factor_of (year month : Z) : Q :=
  if ((year =? 2020) && (3 <=? month))%Z then 6 # 10
  else if ((year =? 2021) && (month <=? 6))%Z then 75 # 100
  else 1.

(** *** The schedule of a run

    What the loops do is fixed but for the random draws: one row per date,
    category and manufacturer, in this order.  A [slot] holds what a row is
    made from, the draw excepted. *)
Record slot : Type := {
  s_date : datetime;
  s_year : Z;
  s_month : Z;
  s_quarter : string;
  s_category : string;
  s_manufacturer : string;
  s_base_reg : Q;
  s_growth_factor : Q;
  s_seasonal_factor : Q;
  s_covid_factor : Q
}.

Definition row_of_slot (sl : slot) (u : Q) : row :=
  {| date := s_date sl; year := s_year sl; month := s_month sl;
     quarter := s_quarter sl; vehicle_category := s_category sl;
     manufacturer := s_manufacturer sl;
     registrations :=
       int_of_Q (s_base_reg sl * s_growth_factor sl * s_seasonal_factor sl *
                 s_covid_factor sl *
                 ((85 # 100) + ((115 # 100) - (85 # 100)) * u))%Q |}.

Definition is_ok {A} (r : result A) : bool :=
  match r with
  | Ok _ => true
  | Raise _ => false
  end.

Definition lookup {V} (default : V) (k : string) (d : dict V) : V :=
  match dict_get k d with
  | Ok v => v
  | Raise _ => default
  end.

Definition slot_of (date : datetime) (category manufacturer : string) : slot :=
  {| s_date := date; s_year := dt_year date; s_month := dt_month date;
     s_quarter := ("Q" ++ str ((dt_month date - 1) / 3 + 1))%string;
     s_category := category; s_manufacturer := manufacturer;
     s_base_reg :=
       (inject_Z (lookup 0%Z category base_registrations) *
        lookup 0 manufacturer (lookup [] category market_shares))%Q;
     s_growth_factor := Qpower (1 + (8 # 100)) (dt_year date - 2020);
     s_seasonal_factor := seasonal_factor_of (dt_month date);
     s_covid_factor := covid_factor_of (dt_year date) (dt_month date) |}.

Definition slots_of_category (date : datetime) (category : string) : list slot :=
  map (slot_of date category) (lookup [] category manufacturers).

Definition slots_of_month (date : datetime) : list slot :=
  flat_map (slots_of_category date) categories.

Definition schedule : list slot :=
  flat_map slots_of_month
    (date_range_month_end {| dt_year := 2020; dt_month := 1; dt_day := 1 |}
                          {| dt_year := 2024; dt_month := 12; dt_day := 31 |}).

(** Every key the loops look up for this category is in the dicts. *)
Definition category_ok (category : string) : bool :=
  is_ok (dict_get category base_registrations) &&
  is_ok (dict_get category market_shares) &&
  is_ok (dict_get category manufacturers) &&
  forallb (fun m => is_ok (dict_get m (lookup [] category market_shares)))
          (lookup [] category manufacturers).

Definition slot_nonneg (sl : slot) : bool :=
  Qle_bool 0 (s_base_reg sl) && Qle_bool 0 (s_growth_factor sl) &&
  Qle_bool 0 (s_seasonal_factor sl) && Qle_bool 0 (s_covid_factor sl).

Definition rows_of (slots : list slot) (us : list Q) : list row :=
  map (fun p => row_of_slot (fst p) (snd p)) (combine slots us).

(** A row without its count. *)
Definition describe (r : row) : datetime * Z * Z * string * string * string :=
  (date r, year r, month r, quarter r, vehicle_category r, manufacturer r).

(** The frame a run returns ([[]] if it raised). *)
Definition frame_of {S} (r : result (list row * S)) : list row :=
  match r with
  | Ok (df, _) => df
  | Raise _ => []
  end.

Section Generator.
(** The state of the process-wide generator of module [random], and
    [random.random()], which returns a number of [0, 1) and a new state.
    The code never seeds it. *)
Variable rng : Type.
Variable random : rng -> Q * rng.

(** The state of a run: the random generator and the list [data]. *)
Record gen_state : Type := {
  random_state : rng;
  data : list row
}.

Definition M (A : Type) : Type := gen_state -> result (A * gen_state).

Definition ret {A} (a : A) : M A := fun st => Ok (a, st).

Definition bind {A B} (m : M A) (k : A -> M B) : M B :=
  fun st => match m st with
            | Ok (a, st') => k a st'
            | Raise e => Raise e
            end.

Definition lift {A} (r : result A) : M A :=
  fun st => match r with
            | Ok a => Ok (a, st)
            | Raise e => Raise e
            end.

Fixpoint for_each {A} (l : list A) (body : A -> M unit) : M unit :=
  match l with
  | [] => ret tt
  | x :: l' => bind (body x) (fun _ => for_each l' body)
  end.

(** [random.uniform(a, b)] is [a + (b - a) * random()]. *)
Definition uniform (a b : Q) : M Q :=
  fun st =>
    let (u, s) := random (random_state st) in
    Ok ((a + (b - a) * u)%Q, {| random_state := s; data := data st |}).

(** [data.append(r)] *)
Definition append (r : row) : M unit :=
  fun st => Ok (tt, {| random_state := random_state st; data := data st ++ [r] |}).

(** The body of the innermost loop. *)
Definition generate_row (date : datetime) (year month : Z) (quarter : string)
    (growth_factor seasonal_factor covid_factor : Q)
    (category manufacturer : string) : M unit :=
  bind (lift (dict_get category base_registrations)) (fun base =>
  bind (lift (dict_get category market_shares)) (fun shares =>
  bind (lift (dict_get manufacturer shares)) (fun share =>
  let base_reg := (inject_Z base * share)%Q in
  bind (uniform (85 # 100) (115 # 100)) (fun random_factor =>
  let registrations :=
    int_of_Q (base_reg * growth_factor * seasonal_factor *
              covid_factor * random_factor)%Q in
  append {| date := date; year := year; month := month; quarter := quarter;
            vehicle_category := category; manufacturer := manufacturer;
            registrations := registrations |})))).

(** The body of the loop over the dates. *)
Definition generate_month (date : datetime) : M unit :=
  let month := dt_month date in
  let year := dt_year date in
  let quarter := ("Q" ++ str ((month - 1) / 3 + 1))%string in
  let seasonal_factor := seasonal_factor_of month in
  let years_since_2020 := year - 2020 in
  let growth_factor := Qpower (1 + (8 # 100)) years_since_2020 in
  let covid_factor := covid_factor_of year month in
  for_each categories (fun category =>
    bind (lift (dict_get category manufacturers)) (fun names =>
    for_each names (fun manufacturer =>
      generate_row date year month quarter
                   growth_factor seasonal_factor covid_factor
                   category manufacturer))).

(** One run, from the state [s] of the random generator: the frame and
    the state the generator is left in. *)
Definition generate_synthetic_data (s : rng) : result (list row * rng) :=
  let start_date := {| dt_year := 2020; dt_month := 1; dt_day := 1 |} in
  let end_date := {| dt_year := 2024; dt_month := 12; dt_day := 31 |} in
  let dates := date_range_month_end start_date end_date in
  match for_each dates generate_month {| random_state := s; data := [] |} with
  | Ok (_, st) => Ok (data st, random_state st)
  | Raise e => Raise e
  end.
(** The next [n] numbers the generator returns from state [s], and the
    state it is in after them. *)
Fixpoint draws (n : nat) (s : rng) : list Q :=
  match n with
  | O => []
  | S n' => fst (random s) :: draws n' (snd (random s))
  end.

Fixpoint advance (n : nat) (s : rng) : rng :=
  match n with
  | O => s
  | S n' => advance n' (snd (random s))
  end.

(** The effect of one pass of the innermost loop on the state. *)
Definition step_slot (st : gen_state) (sl : slot) : gen_state :=
  {| random_state := snd (random (random_state st));
     data := data st ++ [row_of_slot sl (fst (random (random_state st)))] |}.

Definition run_slots (slots : list slot) (st : gen_state) : gen_state :=
  fold_left step_slot slots st.
End Generator.

Arguments random_state {rng} _.
Arguments data {rng} _.

(** A linear congruential generator: the state is an integer, the number
    returned is [s mod 2^31 / 2^31]. *)
Definition lcg_random (s : Z) : Q * Z :=
  ((s mod 2147483648) # 2147483648, (1103515245 * s + 12345) mod 2147483648).

End Scraper.

(** * Orders and selections that the results of the store are stated with *)

(** [a] stands strictly before [b] in the byte order of text. *)
Definition text_lt (a b : string) : Prop := String.compare a b = Lt.

(** ORDER BY date, vehicle_category, manufacturer, as a relation on the
    three columns [d], [c] and [m] of any row type. *)
Definition by_date_category_manufacturer {A} (d c m : A -> string) (a b : A) : Prop :=
  text_lt (d a) (d b) \/
  (d a = d b /\
   (text_lt (c a) (c b) \/
    (c a = c b /\ (text_lt (m a) (m b) \/ m a = m b)))).

(** WHERE date BETWEEN ? AND ?, with the two bounds formatted by
    [strftime('%Y-%m-%d')]. *)
Definition rows_in_range (t : table) (start_date end_date : datetime) : table :=
  select_where [DateBetween (strftime_ymd start_date) (strftime_ymd end_date)] t.

(** The rows [get_manufacturer_summary] groups: the date range and, when
    the argument is truthy, the category. *)
Definition summary_rows (t : table) (start_date end_date : datetime)
    (vehicle_category : option string) : table :=
  select_where
    (if truthy_str vehicle_category
     then [DateBetween (strftime_ymd start_date) (strftime_ymd end_date)]
            ++ [CategoryEq (str_of vehicle_category)]
     else [DateBetween (strftime_ymd start_date) (strftime_ymd end_date)]) t.

(** Python truthiness of the [vehicle_category] argument as a condition on
    a row: [None] and the empty text select every category. *)
Definition category_selected (category : option string)
    (r : registration) : Prop :=
  match category with
  | Some (String a s) => vehicle_category r = String a s
  | _ => True
  end.


(** The rows of category [c] in the date range: one group of
    [get_category_summary]. *)
Definition category_rows (t : table) (start_date end_date : datetime)
    (c : string) : table :=
  filter (fun r => String.eqb (vehicle_category r) c)
         (rows_in_range t start_date end_date).

(** The rows of manufacturer [m] in category [c] among those
    [get_manufacturer_summary] selects: one of its groups. *)
Definition summary_group (t : table) (start_date end_date : datetime)
    (category : option string) (m c : string) : table :=
  filter (fun r => pair_eqb (by_manufacturer_category r) (m, c))
         (summary_rows t start_date end_date category).

(** The rows [get_monthly_trends] groups, which are the rows
    [get_filtered_data] returns. *)
Definition trend_rows (t : table) (start_date end_date : datetime)
    (vehicle_categories manufacturers : option (list string)) : table :=
  select_where
    (filter_conditions start_date end_date vehicle_categories manufacturers) t.

(** * [insights_analysis.py] *)

(** The market-leadership step of [analyze_market_trends] for one category:
    when the frame is not empty, [leader = market_share.iloc[0]] is
    reported in a line that formats [leader['market_share']] with [:.1f],
    which raises a TypeError on the [None] of a NULL share; nothing catches
    it.  The line itself is not modelled: the leader stands for it. *)
Section Insights.
Variable backend : Backend.
Variable self : DatabaseManager.

Definition market_leader (start_date end_date : datetime) (category : string)
    : result (option market_share_row) :=
  shares <- get_market_share_data backend self start_date end_date category ;;
  match shares with
  | leader :: _ =>
      match market_share leader with
      | Some _ => Ok (Some leader)
      | None =>
          Raise (Exception "unsupported format string passed to NoneType.__format__")
      end
  | [] => Ok None
  end.

(** [for category in ['2W', '3W', '4W']: ...] *)
Definition market_leaders (start_date end_date : datetime)
    : result (list (string * option market_share_row)) :=
  l2 <- market_leader start_date end_date "2W" ;;
  l3 <- market_leader start_date end_date "3W" ;;
  l4 <- market_leader start_date end_date "4W" ;;
  Ok [("2W", l2); ("3W", l3); ("4W", l4)].

(** [end_date = datetime.now(); start_date = end_date - timedelta(days=730)] *)
Definition analysis_period (now : datetime) : datetime * datetime :=
  (minus_days now 730, now).
End Insights.

(** The two key columns of a row of [get_manufacturer_summary]. *)
Definition ms_key (row : manufacturer_summary) : string * string :=
  (ms_manufacturer row, ms_vehicle_category row).

(** What the ORDER BY of [get_filtered_data] and [get_monthly_trends]
    compares: date, category and manufacturer. *)
Definition order_key (r : registration) : string * string * string :=
  (date r, vehicle_category r, manufacturer r).

(** The columns of one stored row as a row of [get_monthly_trends]. *)
Definition trend_columns (r : registration) : monthly_trend :=
  {| mt_date := date r; mt_year := year r; mt_month := month r;
     mt_quarter := quarter r; mt_vehicle_category := vehicle_category r;
     mt_manufacturer := manufacturer r; mt_registrations := registrations r;
     mt_yoy_growth := yoy_growth r; mt_qoq_growth := qoq_growth r |}.

(** * [dashboard.py] *)

Section Dashboard.
Variable backend : Backend.
Variable self : DatabaseManager.

(** [list(set(l))]: some listing, in an order Python does not fix, of the
    different elements of [l]. *)
Variable list_set : list string -> list string.

(** The options of the manufacturer filter in [main]:
    [manufacturers.extend(db.get_manufacturers(cat))] for each selected
    category and [list(set(manufacturers))], or every manufacturer when no
    category is selected; then [sorted(manufacturers)]. *)
Definition manufacturer_options (selected_categories : list string)
    : result (list string) :=
  manufacturers <-
    match selected_categories with
    | _ :: _ =>
        manufacturers <-
          fold_left
            (fun acc cat =>
               manufacturers <- acc ;;
               more <- get_manufacturers backend self (Some cat) ;;
               Ok (manufacturers ++ more))
            selected_categories (Ok []) ;;
        Ok (list_set manufacturers)
    | [] => get_manufacturers backend self None
    end ;;
  Ok (sort_by String.leb manufacturers).

(** An int64 cell holding [z]: two's complement on 64 bits. *)
Definition wrap_int64 (z : Z) : Z := ((z + 2 ^ 63) mod 2 ^ 64 - 2 ^ 63)%Z.

(** [Series.sum()] of an int64 column, which wraps around. *)
Definition int64_sum (col : list Z) : Z := wrap_int64 (sum_int col).

(** The two integer indicators of [main], as lines 152 and 155 compute
    them before they are formatted for display:
    [category_summary['total_registrations'].sum()] and
    [category_summary['num_manufacturers'].sum()].  [date_range] is the
    outcome of lines 86 to 113, the two dates read from the sidebar or
    [None] when [main] returned there (an exception, or fewer than two
    dates); [main] also returns before the indicators when no category is
    selected, and skips them when the summary is empty. *)
Definition key_indicators (date_range : option (datetime * datetime))
    (selected_categories : list string) : result (option (Z * Z)) :=
  match date_range with
  | None => Ok None
  | Some (start_date, end_date) =>
      match selected_categories with
      | [] => Ok None
      | _ :: _ =>
          category_summary <-
            get_category_summary backend self start_date end_date ;;
          Ok (match category_summary with
              | _ :: _ =>
                  Some (int64_sum (map cs_total_registrations category_summary),
                        int64_sum (map cs_num_manufacturers category_summary))
              | [] => None
              end)
      end
  end.
End Dashboard.

(** The number of different values in a list. *)
Definition count_distinct {K} (eqb : K -> K -> bool) (l : list K) : Z :=
  Z.of_nat (List.length (distinct eqb l)).

(** * The pipeline of [data_scraper.py] *)

Module Pipeline.
Import Scraper.

(** The count of a row before the random factor: the product of the
    factors the loops compute from the date, the category and the
    manufacturer. *)
Definition expected_count (sl : slot) : Q :=
  (s_base_reg sl * s_growth_factor sl * s_seasonal_factor sl * s_covid_factor sl)%Q.

(** The columns of a row other than its count, as the loops fill them. *)
Definition description (sl : slot) : datetime * Z * Z * string * string * string :=
  (s_date sl, s_year sl, s_month sl, s_quarter sl, s_category sl, s_manufacturer sl).

(** What identifies a record: date, category and manufacturer. *)
Definition key_of (r : row) : datetime * string * string :=
  (date r, vehicle_category r, manufacturer r).

Definition slot_key (sl : slot) : datetime * string * string :=
  (s_date sl, s_category sl, s_manufacturer sl).

Definition key_eqb (a b : datetime * string * string) : bool :=
  let '(d, c, m) := a in
  let '(d', c', m') := b in
  (dt_year d =? dt_year d')%Z && (dt_month d =? dt_month d')%Z &&
  (dt_day d =? dt_day d')%Z && String.eqb c c' && String.eqb m m'.

Fixpoint nodupb {A} (eqb : A -> A -> bool) (l : list A) : bool :=
  match l with
  | [] => true
  | x :: l' => negb (existsb (eqb x) l') && nodupb eqb l'
  end.

(** The slot makes a row of category [c] and manufacturer [m]. *)
Definition slot_in (c m : string) (sl : slot) : bool :=
  String.eqb (s_category sl) c && String.eqb (s_manufacturer sl) m.

(** The pairs of category and manufacturer the loops go through. *)
Definition configured : list (string * string) :=
  flat_map (fun c => map (pair c) (lookup [] c manufacturers)) categories.

(** The dates of the outer loop. *)
Definition month_ends : list datetime :=
  date_range_month_end {| dt_year := 2020; dt_month := 1; dt_day := 1 |}
                       {| dt_year := 2024; dt_month := 12; dt_day := 31 |}.

(** The number of months from January 2020 to the month of [d]. *)
Definition months_since_2020 (d : datetime) : Z :=
  ((dt_year d - 2020) * 12 + (dt_month d - 1))%Z.

(** The order of [sort_values(['vehicle_category', 'manufacturer', 'date'])]
    as a relation. *)
Definition by_category_manufacturer_date (a b : row) : Prop :=
  text_lt (vehicle_category a) (vehicle_category b) \/
  (vehicle_category a = vehicle_category b /\
   (text_lt (manufacturer a) (manufacturer b) \/
    (manufacturer a = manufacturer b /\ datetime_leb (date a) (date b) = true))).

(** The lagged count the positional shift gives the row at place [i] of
    its partition [part]. *)
Definition lagged (periods : nat) (part : list growth_row) (i : nat) : float :=
  if (periods <=? i)%nat
  then match nth_error part (i - periods) with
       | Some p => float_of_int (registrations (base p))
       | None => NaN
       end
  else NaN.

(** The product of the factors of a slot is large enough for a count of
    at least 1, and small enough for an int64 count. *)
Definition slot_countable (sl : slot) : bool :=
  Qle_bool 2 ((85 # 100) * expected_count sl) &&
  Qle_bool ((115 # 100) * expected_count sl) (inject_Z (2 ^ 62)).

Section Process.
Variable rng : Type.
Variable random : rng -> Q * rng.

(** [scrape_and_process_data]: the frame it computes and returns, from the
    state [s] of the random generator.  The two writes of the frame, to the
    database and to the CSV file, are not part of the model. *)
Definition scrape_and_process_data (s : rng) : result (list growth_row * rng) :=
  match generate_synthetic_data rng random s with
  | Ok (df, s') => Ok (calculate_growth_metrics df, s')
  | Raise e => Raise e
  end.
End Process.

End Pipeline.

(** * Growth leaders: the quantities of the specification *)

(** The rows of manufacturer [m] in category [c] in the date range, with or
    without a growth value: the group the specification ranks. *)
Definition group_in_range (t : table) (start_date end_date : datetime)
    (m c : string) : table :=
  filter (fun r => pair_eqb (by_manufacturer_category r) (m, c))
         (rows_in_range t start_date end_date).

(** Its [total_count], the registrations of the group in the range, and its
    [avg_growth], the mean of the growth values that are not absent ([None]
    when there is none). *)
Definition spec_total_count (t : table) (start_date end_date : datetime)
    (m c : string) : Z :=
  sum_int (map registrations (group_in_range t start_date end_date m c)).

Definition spec_avg_growth (t : table) (start_date end_date : datetime)
    (growth_type : string) (m c : string) : option real :=
  sql_avg (map (growth_of (growth_column_of growth_type))
               (group_in_range t start_date end_date m c)).

Definition leader_key (g : growth_leader) : string * string :=
  (gl_manufacturer g, gl_vehicle_category g).

(** The growth-leaders contract in the specification's words, with the
    threshold of the code: no group whose [total_count] is at or below 1000
    is in [rows]; [rows] descend by avg_growth; they are at most 10; and
    they are the top of the remaining groups, so that a group above the
    threshold with a growth value is left out only when 10 rows that rank
    at least as high are returned. *)
Definition spec_growth_leaders (t : table) (start_date end_date : datetime)
    (growth_type : string) (rows : list growth_leader) : Prop :=
  (forall g, In g rows ->
     (1000 < spec_total_count t start_date end_date
               (gl_manufacturer g) (gl_vehicle_category g))%Z) /\
  Sorted outranks rows /\
  (List.length rows <= 10)%nat /\
  forall m c,
    (1000 < spec_total_count t start_date end_date m c)%Z ->
    spec_avg_growth t start_date end_date growth_type m c <> None ->
    (exists g, In g rows /\ leader_key g = (m, c)) \/
    (List.length rows = 10%nat /\
     forall g, In g rows ->
       sql_leb (spec_avg_growth t start_date end_date growth_type m c)
               (avg_growth g) = true).

(** A store in which the manufacturer with the highest growth has 1800
    registrations in the range, 900 of them on a row without growth
    value. *)
Definition leaders_with_gap : table :=
  [ growth_row "Atul Auto" 900 (95 # 1);
    sample_row "2024-02-29 00:00:00" "3W" "Atul Auto" 900;
    growth_row "Bajaj" 11250 (8 # 1) ].

(** * The filter contract: periods *)

(** A day of a year whose [%Y] has four digits on every platform. *)
Definition four_digit_day (d : datetime) : Prop :=
  (1000 <= dt_year d <= 9999 /\ 1 <= dt_month d <= 12 /\ 1 <= dt_day d <= 31)%Z.

(** Day [a] is no later than day [b]. *)
Definition day_le (a b : datetime) : Prop :=
  (dt_year a < dt_year b \/
   (dt_year a = dt_year b /\
    (dt_month a < dt_month b \/
     (dt_month a = dt_month b /\ dt_day a <= dt_day b))))%Z.

(** The period of a stored record: its date text is day [d] written as
    'YYYY-MM-DD', followed by [time_of_day], which is empty or, as [to_sql]
    writes a datetime column, a time such as ' 00:00:00'. *)
Definition stored_on (r : registration) (d : datetime) (time_of_day : string) : Prop :=
  four_digit_day d /\ date r = (strftime_ymd d ++ time_of_day)%string.

(** "whose period lies within the inclusive range (both bounds inclusive)" *)
Definition period_in_range (start_date end_date : datetime) (r : registration) : Prop :=
  exists d time_of_day,
    stored_on r d time_of_day /\ day_le start_date d /\ day_le d end_date.

(** The contract of the filtered-data query in the specification's words:
    [rows] are exactly the records of the table that satisfy all three
    predicates. *)
Definition spec_filtered (t : table) (start_date end_date : datetime)
    (categories entities : option (list string)) (rows : list registration) : Prop :=
  forall r, In r rows <->
    In r t /\ period_in_range start_date end_date r /\
    spec_allows categories (vehicle_category r) /\
    spec_allows entities (manufacturer r).

(** * The database file and the calls made on it *)

(** What is at a path: something that cannot be opened as a database, no
    file, or a database file, which holds the table [vehicle_registrations]
    or does not. *)
Inductive file : Type :=
| Unreachable
| Missing
| Database (db : option table).

(** The table a file holds, when it holds one. *)
Definition stored_table (f : file) : option table :=
  match f with
  | Database db => db
  | _ => None
  end.

(** The files of the machine, by path, and the file at [path] replaced. *)
Definition files : Type := string -> file.

Definition write (path : string) (f : file) (fs : files) : files :=
  fun p => if String.eqb p path then f else fs p.

(** The methods of [DatabaseManager] as they act on the files. *)
Module Files.

(** A computation that may raise and may change the files. *)
Definition St (A : Type) : Type := files -> result A * files.

Definition ret {A} (a : A) : St A := fun fs => (Ok a, fs).

Definition bind {A B} (m : St A) (k : A -> St B) : St B :=
  fun fs => match m fs with
            | (Ok a, fs') => k a fs'
            | (Raise e, fs') => (Raise e, fs')
            end.

Definition lift {A} (r : result A) : St A := fun fs => (r, fs).

(** [try: m  except Exception: handler] *)
Definition try_catch {A} (m : St A) (handler : exn -> St A) : St A :=
  fun fs => match m fs with
            | (Ok a, fs') => (Ok a, fs')
            | (Raise e, fs') => handler e fs'
            end.

Section Manager.
Variable time : Clock.
Variable self : DatabaseManager.

(** [sqlite3.connect(self.db_path)] opens the database file, and creates an
    empty one first where there is no file. *)
Definition get_connection : St (option table) :=
  fun fs => match fs (db_path self) with
            | Unreachable => (Raise (Exception "unable to open database file"), fs)
            | Missing => (Ok None, write (db_path self) (Database None) fs)
            | Database db => (Ok db, fs)
            end.

(** [pd.read_sql_query(query, conn)]: a SELECT, which leaves the files as
    they are. *)
Definition read_sql_query {A} (q : query A) (conn : option table) : St (list A) :=
  lift (match conn with
        | Some t => Ok (sqlite_eval t q)
        | None => Raise (Exception "no such table: vehicle_registrations")
        end).

Definition execute_query {A} (q : query A) : St (list A) :=
  try_catch
    (bind get_connection (fun conn =>
     bind (read_sql_query q conn) (fun df =>
     ret df)))
    (fun _ => ret []).

Definition get_date_range : St (option datetime * option datetime) :=
  bind (execute_query SelectDateRange) (fun result_ =>
  match result_ with
  | row :: _ =>
      bind (lift (to_datetime time (min_date row))) (fun min_d =>
      bind (lift (to_datetime time (max_date row))) (fun max_d =>
      ret (min_d, max_d)))
  | [] => ret (Some (minus_days (clock time 0) 365), Some (clock time 1))
  end).

Definition get_vehicle_categories : St (list string) :=
  bind (execute_query SelectCategories) (fun result_ =>
  ret (match result_ with
       | _ :: _ => result_
       | [] => []
       end)).

Definition get_manufacturers (vehicle_category : option string) : St (list string) :=
  bind (execute_query (manufacturers_query vehicle_category)) (fun result_ =>
  ret (match result_ with
       | _ :: _ => result_
       | [] => []
       end)).

Definition get_filtered_data (start_date end_date : datetime)
    (vehicle_categories manufacturers : option (list string))
    : St (list registration) :=
  execute_query
    (filtered_data_query start_date end_date vehicle_categories manufacturers).

Definition get_category_summary (start_date end_date : datetime)
    : St (list category_summary) :=
  execute_query (category_summary_query start_date end_date).

Definition get_manufacturer_summary (start_date end_date : datetime)
    (vehicle_category : option string) : St (list manufacturer_summary) :=
  execute_query (manufacturer_summary_query start_date end_date vehicle_category).

Definition get_monthly_trends (start_date end_date : datetime)
    (vehicle_categories manufacturers : option (list string))
    : St (list monthly_trend) :=
  execute_query
    (monthly_trends_query start_date end_date vehicle_categories manufacturers).

Definition get_growth_leaders (start_date end_date : datetime)
    (growth_type : string) : St (list growth_leader) :=
  execute_query (growth_leaders_query start_date end_date growth_type).

Definition get_market_share_data (start_date end_date : datetime)
    (vehicle_category : string) : St (list market_share_row) :=
  execute_query (market_share_query start_date end_date vehicle_category).
End Manager.

End Files.

(** A call of a public query method, indexed by the type of what it
    returns. *)
Inductive call : Type -> Type :=
| GetDateRange : call (option datetime * option datetime)
| GetVehicleCategories : call (list string)
| GetManufacturers (vehicle_category : option string) : call (list string)
| GetFilteredData (start_date end_date : datetime)
    (vehicle_categories manufacturers : option (list string))
    : call (list registration)
| GetCategorySummary (start_date end_date : datetime) : call (list category_summary)
| GetManufacturerSummary (start_date end_date : datetime)
    (vehicle_category : option string) : call (list manufacturer_summary)
| GetMonthlyTrends (start_date end_date : datetime)
    (vehicle_categories manufacturers : option (list string))
    : call (list monthly_trend)
| GetGrowthLeaders (start_date end_date : datetime) (growth_type : string)
    : call (list growth_leader)
| GetMarketShareData (start_date end_date : datetime) (vehicle_category : string)
    : call (list market_share_row).

(** The call made on the files. *)
Definition perform (time : Clock) (self : DatabaseManager) {A} (c : call A)
    : Files.St A :=
  match c in call T return Files.St T with
  | GetDateRange => Files.get_date_range time self
  | GetVehicleCategories => Files.get_vehicle_categories self
  | GetManufacturers c => Files.get_manufacturers self c
  | GetFilteredData s e cs ms => Files.get_filtered_data self s e cs ms
  | GetCategorySummary s e => Files.get_category_summary self s e
  | GetManufacturerSummary s e c => Files.get_manufacturer_summary self s e c
  | GetMonthlyTrends s e cs ms => Files.get_monthly_trends self s e cs ms
  | GetGrowthLeaders s e g => Files.get_growth_leaders self s e g
  | GetMarketShareData s e c => Files.get_market_share_data self s e c
  end.

(** The call answered by a backend. *)
Definition answer (backend : Backend) (time : Clock) (self : DatabaseManager)
    {A} (c : call A) : result A :=
  match c in call T return result T with
  | GetDateRange => get_date_range backend time self
  | GetVehicleCategories => get_vehicle_categories backend self
  | GetManufacturers c => get_manufacturers backend self c
  | GetFilteredData s e cs ms => get_filtered_data backend self s e cs ms
  | GetCategorySummary s e => get_category_summary backend self s e
  | GetManufacturerSummary s e c => get_manufacturer_summary backend self s e c
  | GetMonthlyTrends s e cs ms => get_monthly_trends backend self s e cs ms
  | GetGrowthLeaders s e g => get_growth_leaders backend self s e g
  | GetMarketShareData s e c => get_market_share_data backend self s e c
  end.

(** A backend on which no connection can be made. *)
Definition unreachable : Backend :=
  {| connection := unit;
     sqlite3_connect := fun _ => Raise (Exception "unable to open database file");
     read_sql_query := fun A _ _ =>
       Raise (Exception "unable to open database file") |}.

(** How the libraries answer while the file at [db_path] is [f]. *)
Definition backend_of (f : file) : Backend :=
  match f with
  | Unreachable => unreachable
  | Missing => sqlite None
  | Database db => sqlite db
  end.

(** The files after a connection was made by [self]. *)
Definition opened (self : DatabaseManager) (fs : files) : files :=
  match fs (db_path self) with
  | Missing => write (db_path self) (Database None) fs
  | _ => fs
  end.
(** * Properties of the list operations *)

Section ListOpsFacts.
Context {A : Type}.
Variable leb : A -> A -> bool.

Lemma insert_sorted_perm (x : A) (l : list A) :
  Permutation (insert_sorted leb x l) (x :: l).
Proof.
  induction l as [|y l IH]; simpl.
  - apply Permutation_refl.
  - destruct (leb x y).
    + apply Permutation_refl.
    + eapply Permutation_trans.
      * apply perm_skip, IH.
      * apply perm_swap.
Qed.

Lemma sort_by_perm (l : list A) : Permutation (sort_by leb l) l.
Proof.
  induction l as [|x l IH]; simpl.
  - constructor.
  - eapply Permutation_trans.
    + apply insert_sorted_perm.
    + now apply perm_skip.
Qed.

Lemma sort_by_In (l : list A) (x : A) : In x (sort_by leb l) <-> In x l.
Proof.
  split; apply Permutation_in.
  - apply sort_by_perm.
  - apply Permutation_sym, sort_by_perm.
Qed.

Lemma sort_by_length (l : list A) : List.length (sort_by leb l) = List.length l.
Proof. apply Permutation_length, sort_by_perm. Qed.

Hypothesis leb_total : forall a b, leb a b = true \/ leb b a = true.

Lemma insert_sorted_sorted (x : A) (l : list A) :
  Sorted (fun a b => leb a b = true) l ->
  Sorted (fun a b => leb a b = true) (insert_sorted leb x l).
Proof.
  induction l as [|y l IH]; simpl; intros Hs.
  - repeat constructor.
  - destruct (leb x y) eqn:E.
    + constructor; [assumption | now constructor].
    + inversion Hs as [|? ? Hs' Hhd]; subst.
      constructor; [now apply IH |].
      destruct l as [|z l]; simpl.
      * constructor. destruct (leb_total x y) as [H|H]; congruence.
      * destruct (leb x z); constructor.
        -- destruct (leb_total x y) as [H|H]; congruence.
        -- now inversion Hhd.
Qed.

Lemma sort_by_sorted (l : list A) :
  Sorted (fun a b => leb a b = true) (sort_by leb l).
Proof.
  induction l as [|x l IH]; simpl.
  - constructor.
  - now apply insert_sorted_sorted.
Qed.
End ListOpsFacts.

Lemma mem_str_In (s : string) (l : list string) : mem_str s l = true <-> In s l.
Proof.
  unfold mem_str. rewrite existsb_exists. split.
  - intros (x & Hx & E). apply String.eqb_eq in E. now subst.
  - intros H. exists s. split; [assumption | apply String.eqb_refl].
Qed.

(** * The store's filtered-data query *)

Lemma holds_filter_conditions (s e : datetime) (cats mfrs : option (list string))
    (r : registration) :
  forallb (holds r) (filter_conditions s e cats mfrs) = true <->
  in_range s e r /\ allows cats (vehicle_category r) /\ allows mfrs (manufacturer r).
Proof.
  unfold filter_conditions, in_range, allows.
  destruct cats as [[|c cs]|], mfrs as [[|m ms]|];
    cbn [truthy_list list_of app forallb holds];
    rewrite ?andb_true_iff, ?mem_str_In; tauto.
Qed.

Section FilteredData.
Variable t : table.
Variable self : DatabaseManager.
Variables start_date end_date : datetime.
Variables vehicle_categories manufacturers : option (list string).

Let selected : table :=
  select_where
    (filter_conditions start_date end_date vehicle_categories manufacturers) t.

Lemma get_filtered_data_eval :
  get_filtered_data (sqlite (Some t)) self start_date end_date
                    vehicle_categories manufacturers
  = Ok (sort_by (date_category_manufacturer_leb date vehicle_category manufacturer)
                selected).
Proof. reflexivity. Qed.

Lemma selected_In (r : registration) :
  In r selected <->
  In r t /\ in_range start_date end_date r /\
  allows vehicle_categories (vehicle_category r) /\
  allows manufacturers (manufacturer r).
Proof.
  unfold selected, select_where.
  rewrite filter_In, holds_filter_conditions. tauto.
Qed.
End FilteredData.


Lemma filtered_data_rows (t : table) (self : DatabaseManager)
    (start_date end_date : datetime)
    (vehicle_categories manufacturers : option (list string)) :
  exists rows,
    get_filtered_data (sqlite (Some t)) self start_date end_date
                      vehicle_categories manufacturers = Ok rows /\
    Permutation rows
      (filter (fun r => forallb (holds r)
                 (filter_conditions start_date end_date vehicle_categories manufacturers))
              t) /\
    forall r, In r rows <->
      In r t /\ in_range start_date end_date r /\
      allows vehicle_categories (vehicle_category r) /\
      allows manufacturers (manufacturer r).
Proof.
  eexists. split; [apply get_filtered_data_eval |]. split.
  - apply sort_by_perm.
  - intros r. rewrite sort_by_In. apply selected_In.
Qed.

(** C2, as amended.  A categories filter passed as an explicitly empty list
    is treated exactly as an omitted one, on any backend; on a store holding
    [t] the result then has the rows of every category that lie in the range
    and whose manufacturer is allowed. *)
Theorem get_filtered_data_empty_is_omitted :
  forall (backend : Backend) (t : table) (self : DatabaseManager)
         (start_date end_date : datetime) (manufacturers : option (list string)),
    get_filtered_data backend self start_date end_date (Some []) manufacturers
    = get_filtered_data backend self start_date end_date None manufacturers /\
    exists rows,
      get_filtered_data (sqlite (Some t)) self start_date end_date (Some []) manufacturers
      = Ok rows /\
      forall r, In r rows <->
        In r t /\ in_range start_date end_date r /\
        allows manufacturers (manufacturer r).
Proof.
  intros. split; [reflexivity |].
  destruct (filtered_data_rows t self start_date end_date (Some []) manufacturers)
    as (rows & E & _ & H).
  exists rows. split; [exact E |].
  intros r. rewrite H. simpl. tauto.
Qed.

(** C2 as stated fails: with the categories filter explicitly empty the
    query still returns the row in range. *)
Lemma get_filtered_data_empty_categories_nonempty :
  get_filtered_data (sqlite (Some [honda_row])) vehicle_data_db jan_2024 dec_2024
                    (Some []) None = Ok [honda_row] /\
  get_filtered_data (sqlite (Some [honda_row])) vehicle_data_db jan_2024 dec_2024
                    (Some []) None <> Ok [].
Proof. split; [reflexivity | discriminate]. Qed.

(** * Growth leaders *)

Lemma real_leb_total (x y : real) : real_leb x y = true \/ real_leb y x = true.
Proof.
  destruct x as [a|[|]], y as [b|[|]]; simpl; auto.
  destruct (Qlt_le_dec b a) as [H|H].
  - right. apply Qle_bool_iff. now apply Qlt_le_weak.
  - left. now apply Qle_bool_iff.
Qed.

Lemma real_leb_trans (x y z : real) :
  real_leb x y = true -> real_leb y z = true -> real_leb x z = true.
Proof.
  destruct x as [a|[|]], y as [b|[|]], z as [c|[|]]; simpl; auto; try discriminate.
  rewrite !Qle_bool_iff. apply Qle_trans.
Qed.

Lemma sql_leb_total (x y : option real) : sql_leb x y = true \/ sql_leb y x = true.
Proof. destruct x, y; simpl; auto. apply real_leb_total. Qed.

Lemma sql_leb_trans (x y z : option real) :
  sql_leb x y = true -> sql_leb y z = true -> sql_leb x z = true.
Proof.
  destruct x, y, z; simpl; auto; try discriminate. apply real_leb_trans.
Qed.

Section SortedFacts.
Context {A : Type}.
Variable R : A -> A -> Prop.

Lemma Sorted_firstn (n : nat) (l : list A) : Sorted R l -> Sorted R (firstn n l).
Proof.
  revert l. induction n as [|n IH]; intros l Hs; simpl.
  - constructor.
  - destruct l as [|x l]; [constructor |].
    inversion Hs as [|? ? Hs' Hhd]; subst.
    constructor; [now apply IH |].
    destruct n, l; simpl; try constructor. now inversion Hhd.
Qed.

Lemma In_firstn_In (n : nat) (l : list A) (x : A) : In x (firstn n l) -> In x l.
Proof.
  intros H. rewrite <- (firstn_skipn n l). apply in_or_app. now left.
Qed.

Lemma StronglySorted_app_le (l1 l2 : list A) :
  StronglySorted R (l1 ++ l2) ->
  forall a b, In a l1 -> In b l2 -> R a b.
Proof.
  induction l1 as [|x l1 IH]; simpl; intros Hs a b Ha Hb; [contradiction |].
  inversion Hs as [|? ? Hs' Hall]; subst.
  destruct Ha as [<-|Ha].
  - rewrite Forall_forall in Hall. apply Hall, in_or_app. now right.
  - now apply IH.
Qed.
End SortedFacts.

(** A row of the grouped relation carries the total of its own group. *)
Lemma growth_leader_group (col : growth_column) (rows : table) (g : growth_leader) :
  In g (map (growth_leader_of col) (group_by pair_eqb by_manufacturer_category rows)) ->
  total_registrations g =
    sum_int (map registrations
      (filter (fun r => pair_eqb (by_manufacturer_category r)
                                 (gl_manufacturer g, gl_vehicle_category g)) rows)).
Proof.
  unfold group_by. rewrite map_map, in_map_iff.
  intros (k & <- & _). destruct k as [m c]. reflexivity.
Qed.

Lemma get_growth_leaders_eval (t : table) (self : DatabaseManager)
    (start_date end_date : datetime) (growth_type : string) :
  get_growth_leaders (sqlite (Some t)) self start_date end_date growth_type
  = Ok (firstn 10 (sort_by (fun a b => sql_leb (avg_growth b) (avg_growth a))
                           (leaders_qualifying t start_date end_date growth_type))).
Proof. reflexivity. Qed.

Example growth_leaders_sample :
  get_growth_leaders (sqlite (Some leaders_sample)) vehicle_data_db jan_2024 dec_2024 "yoy"
  = Ok [ {| gl_manufacturer := "Piaggio"; gl_vehicle_category := "3W";
            avg_growth := Some (Finite ((0 + (12 # 1)) / inject_Z (Z.of_nat 1)));
            total_registrations := 2500 |};
         {| gl_manufacturer := "Bajaj"; gl_vehicle_category := "3W";
            avg_growth := Some (Finite ((0 + (8 # 1)) / inject_Z (Z.of_nat 1)));
            total_registrations := 11250 |} ].
Proof. reflexivity. Qed.

(** * Grouping *)

Section Grouping.
Context {A K : Type}.
Variable eqb : K -> K -> bool.
Hypothesis eqb_eq : forall a b, eqb a b = true <-> a = b.
Variable key : A -> K.
Variable f : A -> Z.

Let total (l : list A) : Z := sum_int (map f l).

Lemma distinct_In (l : list K) (x : K) : In x (distinct eqb l) <-> In x l.
Proof.
  induction l as [|y l IH]; simpl; [tauto |].
  rewrite filter_In, IH. split.
  - intros [->|[H _]]; auto.
  - intros [->|H]; [now left |].
    destruct (eqb y x) eqn:E.
    + left. now apply eqb_eq.
    + right. now split.
Qed.

Lemma distinct_NoDup (l : list K) : NoDup (distinct eqb l).
Proof.
  induction l as [|y l IH]; simpl; constructor.
  - rewrite filter_In. intros [_ H].
    assert (E : eqb y y = true) by now apply eqb_eq.
    now rewrite E in H.
  - now apply NoDup_filter.
Qed.

Lemma total_split (p : A -> bool) (l : list A) :
  total (filter p l) + total (filter (fun x => negb (p x)) l) = total l.
Proof.
  unfold total. induction l as [|x l IH]; simpl; [reflexivity |].
  destruct (p x); simpl; lia.
Qed.

Lemma filter_filter_key (k k' : K) (l : list A) :
  k <> k' ->
  filter (fun x => eqb (key x) k') (filter (fun x => negb (eqb (key x) k)) l)
  = filter (fun x => eqb (key x) k') l.
Proof.
  intros Hne. induction l as [|x l IH]; simpl; [reflexivity |].
  destruct (eqb (key x) k) eqn:E; simpl.
  - apply eqb_eq in E.
    destruct (eqb (key x) k') eqn:E'; [| exact IH].
    apply eqb_eq in E'. congruence.
  - now rewrite IH.
Qed.

(** The totals of the groups add up to the total of the rows. *)
Lemma group_totals (ks : list K) (l : list A) :
  NoDup ks ->
  (forall x, In x l -> In (key x) ks) ->
  sum_int (map (fun k => total (filter (fun x => eqb (key x) k) l)) ks) = total l.
Proof.
  intros Hnd. revert l. induction Hnd as [|k ks Hk Hnd IH]; intros l Hcover.
  - destruct l as [|x l]; [reflexivity |]. destruct (Hcover x). now left.
  - simpl. rewrite <- (total_split (fun x => eqb (key x) k) l). f_equal.
    rewrite <- (IH (filter (fun x => negb (eqb (key x) k)) l)).
    + f_equal. apply map_ext_in. intros k' Hk'.
      rewrite filter_filter_key; [reflexivity |]. congruence.
    + intros x Hx. apply filter_In in Hx as [Hx Hneq].
      destruct (Hcover x Hx) as [E0|H]; [| exact H].
      assert (E : eqb (key x) k = true) by now apply eqb_eq.
      now rewrite E in Hneq.
Qed.
End Grouping.

Lemma sum_int_perm (l l' : list Z) : Permutation l l' -> sum_int l = sum_int l'.
Proof.
  induction 1; simpl; lia.
Qed.

(** * Market share *)

Lemma round_half_away_near (x : Q) :
  (x - (1 # 2) <= inject_Z (round_half_away x) <= x + (1 # 2))%Q.
Proof.
  destruct x as [n d]. unfold round_half_away, Qle.
  cbn [Qnum Qden Qminus Qplus Qopp inject_Z]. simpl Qnum. simpl Qden.
  set (D := Z.pos d).
  assert (HD : 0 < D) by (unfold D; lia).
  rewrite !Pos2Z.inj_mul. fold D.
  pose proof (Z.div_mod (2 * Z.abs n + D) (2 * D) ltac:(lia)) as E.
  pose proof (Z.mod_pos_bound (2 * Z.abs n + D) (2 * D) ltac:(lia)) as B.
  set (k := (2 * Z.abs n + D) / (2 * D)) in *.
  set (m := (2 * Z.abs n + D) mod (2 * D)) in *.
  destruct (Z.sgn_spec n) as [[Hn Hs]|[[Hn Hs]|[Hn Hs]]]; rewrite Hs; clear Hs.
  - rewrite (Z.abs_eq n) in E by lia. clearbody k m D. split; lia.
  - subst n. clearbody k m D. split; lia.
  - rewrite (Z.abs_neq n) in E by lia. clearbody k m D. split; lia.
Qed.

(** Rounding to two decimals moves a value by at most 0.005. *)
Lemma round2_near (q : Q) :
  (q - (1 # 200) <= round_half_away (q * 100) # 100 <= q + (1 # 200))%Q.
Proof.
  pose proof (round_half_away_near (q * 100)) as [H1 H2].
  rewrite (Qmake_Qdiv (round_half_away (q * 100)) 100).
  set (z := inject_Z (round_half_away (q * 100))) in *.
  change (inject_Z (Z.pos 100)) with (100 # 1)%Q.
  split.
  - apply Qle_shift_div_l; [reflexivity |]. lra.
  - apply Qle_shift_div_r; [reflexivity |]. lra.
Qed.

Lemma sum_int_nonneg (l : list Z) : (forall x, In x l -> 0 <= x) -> 0 <= sum_int l.
Proof.
  induction l as [|x l IH]; simpl; intros H; [lia |].
  pose proof (H x (or_introl eq_refl)).
  assert (0 <= sum_int l) by (apply IH; intros; apply H; now right). lia.
Qed.

Lemma sum_int_pos (l : list Z) :
  (forall x, In x l -> 0 <= x) -> (exists x, In x l /\ x <> 0) -> 0 < sum_int l.
Proof.
  induction l as [|x l IH]; simpl; intros Hnn (y & Hy & Hne); [contradiction |].
  pose proof (Hnn x (or_introl eq_refl)).
  assert (0 <= sum_int l) by (apply sum_int_nonneg; intros; apply Hnn; now right).
  destruct Hy as [->|Hy]; [lia |].
  assert (0 < sum_int l) by (apply IH; [intros; apply Hnn; now right | eauto]). lia.
Qed.

Section ShareSums.
Variable d : Z.
Hypothesis d_pos : 0 < d.

Lemma exact_share_sum (ts : list Z) :
  (sum_Q (map (exact_share d) ts) == inject_Z (sum_int ts) * 100 / inject_Z d)%Q.
Proof.
  assert (Hd : ~ (inject_Z d == 0)%Q).
  { unfold Qeq. simpl. lia. }
  induction ts as [|x ts IH]; simpl.
  - field. exact Hd.
  - rewrite IH. unfold exact_share. rewrite inject_Z_plus. field. exact Hd.
Qed.

Lemma exact_share_total (ts : list Z) :
  sum_int ts = d -> (sum_Q (map (exact_share d) ts) == 100)%Q.
Proof.
  intros E. rewrite exact_share_sum, E. field. unfold Qeq. simpl. lia.
Qed.

Lemma rounded_share_sum (ts : list Z) :
  (sum_Q (map (exact_share d) ts) - (1 # 200) * inject_Z (Z.of_nat (List.length ts))
     <= sum_Q (map (rounded_share d) ts)
     <= sum_Q (map (exact_share d) ts) + (1 # 200) * inject_Z (Z.of_nat (List.length ts)))%Q.
Proof.
  induction ts as [|x ts [IH1 IH2]].
  - split; vm_compute; discriminate.
  - cbn [map sum_Q fold_right List.length]. fold (sum_Q (map (exact_share d) ts)).
    fold (sum_Q (map (rounded_share d) ts)).
    rewrite Nat2Z.inj_succ. unfold Z.succ. rewrite inject_Z_plus.
    change (inject_Z 1) with 1%Q.
    pose proof (round2_near (exact_share d x)) as [H1 H2].
    fold (rounded_share d x) in H1, H2.
    split; lra.
Qed.
End ShareSums.

Section MarketShare.
Variable t : table.
Variable self : DatabaseManager.
Variables start_date end_date : datetime.
Variable vehicle_category : string.

Let sel : table := share_rows t start_date end_date vehicle_category.
Let denominator : option Z := sql_sum (map registrations sel).
Let grouped : list market_share_row :=
  map (market_share_of denominator) (group_by String.eqb manufacturer sel).

Lemma get_market_share_data_eval :
  get_market_share_data (sqlite (Some t)) self start_date end_date vehicle_category
  = Ok (sort_by (fun a b => Z.leb (sh_total_registrations b) (sh_total_registrations a))
                grouped).
Proof. reflexivity. Qed.

Lemma grouped_row (r : market_share_row) :
  In r grouped ->
  sh_total_registrations r
    = manufacturer_total t start_date end_date vehicle_category (sh_manufacturer r) /\
  market_share r
    = sql_round2 (percent_of (sh_total_registrations r)
        (Some (category_total t start_date end_date vehicle_category))).
Proof.
  unfold grouped, group_by. rewrite map_map, in_map_iff.
  intros (k & <- & Hk). split; [reflexivity |].
  cbn [market_share_of market_share sh_total_registrations fst snd].
  do 2 f_equal. unfold denominator, category_total. fold sel.
  apply (distinct_In String.eqb String.eqb_eq) in Hk.
  destruct sel; [contradiction | reflexivity].
Qed.

Lemma grouped_totals :
  sum_int (map sh_total_registrations grouped)
  = category_total t start_date end_date vehicle_category.
Proof.
  unfold grouped, group_by. rewrite !map_map.
  cbn [market_share_of sh_total_registrations fst snd].
  apply (group_totals String.eqb String.eqb_eq manufacturer registrations).
  - apply distinct_NoDup, String.eqb_eq.
  - intros x Hx. apply (distinct_In String.eqb String.eqb_eq). now apply in_map.
Qed.

Lemma grouped_share_value (r : market_share_row) :
  0 < category_total t start_date end_date vehicle_category ->
  In r grouped ->
  share_value r
  = rounded_share (category_total t start_date end_date vehicle_category)
                  (sh_total_registrations r).
Proof.
  intros Hpos Hr. destruct (grouped_row r Hr) as [_ E].
  unfold share_value. rewrite E.
  destruct (category_total t start_date end_date vehicle_category); try lia.
  reflexivity.
Qed.
End MarketShare.

Lemma market_share_rows (t : table) (self : DatabaseManager)
    (start_date end_date : datetime) (vehicle_category : string) :
  exists rows,
    get_market_share_data (sqlite (Some t)) self start_date end_date vehicle_category
    = Ok rows /\
    (forall r, In r rows ->
       sh_total_registrations r
         = manufacturer_total t start_date end_date vehicle_category (sh_manufacturer r) /\
       market_share r
         = sql_round2 (percent_of (sh_total_registrations r)
             (Some (category_total t start_date end_date vehicle_category)))) /\
    sum_int (map sh_total_registrations rows)
      = category_total t start_date end_date vehicle_category /\
    (0 < category_total t start_date end_date vehicle_category ->
     map share_value rows
     = map (rounded_share (category_total t start_date end_date vehicle_category))
           (map sh_total_registrations rows)).
Proof.
  eexists. split; [apply get_market_share_data_eval |].
  set (leb := fun a b => Z.leb (sh_total_registrations b) (sh_total_registrations a)).
  repeat split.
  - apply (grouped_row t start_date end_date vehicle_category r).
    now apply (sort_by_In leb).
  - apply (grouped_row t start_date end_date vehicle_category r).
    now apply (sort_by_In leb).
  - rewrite <- (grouped_totals t start_date end_date vehicle_category).
    apply sum_int_perm, Permutation_map, sort_by_perm.
  - intros Hpos. rewrite map_map. apply map_ext_in. intros r Hr.
    apply grouped_share_value; [exact Hpos |]. now apply (sort_by_In leb).
Qed.

(** C6, as amended.  On a store holding [t], [get_market_share_data] returns
    rows in which every share is the manufacturer's total times 100 over one
    and the same denominator, the total of the category over all its
    manufacturers in the range, rounded to two decimals (NULL when that
    total is 0), and the manufacturers' totals add up to that denominator.
    When the counts of the category in the range are non-negative and not
    all zero, the shares add up to 100 within 0.005 per returned row, hence
    within 0.1 when at most 20 rows are returned. *)
Theorem market_share_shared_denominator :
  forall (t : table) (self : DatabaseManager) (start_date end_date : datetime)
         (vehicle_category : string),
    exists rows,
      get_market_share_data (sqlite (Some t)) self start_date end_date vehicle_category
      = Ok rows /\
      (forall r, In r rows ->
         sh_total_registrations r
           = manufacturer_total t start_date end_date vehicle_category (sh_manufacturer r) /\
         market_share r
           = sql_round2 (percent_of (sh_total_registrations r)
               (Some (category_total t start_date end_date vehicle_category)))) /\
      sum_int (map sh_total_registrations rows)
        = category_total t start_date end_date vehicle_category /\
      ((forall x, In x (share_rows t start_date end_date vehicle_category) ->
                  0 <= registrations x) ->
       (exists x, In x (share_rows t start_date end_date vehicle_category) /\
                  registrations x <> 0) ->
       (forall r, In r rows ->
          market_share r
          = Some (Finite (rounded_share
                            (category_total t start_date end_date vehicle_category)
                            (sh_total_registrations r)))) /\
       (100 - (1 # 200) * inject_Z (Z.of_nat (List.length rows))
          <= sum_Q (map share_value rows)
          <= 100 + (1 # 200) * inject_Z (Z.of_nat (List.length rows)))%Q /\
       ((List.length rows <= 20)%nat ->
        (100 - (1 # 10) <= sum_Q (map share_value rows) <= 100 + (1 # 10))%Q)).
Proof.
  intros t self start_date end_date vehicle_category.
  destruct (market_share_rows t self start_date end_date vehicle_category)
    as (rows & E & Hrow & Htot & Hval).
  exists rows. split; [exact E |]. split; [exact Hrow |]. split; [exact Htot |].
  intros Hnn Hnz.
  assert (Hpos : 0 < category_total t start_date end_date vehicle_category).
  { unfold category_total. apply sum_int_pos.
    - intros x Hx. apply in_map_iff in Hx as (r & <- & Hr). now apply Hnn.
    - destruct Hnz as (r & Hr & Hne). exists (registrations r). split; [| exact Hne].
      now apply in_map. }
  specialize (Hval Hpos).
  set (d := category_total t start_date end_date vehicle_category) in *.
  assert (Hbound :
    (100 - (1 # 200) * inject_Z (Z.of_nat (List.length rows))
       <= sum_Q (map share_value rows)
       <= 100 + (1 # 200) * inject_Z (Z.of_nat (List.length rows)))%Q).
  { rewrite Hval.
    pose proof (rounded_share_sum d (map sh_total_registrations rows)) as [H1 H2].
    pose proof (exact_share_total d Hpos _ Htot) as H100.
    rewrite length_map in H1, H2. rewrite H100 in H1, H2. now split. }
  split; [| split; [exact Hbound |]].
  - intros r Hr. destruct (Hrow r Hr) as [_ Em]. rewrite Em.
    destruct d; try lia. reflexivity.
  - intros Hlen.
    assert (Hn : (inject_Z (Z.of_nat (List.length rows)) <= 20)%Q).
    { rewrite <- (Zle_Qle _ 20). lia. }
    destruct Hbound as [H1 H2]. split; lra.
Qed.

Lemma market_share_shared_denominator_witness :
  exists rows,
    get_market_share_data (sqlite (Some market_sample)) vehicle_data_db
                          jan_2024 dec_2024 "4W" = Ok rows /\
    (100 - (1 # 10) <= sum_Q (map share_value rows) <= 100 + (1 # 10))%Q.
Proof.
  destruct (market_share_shared_denominator market_sample vehicle_data_db
              jan_2024 dec_2024 "4W") as (rows & E & _ & _ & Hsum).
  destruct Hsum as (_ & _ & H20).
  - intros x [<-|[<-|[]]]; vm_compute; discriminate.
  - exists (sample_row "2024-01-31 00:00:00" "4W" "Hyundai" 1).
    split; [right; now left | discriminate].
  - exists rows. split; [exact E |]. apply H20.
    assert (E' : get_market_share_data (sqlite (Some market_sample)) vehicle_data_db
                   jan_2024 dec_2024 "4W"
                 = Ok (sort_by (fun a b => Z.leb (sh_total_registrations b)
                                                 (sh_total_registrations a))
                         (map (market_share_of
                                 (sql_sum (map registrations
                                    (share_rows market_sample jan_2024 dec_2024 "4W"))))
                              (group_by String.eqb manufacturer
                                 (share_rows market_sample jan_2024 dec_2024 "4W")))))
      by reflexivity.
    rewrite E' in E. injection E as <-. vm_compute. lia.
Defined.

(** C6 as stated fails on the tolerance: with sixty manufacturers of one
    registration each, every share is 1.67 and the shares add up to 100.2. *)
Lemma market_share_sixty_equal_exceeds_tolerance :
  exists rows,
    get_market_share_data (sqlite (Some sixty_equal)) vehicle_data_db
                          jan_2024 dec_2024 "2W" = Ok rows /\
    (forall r, In r rows -> market_share r = Some (Finite (167 # 100))) /\
    (sum_Q (map share_value rows) == 1002 # 10)%Q /\
    ~ (sum_Q (map share_value rows) <= 100 + (1 # 10))%Q.
Proof.
  eexists. split; [vm_compute; reflexivity |]. split; [| split].
  - intros r Hr. repeat (destruct Hr as [<-|Hr]; [reflexivity |]). destruct Hr.
  - vm_compute. reflexivity.
  - vm_compute. intros H. now apply H.
Qed.

(** * Failing queries *)

Example days_from_civil_epoch :
  days_from_civil {| dt_year := 1970; dt_month := 1; dt_day := 1 |} = 0.
Proof. reflexivity. Qed.

Example minus_days_one_year :
  minus_days {| dt_year := 2025; dt_month := 6; dt_day := 15 |} 365
  = {| dt_year := 2024; dt_month := 6; dt_day := 15 |}.
Proof. reflexivity. Qed.

Example minus_days_leap :
  minus_days {| dt_year := 2024; dt_month := 3; dt_day := 1 |} 1
  = {| dt_year := 2024; dt_month := 2; dt_day := 29 |}.
Proof. reflexivity. Qed.

Section Failure.
Variable backend : Backend.
Variable time : Clock.
Variable self : DatabaseManager.

Lemma execute_query_total {A} (q : query A) :
  exists df, execute_query backend self q = Ok df.
Proof.
  unfold execute_query.
  destruct (get_connection backend self) as [conn|e]; simpl; [| eauto].
  destruct (read_sql_query backend A q conn); simpl; eauto.
Qed.

Lemma execute_query_failed {A} (q : query A) :
  statement_fails backend self q -> execute_query backend self q = Ok [].
Proof.
  intros [e He]. unfold execute_query.
  destruct (get_connection backend self) as [conn|e']; simpl in *; [| reflexivity].
  now rewrite He.
Qed.

Lemma execute_query_succeeded {A} (q : query A) (df : list A) :
  (conn <- get_connection backend self ;; read_sql_query backend A q conn) = Ok df ->
  execute_query backend self q = Ok df.
Proof.
  unfold execute_query.
  destruct (get_connection backend self) as [conn|e']; simpl; [| discriminate].
  now intros ->.
Qed.

Lemma get_date_range_failed :
  statement_fails backend self SelectDateRange ->
  get_date_range backend time self
  = Ok (Some (minus_days (clock time 0) 365), Some (clock time 1)).
Proof.
  intros H. unfold get_date_range.
  now rewrite (execute_query_failed _ H).
Qed.

Lemma get_vehicle_categories_total :
  exists l, get_vehicle_categories backend self = Ok l.
Proof.
  unfold get_vehicle_categories.
  destruct (execute_query_total SelectCategories) as [df ->]. simpl. eauto.
Qed.

Lemma get_manufacturers_total (vehicle_category : option string) :
  exists l, get_manufacturers backend self vehicle_category = Ok l.
Proof.
  unfold get_manufacturers.
  destruct (execute_query_total (manufacturers_query vehicle_category)) as [df ->].
  simpl. eauto.
Qed.
End Failure.

(** * The order of text *)

Lemma string_compare_refl (a : string) : String.compare a a = Eq.
Proof. now apply String_as_OT.cmp_eq. Qed.

Lemma string_compare_lt_trans (a b c : string) :
  String.compare a b = Lt -> String.compare b c = Lt -> String.compare a c = Lt.
Proof.
  intros H1 H2. apply String_as_OT.cmp_lt.
  apply String_as_OT.cmp_lt in H1, H2.
  eapply String_as_OT.lt_trans; eassumption.
Qed.

Lemma string_compare_gt_lt (a b : string) :
  String.compare a b = Gt -> String.compare b a = Lt.
Proof.
  intros H. rewrite String.compare_antisym, H. reflexivity.
Qed.

Lemma string_leb_trans (a b c : string) :
  String.leb a b = true -> String.leb b c = true -> String.leb a c = true.
Proof.
  unfold String.leb.
  destruct (String.compare a b) eqn:Eab; try discriminate;
    destruct (String.compare b c) eqn:Ebc; try discriminate; intros _ _.
  - apply String_as_OT.cmp_eq in Eab, Ebc. subst. now rewrite string_compare_refl.
  - apply String_as_OT.cmp_eq in Eab. subst. now rewrite Ebc.
  - apply String_as_OT.cmp_eq in Ebc. subst. now rewrite Eab.
  - now rewrite (string_compare_lt_trans _ _ _ Eab Ebc).
Qed.

Lemma string_leb_refl (a : string) : String.leb a a = true.
Proof. unfold String.leb. now rewrite string_compare_refl. Qed.

Lemma string_leb_ltb (a b : string) :
  String.leb a b = true -> a <> b -> String.ltb a b = true.
Proof.
  unfold String.leb, String.ltb.
  destruct (String.compare a b) eqn:E; try discriminate; [| reflexivity].
  apply String_as_OT.cmp_eq in E. congruence.
Qed.

(** A text followed by more text sorts after the text itself. *)
Lemma string_compare_suffix (x suffix : string) :
  suffix <> "" -> String.compare (x ++ suffix) x = Gt.
Proof.
  intros Hs. induction x as [|c x IH]; simpl.
  - destruct suffix; [congruence | reflexivity].
  - assert (E : Ascii.compare c c = Eq) by now apply Ascii_as_OT.cmp_eq.
    now rewrite E.
Qed.

Lemma string_leb_total (a b : string) : String.leb a b = true \/ String.leb b a = true.
Proof.
  unfold String.leb. destruct (String.compare a b) eqn:E; auto.
  right. now rewrite (string_compare_gt_lt _ _ E).
Qed.

Lemma string_leb_spec (a b : string) :
  String.leb a b = true <-> text_lt a b \/ a = b.
Proof.
  unfold String.leb, text_lt. destruct (String.compare a b) eqn:E.
  - apply String_as_OT.cmp_eq in E. tauto.
  - tauto.
  - split; [discriminate |]. intros [H|H]; [discriminate |].
    subst. now rewrite string_compare_refl in E.
Qed.

Lemma string_ltb_spec (a b : string) : String.ltb a b = true <-> text_lt a b.
Proof.
  unfold String.ltb, text_lt. destruct (String.compare a b); split; congruence.
Qed.

(** * Sorted lists *)

Lemma StronglySorted_filter {A} (R : A -> A -> Prop) (f : A -> bool) (l : list A) :
  StronglySorted R l -> StronglySorted R (filter f l).
Proof.
  induction 1 as [|x l Hs IH Hall]; simpl; [constructor |].
  destruct (f x); [| exact IH].
  constructor; [exact IH |].
  rewrite Forall_forall in *. intros y Hy. apply filter_In in Hy as [Hy _]. auto.
Qed.

Lemma StronglySorted_map {A B} (R : B -> B -> Prop) (f : A -> B) (l : list A) :
  StronglySorted R (map f l) -> StronglySorted (fun a b => R (f a) (f b)) l.
Proof.
  induction l as [|x l IH]; simpl; intros H; [constructor |].
  inversion H as [|? ? Hs Hall]; subst. constructor; [now apply IH |].
  rewrite Forall_forall in *. intros y Hy. apply Hall. now apply in_map.
Qed.

Lemma StronglySorted_weaken {A} (R R' : A -> A -> Prop) (l : list A) :
  (forall x y, In x l -> In y l -> R x y -> R' x y) ->
  StronglySorted R l -> StronglySorted R' l.
Proof.
  intros Himp Hs. induction Hs as [|x l Hs IH Hall]; [constructor |].
  constructor.
  - apply IH. intros a b Ha Hb. apply Himp; now right.
  - rewrite Forall_forall in *. intros y Hy.
    apply Himp; [now left | now right | now apply Hall].
Qed.

Lemma sort_by_strongly_sorted {A} (leb : A -> A -> bool) (l : list A) :
  (forall a b, leb a b = true \/ leb b a = true) ->
  (forall a b c, leb a b = true -> leb b c = true -> leb a c = true) ->
  StronglySorted (fun a b => leb a b = true) (sort_by leb l).
Proof.
  intros Htotal Htrans. apply Sorted_StronglySorted.
  - intros a b c. apply Htrans.
  - now apply sort_by_sorted.
Qed.

(** A sorted list without repetition is strictly sorted. *)
Lemma StronglySorted_strict {A} (R : A -> A -> Prop) (l : list A) :
  StronglySorted R l -> NoDup l ->
  StronglySorted (fun a b => R a b /\ a <> b) l.
Proof.
  induction 1 as [|x l Hs IH Hall]; intros Hnd; [constructor |].
  inversion Hnd as [|? ? Hx Hnd']; subst.
  constructor; [now apply IH |].
  rewrite Forall_forall in *. intros y Hy. split; [now apply Hall |].
  intros ->. contradiction.
Qed.

(** The rows of a sorted list follow its first row. *)
Lemma StronglySorted_head {A} (R : A -> A -> Prop) (x : A) (l : list A) :
  StronglySorted R (x :: l) -> forall y, In y l -> R x y.
Proof.
  intros H. inversion H as [|? ? _ Hall]; subst. now rewrite Forall_forall in Hall.
Qed.

Lemma Z_geb_sorted {A} (f : A -> Z) (l : list A) :
  StronglySorted (fun a b => (f b <= f a)%Z)
                 (sort_by (fun a b => Z.leb (f b) (f a)) l).
Proof.
  apply StronglySorted_weaken with (R := fun a b => Z.leb (f b) (f a) = true).
  - intros x y _ _. apply Z.leb_le.
  - apply sort_by_strongly_sorted.
    + intros a b. rewrite !Z.leb_le. lia.
    + intros a b c. rewrite !Z.leb_le. lia.
Qed.

(** A list of text sorted by [String.leb] that has no repetition ascends
    strictly. *)
Lemma sorted_distinct_text (l : list string) :
  StronglySorted text_lt (sort_by String.leb (distinct String.eqb l)).
Proof.
  apply StronglySorted_weaken
    with (R := fun a b => String.leb a b = true /\ a <> b).
  - intros x y _ _ [H Hne]. apply string_leb_spec in H. tauto.
  - apply StronglySorted_strict.
    + apply sort_by_strongly_sorted; [apply string_leb_total | apply string_leb_trans].
    + eapply Permutation_NoDup.
      * apply Permutation_sym, sort_by_perm.
      * apply distinct_NoDup, String.eqb_eq.
Qed.

(** * ORDER BY date, vehicle_category, manufacturer *)

Section DateCategoryManufacturer.
Context {A : Type}.
Variables d c m : A -> string.

Lemma date_category_manufacturer_leb_spec (a b : A) :
  date_category_manufacturer_leb d c m a b = true
  <-> by_date_category_manufacturer d c m a b.
Proof.
  unfold date_category_manufacturer_leb, by_date_category_manufacturer, text_lt.
  destruct (String.compare (d a) (d b)) eqn:D.
  - apply String_as_OT.cmp_eq in D.
    destruct (String.compare (c a) (c b)) eqn:C.
    + apply String_as_OT.cmp_eq in C. rewrite string_leb_spec. unfold text_lt.
      intuition congruence.
    + intuition congruence.
    + split; [discriminate |].
      intros [H|[_ [H|[H _]]]]; try discriminate.
      rewrite H, string_compare_refl in C. discriminate.
  - tauto.
  - split; [discriminate |]. intros [H|[H _]]; [discriminate |].
    rewrite H, string_compare_refl in D. discriminate.
Qed.

Lemma date_category_manufacturer_leb_total (a b : A) :
  date_category_manufacturer_leb d c m a b = true \/
  date_category_manufacturer_leb d c m b a = true.
Proof.
  unfold date_category_manufacturer_leb.
  destruct (String.compare (d a) (d b)) eqn:D.
  - apply String_as_OT.cmp_eq in D. rewrite <- D, string_compare_refl.
    destruct (String.compare (c a) (c b)) eqn:C.
    + apply String_as_OT.cmp_eq in C. rewrite <- C, string_compare_refl.
      apply string_leb_total.
    + now left.
    + right. now rewrite (string_compare_gt_lt _ _ C).
  - now left.
  - right. now rewrite (string_compare_gt_lt _ _ D).
Qed.

Lemma date_category_manufacturer_leb_trans (x y z : A) :
  date_category_manufacturer_leb d c m x y = true ->
  date_category_manufacturer_leb d c m y z = true ->
  date_category_manufacturer_leb d c m x z = true.
Proof.
  unfold date_category_manufacturer_leb.
  generalize (d x) (d y) (d z) (c x) (c y) (c z) (m x) (m y) (m z).
  intros d1 d2 d3 c1 c2 c3 m1 m2 m3.
  destruct (String.compare d1 d2) eqn:D12; try discriminate;
    destruct (String.compare d2 d3) eqn:D23; try discriminate.
  - apply String_as_OT.cmp_eq in D12, D23. subst. rewrite string_compare_refl.
    destruct (String.compare c1 c2) eqn:C12; try discriminate;
      destruct (String.compare c2 c3) eqn:C23; try discriminate.
    + apply String_as_OT.cmp_eq in C12, C23. subst. rewrite string_compare_refl.
      apply string_leb_trans.
    + apply String_as_OT.cmp_eq in C12. subst. now rewrite C23.
    + apply String_as_OT.cmp_eq in C23. subst. now rewrite C12.
    + now rewrite (string_compare_lt_trans _ _ _ C12 C23).
  - apply String_as_OT.cmp_eq in D12. subst. now rewrite D23.
  - apply String_as_OT.cmp_eq in D23. subst. now rewrite D12.
  - now rewrite (string_compare_lt_trans _ _ _ D12 D23).
Qed.

Lemma sort_by_date_category_manufacturer (l : list A) :
  StronglySorted (by_date_category_manufacturer d c m)
                 (sort_by (date_category_manufacturer_leb d c m) l).
Proof.
  apply StronglySorted_weaken
    with (R := fun a b => date_category_manufacturer_leb d c m a b = true).
  - intros x y _ _. apply date_category_manufacturer_leb_spec.
  - apply sort_by_strongly_sorted.
    + apply date_category_manufacturer_leb_total.
    + apply date_category_manufacturer_leb_trans.
Qed.
End DateCategoryManufacturer.

(** * [get_filtered_data]: order and the end of the range *)

(** X1.  The rows [get_filtered_data] returns ascend by date text; rows of one
    date ascend by category, and rows of one date and category by
    manufacturer, each in the byte order of text. *)
Theorem get_filtered_data_ordered (t : table) (self : DatabaseManager)
    (start_date end_date : datetime)
    (vehicle_categories manufacturers : option (list string)) :
  exists rows,
    get_filtered_data (sqlite (Some t)) self start_date end_date
                      vehicle_categories manufacturers = Ok rows /\
    StronglySorted (by_date_category_manufacturer date vehicle_category manufacturer)
                   rows.
Proof.
  eexists. split; [apply get_filtered_data_eval |].
  apply sort_by_date_category_manufacturer.
Qed.

(** X2.  A row whose date text is the formatted end date followed by anything
    more (a time of day, as in '2024-12-31 00:00:00') is never returned by
    [get_filtered_data]: the range ends before the last day's stored
    text. *)
Theorem get_filtered_data_end_day_excluded (t : table) (self : DatabaseManager)
    (start_date end_date : datetime)
    (vehicle_categories manufacturers : option (list string))
    (r : registration) (time_of_day : string) :
  date r = (strftime_ymd end_date ++ time_of_day)%string ->
  time_of_day <> "" ->
  exists rows,
    get_filtered_data (sqlite (Some t)) self start_date end_date
                      vehicle_categories manufacturers = Ok rows /\
    ~ In r rows.
Proof.
  intros Hdate Hne.
  destruct (filtered_data_rows t self start_date end_date
              vehicle_categories manufacturers) as (rows & E & _ & Hin).
  exists rows. split; [exact E |].
  rewrite Hin. intros (_ & [_ Hle] & _).
  rewrite Hdate in Hle. unfold String.leb in Hle.
  now rewrite (string_compare_suffix _ _ Hne) in Hle.
Qed.

Lemma get_filtered_data_end_day_excluded_witness :
  exists rows,
    get_filtered_data
      (sqlite (Some [sample_row "2024-12-31 00:00:00" "2W" "Honda" 300000]))
      vehicle_data_db jan_2024 dec_2024 None None = Ok rows /\
    ~ In (sample_row "2024-12-31 00:00:00" "2W" "Honda" 300000) rows.
Proof.
  apply (get_filtered_data_end_day_excluded _ _ _ _ _ _ _ " 00:00:00").
  - reflexivity.
  - discriminate.
Defined.

(** * The choices offered for the filters *)

(** X3.  [get_vehicle_categories] returns exactly the categories that occur in
    the table, each once, in strictly ascending byte order. *)
Theorem get_vehicle_categories_sorted_distinct (t : table) (self : DatabaseManager) :
  exists l,
    get_vehicle_categories (sqlite (Some t)) self = Ok l /\
    StronglySorted text_lt l /\
    forall c, In c l <-> exists r, In r t /\ vehicle_category r = c.
Proof.
  exists (sort_by String.leb (distinct String.eqb (map vehicle_category t))).
  split; [| split].
  - unfold get_vehicle_categories. cbn.
    now destruct (sort_by String.leb (distinct String.eqb (map vehicle_category t))).
  - apply sorted_distinct_text.
  - intros c. rewrite sort_by_In, (distinct_In String.eqb String.eqb_eq), in_map_iff.
    split; intros (r & H1 & H2); exists r; tauto.
Qed.

Section Manufacturers.
Variable t : table.
Variable self : DatabaseManager.
Variable category : option string.

(** The manufacturers [get_manufacturers] returns on table [t]. *)
Let listed : list string :=
  sort_by String.leb
    (distinct String.eqb
       (map manufacturer
            (select_where
               (if truthy_str category then [CategoryEq (str_of category)] else [])
               t))).

Lemma get_manufacturers_eval :
  get_manufacturers (sqlite (Some t)) self category = Ok listed.
Proof.
  unfold get_manufacturers, manufacturers_query, listed.
  destruct (truthy_str category); cbn;
    match goal with |- context [sort_by ?f ?l] => now destruct (sort_by f l) end.
Qed.

Lemma listed_sorted : StronglySorted text_lt listed.
Proof. apply sorted_distinct_text. Qed.

Lemma listed_In (m : string) :
  In m listed <->
  exists r, In r t /\ category_selected category r /\ manufacturer r = m.
Proof.
  unfold listed.
  rewrite sort_by_In, (distinct_In String.eqb String.eqb_eq), in_map_iff.
  unfold select_where. split.
  - intros (r & Hm & Hr). apply filter_In in Hr as [Hr Hc].
    exists r. split; [exact Hr |]. split; [| exact Hm].
    destruct category as [[|a s]|]; cbn in *; try exact I.
    rewrite andb_true_r in Hc. now apply String.eqb_eq.
  - intros (r & Hr & Hc & Hm). exists r. split; [exact Hm |].
    apply filter_In. split; [exact Hr |].
    destruct category as [[|a s]|]; cbn in *; try reflexivity.
    rewrite andb_true_r. now apply String.eqb_eq.
Qed.
End Manufacturers.

(** X4.  [get_manufacturers] returns exactly the manufacturers of the rows of
    the given category, each once, in strictly ascending byte order; with no
    category or the empty text it returns those of every row. *)
Theorem get_manufacturers_sorted_distinct (t : table) (self : DatabaseManager)
    (category : option string) :
  exists l,
    get_manufacturers (sqlite (Some t)) self category = Ok l /\
    StronglySorted text_lt l /\
    forall m, In m l <->
      exists r, In r t /\ category_selected category r /\ manufacturer r = m.
Proof.
  eexists. split; [apply get_manufacturers_eval |].
  split; [apply listed_sorted | apply listed_In].
Qed.

(** * [get_date_range] when the table exists *)

Section Extremes.
Let least (a b : string) : string := if String.leb a b then a else b.
Let greatest (a b : string) : string := if String.leb a b then b else a.

Lemma fold_least (l : list string) (x : string) :
  In (fold_left least l x) (x :: l) /\
  forall y, In y (x :: l) -> String.leb (fold_left least l x) y = true.
Proof.
  revert x. induction l as [|z l IH]; intros x; simpl.
  - split; [now left |]. intros y [<-|[]]. apply string_leb_refl.
  - destruct (IH (least x z)) as [Hin Hle]. split.
    + destruct Hin as [E|Hin]; [| now right; right].
      rewrite <- E. unfold least. destruct (String.leb x z); auto.
    + assert (Hx : String.leb (least x z) x = true /\ String.leb (least x z) z = true).
      { unfold least. destruct (String.leb x z) eqn:E.
        - split; [apply string_leb_refl | exact E].
        - split; [| apply string_leb_refl].
          destruct (string_leb_total x z); congruence. }
      intros y [<-|[<-|Hy]].
      * eapply string_leb_trans; [apply Hle; now left | apply Hx].
      * eapply string_leb_trans; [apply Hle; now left | apply Hx].
      * apply Hle. now right.
Qed.

Lemma fold_greatest (l : list string) (x : string) :
  In (fold_left greatest l x) (x :: l) /\
  forall y, In y (x :: l) -> String.leb y (fold_left greatest l x) = true.
Proof.
  revert x. induction l as [|z l IH]; intros x; simpl.
  - split; [now left |]. intros y [<-|[]]. apply string_leb_refl.
  - destruct (IH (greatest x z)) as [Hin Hle]. split.
    + destruct Hin as [E|Hin]; [| now right; right].
      rewrite <- E. unfold greatest. destruct (String.leb x z); auto.
    + assert (Hx : String.leb x (greatest x z) = true /\ String.leb z (greatest x z) = true).
      { unfold greatest. destruct (String.leb x z) eqn:E.
        - split; [exact E | apply string_leb_refl].
        - split; [apply string_leb_refl |].
          destruct (string_leb_total x z); congruence. }
      intros y [<-|[<-|Hy]].
      * eapply string_leb_trans; [apply Hx | apply Hle; now left].
      * eapply string_leb_trans; [apply Hx | apply Hle; now left].
      * apply Hle. now right.
Qed.

Lemma min_str_spec (l : list string) (lo : string) :
  min_str l = Some lo ->
  In lo l /\ forall y, In y l -> String.leb lo y = true.
Proof.
  destruct l as [|x l]; [discriminate |]. intros [= <-]. apply fold_least.
Qed.

Lemma max_str_spec (l : list string) (hi : string) :
  max_str l = Some hi ->
  In hi l /\ forall y, In y l -> String.leb y hi = true.
Proof.
  destruct l as [|x l]; [discriminate |]. intros [= <-]. apply fold_greatest.
Qed.
End Extremes.

(** X5.  On a table with at least one row, [get_date_range] parses the least
    and the greatest date text of the table (in byte order), the least one
    first, and returns the two dates; what the parser raises on either text
    is raised by the method. *)
Theorem get_date_range_least_greatest (time : Clock) (t : table)
    (self : DatabaseManager) :
  t <> [] ->
  exists lo hi,
    In lo (map date t) /\ In hi (map date t) /\
    (forall r, In r t ->
       String.leb lo (date r) = true /\ String.leb (date r) hi = true) /\
    get_date_range (sqlite (Some t)) time self
    = (min_d <- to_datetime time (Some lo) ;;
       max_d <- to_datetime time (Some hi) ;;
       Ok (min_d, max_d)).
Proof.
  intros Hne.
  destruct (min_str (map date t)) as [lo|] eqn:Elo;
    [| destruct t; [congruence | discriminate]].
  destruct (max_str (map date t)) as [hi|] eqn:Ehi;
    [| destruct t; [congruence | discriminate]].
  exists lo, hi.
  destruct (min_str_spec _ _ Elo) as [Hlo Hmin].
  destruct (max_str_spec _ _ Ehi) as [Hhi Hmax].
  repeat split; try assumption.
  - apply Hmin. now apply in_map.
  - apply Hmax. now apply in_map.
  - unfold get_date_range. cbn. now rewrite Elo, Ehi.
Qed.

Lemma get_date_range_least_greatest_witness :
  exists lo hi,
    In lo (map date market_sample) /\ In hi (map date market_sample) /\
    (forall r, In r market_sample ->
       String.leb lo (date r) = true /\ String.leb (date r) hi = true) /\
    get_date_range (sqlite (Some market_sample)) noon_clock vehicle_data_db
    = (min_d <- to_datetime noon_clock (Some lo) ;;
       max_d <- to_datetime noon_clock (Some hi) ;;
       Ok (min_d, max_d)).
Proof.
  apply (get_date_range_least_greatest noon_clock market_sample vehicle_data_db).
  discriminate.
Defined.

(** X6.  On a table that exists and has no row, [get_date_range] returns no
    dates at all (the parse of the two NULLs of MIN and MAX), not the
    fallback range of the last 365 days. *)
Theorem get_date_range_empty_table (time : Clock) (self : DatabaseManager) :
  to_datetime time None = Ok None ->
  get_date_range (sqlite (Some [])) time self = Ok (None, None).
Proof.
  intros H. unfold get_date_range. cbn. now rewrite H.
Qed.

Lemma get_date_range_empty_table_witness :
  get_date_range (sqlite (Some [])) noon_clock vehicle_data_db = Ok (None, None).
Proof.
  apply (get_date_range_empty_table noon_clock vehicle_data_db). reflexivity.
Defined.

(** X7.  Whatever the backend does, [get_date_range] raises only what the date
    parser raises on a cell of the result: a failure of the connection or
    of the statement never reaches the caller. *)
Theorem get_date_range_raises_from_parser (backend : Backend) (time : Clock)
    (self : DatabaseManager) (e : exn) :
  get_date_range backend time self = Raise e ->
  exists cell, to_datetime time cell = Raise e.
Proof.
  unfold get_date_range.
  destruct (execute_query_total backend self SelectDateRange) as [df ->].
  cbn. destruct df as [|row df]; [discriminate |].
  destruct (to_datetime time (min_date row)) as [a|e1] eqn:E1; cbn.
  - destruct (to_datetime time (max_date row)) as [b|e2] eqn:E2; cbn;
      [discriminate |].
    intros [= <-]. eauto.
  - intros [= <-]. eauto.
Qed.

Lemma get_date_range_raises_from_parser_witness :
  exists cell,
    to_datetime noon_clock cell = Raise (Exception "Unknown datetime string format").
Proof.
  apply (get_date_range_raises_from_parser
           (sqlite (Some [sample_row "hello" "2W" "Honda" 1]))
           noon_clock vehicle_data_db).
  reflexivity.
Defined.

(** * GROUP BY *)

Section GroupBy.
Context {K : Type}.
Variable eqb : K -> K -> bool.
Hypothesis eqb_eq : forall a b, eqb a b = true <-> a = b.
Variable key : registration -> K.

Lemma group_by_keys (rows : table) :
  map fst (group_by eqb key rows) = distinct eqb (map key rows).
Proof. unfold group_by. rewrite map_map. cbn. apply map_id. Qed.

Lemma group_by_In (rows : table) (g : K * table) :
  In g (group_by eqb key rows) <->
  In (fst g) (map key rows) /\
  snd g = filter (fun r => eqb (key r) (fst g)) rows.
Proof.
  unfold group_by. rewrite (in_map_iff _ _ g). split.
  - intros (k & <- & Hk). cbn. split; [| reflexivity].
    now rewrite (distinct_In eqb eqb_eq) in Hk.
  - destruct g as [k g]. cbn. intros [Hk ->]. exists k. split; [reflexivity |].
    now rewrite (distinct_In eqb eqb_eq).
Qed.

Lemma group_by_NoDup (rows : table) : NoDup (map fst (group_by eqb key rows)).
Proof. rewrite group_by_keys. apply distinct_NoDup, eqb_eq. Qed.

Lemma group_rows (rows : table) (k : K) (r : registration) :
  In r (filter (fun r => eqb (key r) k) rows) <-> In r rows /\ key r = k.
Proof. now rewrite filter_In, eqb_eq. Qed.

(** The totals of the groups add up to the total of the grouped rows. *)
Lemma group_by_totals (f : registration -> Z) (rows : table) :
  sum_int (map (fun g => sum_int (map f (snd g))) (group_by eqb key rows))
  = sum_int (map f rows).
Proof.
  unfold group_by. rewrite map_map. cbn [snd].
  apply (group_totals eqb eqb_eq key f).
  - apply distinct_NoDup, eqb_eq.
  - intros x Hx. apply (distinct_In eqb eqb_eq). now apply in_map.
Qed.

(** On rows with pairwise different keys every group is one row, in the
    order of the rows. *)
Lemma distinct_NoDup_id (l : list K) : NoDup l -> distinct eqb l = l.
Proof.
  induction 1 as [|x l Hx Hnd IH]; simpl; [reflexivity |].
  rewrite IH. f_equal. apply forallb_filter_id, forallb_forall.
  intros y Hy. apply negb_true_iff. destruct (eqb x y) eqn:E; [| reflexivity].
  apply eqb_eq in E. congruence.
Qed.

Lemma filter_unique_key (rows : table) (r : registration) :
  NoDup (map key rows) -> In r rows ->
  filter (fun x => eqb (key x) (key r)) rows = [r].
Proof.
  induction rows as [|x rows IH]; simpl; [contradiction |].
  intros Hnd Hin. inversion Hnd as [|? ? Hx Hnd']; subst.
  destruct Hin as [->|Hin].
  - assert (E : eqb (key r) (key r) = true) by now apply eqb_eq.
    rewrite E. f_equal.
    assert (Hnone : forall y, In y rows -> eqb (key y) (key r) = false).
    { intros y Hy. destruct (eqb (key y) (key r)) eqn:E'; [| reflexivity].
      apply eqb_eq in E'. destruct Hx. rewrite <- E'. now apply in_map. }
    clear -Hnone. induction rows as [|y rows IH]; simpl; [reflexivity |].
    rewrite (Hnone y) by now left. apply IH. intros z Hz. apply Hnone. now right.
  - destruct (eqb (key x) (key r)) eqn:E.
    + apply eqb_eq in E. destruct Hx. rewrite E. now apply in_map.
    + now apply IH.
Qed.

Lemma group_by_unique_keys (rows : table) :
  NoDup (map key rows) ->
  group_by eqb key rows = map (fun r => (key r, [r])) rows.
Proof.
  intros Hnd. unfold group_by. rewrite (distinct_NoDup_id _ Hnd), map_map.
  apply map_ext_in. intros r Hr. now rewrite filter_unique_key.
Qed.
End GroupBy.

(** Rows with pairwise different keys keep them under a selection. *)
Lemma NoDup_map_filter {R K} (key : R -> K) (keep : R -> bool) (rows : list R) :
  NoDup (map key rows) -> NoDup (map key (filter keep rows)).
Proof.
  intros Hnd. induction rows as [|x rows IH]; simpl; [constructor |].
  inversion Hnd as [|? ? Hx Hnd']; subst.
  destruct (keep x); simpl; [| now apply IH].
  constructor; [| now apply IH].
  rewrite in_map_iff in *. intros (y & E & Hy). apply Hx.
  exists y. split; [exact E |]. now apply filter_In in Hy.
Qed.

Lemma pair_eqb_eq (a b : string * string) : pair_eqb a b = true <-> a = b.
Proof.
  destruct a as [a1 a2], b as [b1 b2]. unfold pair_eqb. cbn.
  rewrite andb_true_iff, !String.eqb_eq. split; [intros [-> ->] | intros [= -> ->]]; auto.
Qed.

Lemma trend_key_eqb_eq (a b : string * Z * Z * string * string * string) :
  trend_key_eqb a b = true <-> a = b.
Proof.
  destruct a as [[[[[d y] m] q] c] f], b as [[[[[d' y'] m'] q'] c'] f'].
  unfold trend_key_eqb.
  rewrite !andb_true_iff, !String.eqb_eq, !Z.eqb_eq. split.
  - intros [[[[[-> ->] ->] ->] ->] ->]. reflexivity.
  - intros [= -> -> -> -> -> ->]. tauto.
Qed.

Lemma sort_by_map {A B} (f : A -> B) (leb : A -> A -> bool)
    (leb' : B -> B -> bool) (l : list A) :
  (forall a b, leb' (f a) (f b) = leb a b) ->
  sort_by leb' (map f l) = map f (sort_by leb l).
Proof.
  intros H. induction l as [|x l IH]; simpl; [reflexivity |].
  rewrite IH. generalize (sort_by leb l). intros s.
  induction s as [|y s IHs]; simpl; [reflexivity |].
  rewrite H. destruct (leb x y); simpl; [reflexivity |]. now rewrite IHs.
Qed.

Lemma rows_in_range_In (t : table) (start_date end_date : datetime)
    (r : registration) :
  In r (rows_in_range t start_date end_date)
  <-> In r t /\ in_range start_date end_date r.
Proof.
  unfold rows_in_range, select_where, in_range. rewrite filter_In. cbn.
  now rewrite andb_true_r, andb_true_iff.
Qed.

Lemma summary_rows_In (t : table) (start_date end_date : datetime)
    (category : option string) (r : registration) :
  In r (summary_rows t start_date end_date category)
  <-> In r t /\ in_range start_date end_date r /\ category_selected category r.
Proof.
  unfold summary_rows, select_where, in_range. rewrite filter_In.
  destruct category as [[|a s]|]; cbn;
    rewrite ?andb_true_r, ?andb_true_iff, ?String.eqb_eq; tauto.
Qed.

(** * [get_category_summary] *)

Section CategorySummary.
Variable t : table.
Variable self : DatabaseManager.
Variables start_date end_date : datetime.

Let grouped : list category_summary :=
  map category_summary_of
      (group_by String.eqb vehicle_category (rows_in_range t start_date end_date)).

Lemma get_category_summary_eval :
  get_category_summary (sqlite (Some t)) self start_date end_date
  = Ok (sort_by (fun a b => Z.leb (cs_total_registrations b) (cs_total_registrations a))
                grouped).
Proof. reflexivity. Qed.

Lemma category_summary_keys :
  map cs_vehicle_category grouped
  = distinct String.eqb
      (map vehicle_category (rows_in_range t start_date end_date)).
Proof.
  unfold grouped. rewrite map_map. cbn [category_summary_of cs_vehicle_category].
  apply group_by_keys.
Qed.

Lemma category_summary_row (row : category_summary) :
  In row grouped ->
  row = category_summary_of
          (cs_vehicle_category row,
           category_rows t start_date end_date (cs_vehicle_category row)).
Proof.
  unfold grouped. rewrite in_map_iff. intros (g & <- & Hg).
  apply (group_by_In String.eqb String.eqb_eq) in Hg as [_ Hg].
  destruct g as [c g]. cbn in Hg. subst g. reflexivity.
Qed.
End CategorySummary.

(** X8.  [get_category_summary] returns one row for each category that has a
    row in the date range and none for any other; the row holds the sum of
    the registrations of the rows of that category in the range, the
    averages of their two growth columns, and the number of different
    manufacturers among them. *)
Theorem get_category_summary_groups (t : table) (self : DatabaseManager)
    (start_date end_date : datetime) :
  exists rows,
    get_category_summary (sqlite (Some t)) self start_date end_date = Ok rows /\
    NoDup (map cs_vehicle_category rows) /\
    (forall c, In c (map cs_vehicle_category rows) <->
       exists r, In r t /\ in_range start_date end_date r /\ vehicle_category r = c) /\
    forall row, In row rows ->
      let g := category_rows t start_date end_date (cs_vehicle_category row) in
      cs_total_registrations row = sum_int (map registrations g) /\
      cs_avg_yoy_growth row = sql_avg (map yoy_growth g) /\
      cs_avg_qoq_growth row = sql_avg (map qoq_growth g) /\
      exists ms,
        NoDup ms /\
        (forall m, In m ms <-> exists r, In r g /\ manufacturer r = m) /\
        cs_num_manufacturers row = Z.of_nat (List.length ms).
Proof.
  eexists. split; [apply get_category_summary_eval |].
  match goal with |- context [sort_by ?f ?l] =>
    pose proof (sort_by_perm f l) as Hperm; set (rows := sort_by f l) in * end.
  assert (Hkeys : Permutation (map cs_vehicle_category rows)
            (distinct String.eqb
               (map vehicle_category (rows_in_range t start_date end_date)))).
  { rewrite <- category_summary_keys. now apply Permutation_map. }
  split; [| split].
  - eapply Permutation_NoDup; [apply Permutation_sym, Hkeys |].
    apply distinct_NoDup, String.eqb_eq.
  - intros c. split.
    + intros H. apply (Permutation_in _ Hkeys) in H.
      apply (distinct_In String.eqb String.eqb_eq), in_map_iff in H.
      destruct H as (r & E & Hr). apply rows_in_range_In in Hr. exists r. tauto.
    + intros (r & Hr & Hrange & E).
      apply (Permutation_in _ (Permutation_sym Hkeys)).
      apply (distinct_In String.eqb String.eqb_eq), in_map_iff.
      exists r. split; [exact E |]. now apply rows_in_range_In.
  - intros row Hrow. apply (Permutation_in _ Hperm) in Hrow.
    apply category_summary_row in Hrow.
    set (c := cs_vehicle_category row) in *.
    cbv zeta. rewrite Hrow. cbn [category_summary_of cs_total_registrations
      cs_avg_yoy_growth cs_avg_qoq_growth cs_num_manufacturers fst snd].
    repeat split.
    exists (distinct String.eqb
              (map manufacturer (category_rows t start_date end_date c))).
    split; [apply distinct_NoDup, String.eqb_eq |]. split; [| reflexivity].
    intros m. rewrite (distinct_In String.eqb String.eqb_eq), in_map_iff.
    split; intros (r & H1 & H2); exists r; tauto.
Qed.

(** X9.  The rows of [get_category_summary] descend by total registrations,
    and their totals add up to the registrations of all rows in the date
    range. *)
Theorem get_category_summary_order_total (t : table) (self : DatabaseManager)
    (start_date end_date : datetime) :
  exists rows,
    get_category_summary (sqlite (Some t)) self start_date end_date = Ok rows /\
    StronglySorted
      (fun a b => (cs_total_registrations b <= cs_total_registrations a)%Z) rows /\
    sum_int (map cs_total_registrations rows)
    = sum_int (map registrations (rows_in_range t start_date end_date)).
Proof.
  eexists. split; [apply get_category_summary_eval |]. split.
  - apply Z_geb_sorted.
  - rewrite (sum_int_perm _ _ (Permutation_map _ (sort_by_perm _ _))).
    rewrite map_map. cbn [category_summary_of cs_total_registrations].
    apply (group_by_totals String.eqb String.eqb_eq).
Qed.

(** * [get_manufacturer_summary] *)

Section ManufacturerSummary.
Variable t : table.
Variable self : DatabaseManager.
Variables start_date end_date : datetime.
Variable category : option string.

Let grouped : list manufacturer_summary :=
  map manufacturer_summary_of
      (group_by pair_eqb by_manufacturer_category
                (summary_rows t start_date end_date category)).

Lemma get_manufacturer_summary_eval :
  get_manufacturer_summary (sqlite (Some t)) self start_date end_date category
  = Ok (sort_by (fun a b => Z.leb (ms_total_registrations b) (ms_total_registrations a))
                grouped).
Proof.
  unfold get_manufacturer_summary, manufacturer_summary_query, grouped, summary_rows.
  now destruct (truthy_str category).
Qed.

Lemma manufacturer_summary_keys :
  map ms_key grouped
  = distinct pair_eqb
      (map by_manufacturer_category (summary_rows t start_date end_date category)).
Proof.
  unfold grouped. rewrite map_map. rewrite <- group_by_keys.
  apply map_ext. now intros [[m c] g].
Qed.

Lemma manufacturer_summary_row (row : manufacturer_summary) :
  In row grouped ->
  row = manufacturer_summary_of
          (ms_key row,
           summary_group t start_date end_date category
                         (ms_manufacturer row) (ms_vehicle_category row)).
Proof.
  unfold grouped. rewrite in_map_iff. intros (g & <- & Hg).
  apply (group_by_In pair_eqb pair_eqb_eq) in Hg as [_ Hg].
  destruct g as [[m c] g]. cbn in Hg. subst g. reflexivity.
Qed.
End ManufacturerSummary.

(** X10.  [get_manufacturer_summary] returns one row for each pair of
    manufacturer and category that has a row in the date range (of the
    given category only, when one is given and is not the empty text); the
    row holds the sum of the registrations and the averages of the growth
    columns of the rows of that pair. *)
Theorem get_manufacturer_summary_groups (t : table) (self : DatabaseManager)
    (start_date end_date : datetime) (category : option string) :
  exists rows,
    get_manufacturer_summary (sqlite (Some t)) self start_date end_date category
      = Ok rows /\
    NoDup (map ms_key rows) /\
    (forall m c, In (m, c) (map ms_key rows) <->
       exists r, In r t /\ in_range start_date end_date r /\
                 category_selected category r /\
                 manufacturer r = m /\ vehicle_category r = c) /\
    forall row, In row rows ->
      let g := summary_group t start_date end_date category
                             (ms_manufacturer row) (ms_vehicle_category row) in
      ms_total_registrations row = sum_int (map registrations g) /\
      ms_avg_yoy_growth row = sql_avg (map yoy_growth g) /\
      ms_avg_qoq_growth row = sql_avg (map qoq_growth g).
Proof.
  eexists. split; [apply get_manufacturer_summary_eval |].
  match goal with |- context [sort_by ?f ?l] =>
    pose proof (sort_by_perm f l) as Hperm; set (rows := sort_by f l) in * end.
  assert (Hkeys : Permutation (map ms_key rows)
            (distinct pair_eqb
               (map by_manufacturer_category
                    (summary_rows t start_date end_date category)))).
  { rewrite <- manufacturer_summary_keys. now apply Permutation_map. }
  split; [| split].
  - eapply Permutation_NoDup; [apply Permutation_sym, Hkeys |].
    apply distinct_NoDup, pair_eqb_eq.
  - intros m c. split.
    + intros H. apply (Permutation_in _ Hkeys) in H.
      rewrite (distinct_In pair_eqb pair_eqb_eq), in_map_iff in H.
      destruct H as (r & E & Hr). apply summary_rows_In in Hr.
      injection E as E1 E2. exists r. tauto.
    + intros (r & Hr & Hrange & Hc & E1 & E2).
      apply (Permutation_in _ (Permutation_sym Hkeys)).
      rewrite (distinct_In pair_eqb pair_eqb_eq), in_map_iff.
      exists r. split; [unfold by_manufacturer_category; congruence |].
      now apply summary_rows_In.
  - intros row Hrow. apply (Permutation_in _ Hperm) in Hrow.
    apply manufacturer_summary_row in Hrow. unfold ms_key in Hrow.
    set (m := ms_manufacturer row) in *. set (c := ms_vehicle_category row) in *.
    cbv zeta. rewrite Hrow. repeat split.
Qed.

(** X11.  The rows of [get_manufacturer_summary] descend by total registrations,
    and their totals add up to the registrations of the rows selected: those
    in the date range, of the given category when one is given. *)
Theorem get_manufacturer_summary_order_total (t : table) (self : DatabaseManager)
    (start_date end_date : datetime) (category : option string) :
  exists rows,
    get_manufacturer_summary (sqlite (Some t)) self start_date end_date category
      = Ok rows /\
    StronglySorted
      (fun a b => (ms_total_registrations b <= ms_total_registrations a)%Z) rows /\
    sum_int (map ms_total_registrations rows)
    = sum_int (map registrations (summary_rows t start_date end_date category)).
Proof.
  eexists. split; [apply get_manufacturer_summary_eval |]. split.
  - apply Z_geb_sorted.
  - rewrite (sum_int_perm _ _ (Permutation_map _ (sort_by_perm _ _))).
    rewrite map_map. cbn [manufacturer_summary_of ms_total_registrations].
    apply (group_by_totals pair_eqb pair_eqb_eq).
Qed.

(** * [get_monthly_trends] *)

Section MonthlyTrends.
Variable t : table.
Variable self : DatabaseManager.
Variables start_date end_date : datetime.
Variables vehicle_categories manufacturers : option (list string).

Let sel : table :=
  trend_rows t start_date end_date vehicle_categories manufacturers.

Lemma get_monthly_trends_eval :
  get_monthly_trends (sqlite (Some t)) self start_date end_date
                     vehicle_categories manufacturers
  = Ok (sort_by (date_category_manufacturer_leb mt_date mt_vehicle_category
                                                mt_manufacturer)
                (map monthly_trend_of (group_by trend_key_eqb trend_key sel))).
Proof. reflexivity. Qed.
End MonthlyTrends.

(** X12.  The rows of [get_monthly_trends] ascend by date, then category, then
    manufacturer, and their registrations add up to the registrations of
    the rows [get_filtered_data] returns for the same arguments. *)
Theorem get_monthly_trends_order_total (t : table) (self : DatabaseManager)
    (start_date end_date : datetime)
    (vehicle_categories manufacturers : option (list string)) :
  exists trends data,
    get_monthly_trends (sqlite (Some t)) self start_date end_date
                       vehicle_categories manufacturers = Ok trends /\
    get_filtered_data (sqlite (Some t)) self start_date end_date
                      vehicle_categories manufacturers = Ok data /\
    StronglySorted
      (by_date_category_manufacturer mt_date mt_vehicle_category mt_manufacturer)
      trends /\
    sum_int (map mt_registrations trends) = sum_int (map registrations data).
Proof.
  do 2 eexists.
  split; [apply get_monthly_trends_eval |].
  split; [apply get_filtered_data_eval |]. split.
  - apply sort_by_date_category_manufacturer.
  - rewrite (sum_int_perm _ _ (Permutation_map _ (sort_by_perm _ _))).
    rewrite (sum_int_perm _ _ (Permutation_map registrations (sort_by_perm _ _))).
    rewrite map_map.
    rewrite <- (group_by_totals trend_key_eqb trend_key_eqb_eq trend_key registrations).
    apply f_equal, map_ext. now intros [[[[[[d y] m] q] c] f] g].
Qed.

Lemma sql_avg_single (x : option real) : sql_avg [x] = x.
Proof.
  destruct x as [[q|s]|]; try reflexivity.
  unfold sql_avg. cbn. do 2 f_equal. destruct q as [n d].
  unfold Qdiv, Qmult, Qinv, Qplus. cbn.
  now rewrite Z.mul_1_r, Z.mul_1_r, Pos.mul_1_r.
Qed.

Lemma monthly_trend_of_single (r : registration) :
  monthly_trend_of (trend_key r, [r]) = trend_columns r.
Proof.
  unfold monthly_trend_of, trend_columns, trend_key. cbn.
  rewrite !sql_avg_single. unfold sum_int. cbn. now rewrite Z.add_0_r.
Qed.

(** X13.  On a table that holds at most one row for each combination of
    date, category and manufacturer, so that no two rows tie in the ORDER
    BY, [get_monthly_trends] returns the rows of [get_filtered_data] for the
    same arguments, in the same order, each reduced to the columns of the
    trend: the sum and the two averages are the stored values themselves. *)
Theorem get_monthly_trends_unique_rows (t : table) (self : DatabaseManager)
    (start_date end_date : datetime)
    (vehicle_categories manufacturers : option (list string)) :
  NoDup (map order_key t) ->
  exists trends data,
    get_monthly_trends (sqlite (Some t)) self start_date end_date
                       vehicle_categories manufacturers = Ok trends /\
    get_filtered_data (sqlite (Some t)) self start_date end_date
                      vehicle_categories manufacturers = Ok data /\
    trends = map trend_columns data.
Proof.
  intros Hnd.
  assert (Hkeys : NoDup (map trend_key t)).
  { apply (NoDup_map_inv (fun k => let '(d, _, _, _, c, f) := k in (d, c, f))).
    rewrite map_map. exact Hnd. }
  do 2 eexists.
  split; [apply get_monthly_trends_eval |].
  split; [apply get_filtered_data_eval |].
  rewrite (group_by_unique_keys trend_key_eqb trend_key_eqb_eq).
  - rewrite map_map.
    rewrite (map_ext _ trend_columns) by apply monthly_trend_of_single.
    now apply sort_by_map.
  - now apply NoDup_map_filter.
Qed.

Lemma get_monthly_trends_unique_rows_witness :
  exists trends data,
    get_monthly_trends (sqlite (Some market_sample)) vehicle_data_db
                       jan_2024 dec_2024 None (Some ["Honda"; "Hyundai"])
      = Ok trends /\
    get_filtered_data (sqlite (Some market_sample)) vehicle_data_db
                      jan_2024 dec_2024 None (Some ["Honda"; "Hyundai"])
      = Ok data /\
    trends = map trend_columns data.
Proof.
  apply (get_monthly_trends_unique_rows market_sample vehicle_data_db
           jan_2024 dec_2024 None (Some ["Honda"; "Hyundai"])).
  repeat constructor; cbn; intuition discriminate.
Defined.

(** * [get_market_share_data] and the market leader *)

(** X14.  The rows of [get_market_share_data] name each manufacturer of the
    category in the range once and descend by total registrations. *)
Theorem get_market_share_data_ranked (t : table) (self : DatabaseManager)
    (start_date end_date : datetime) (category : string) :
  exists rows,
    get_market_share_data (sqlite (Some t)) self start_date end_date category
      = Ok rows /\
    NoDup (map sh_manufacturer rows) /\
    (forall m, In m (map sh_manufacturer rows) <->
       exists r, In r (share_rows t start_date end_date category) /\
                 manufacturer r = m) /\
    StronglySorted
      (fun a b => (sh_total_registrations b <= sh_total_registrations a)%Z) rows.
Proof.
  eexists. split; [apply get_market_share_data_eval |].
  match goal with |- context [sort_by ?f ?l] =>
    pose proof (sort_by_perm f l) as Hperm; set (rows := sort_by f l) in * end.
  assert (Hkeys : Permutation (map sh_manufacturer rows)
            (distinct String.eqb
               (map manufacturer (share_rows t start_date end_date category)))).
  { rewrite <- (group_by_keys String.eqb manufacturer).
    eapply Permutation_trans; [apply Permutation_map, Hperm |].
    rewrite map_map. apply Permutation_refl. }
  split; [| split].
  - eapply Permutation_NoDup; [apply Permutation_sym, Hkeys |].
    apply distinct_NoDup, String.eqb_eq.
  - intros m. split.
    + intros H. apply (Permutation_in _ Hkeys) in H.
      rewrite (distinct_In String.eqb String.eqb_eq), in_map_iff in H.
      destruct H as (r & E & Hr). exists r. tauto.
    + intros (r & Hr & E).
      apply (Permutation_in _ (Permutation_sym Hkeys)).
      rewrite (distinct_In String.eqb String.eqb_eq), in_map_iff.
      exists r. tauto.
  - apply Z_geb_sorted.
Qed.

(** X15.  For a category with no row in the period [analyze_market_trends]
    reports no leader.  For a category with rows whose registrations add up
    to 0 the report raises: the share of the first row is NULL and cannot be
    formatted.  Otherwise the leader reported is a manufacturer with a row
    of the category in the period whose total registrations there are at
    least those of every other manufacturer of the category. *)
Theorem market_leader_largest (t : table) (self : DatabaseManager)
    (start_date end_date : datetime) (category : string) :
  match market_leader (sqlite (Some t)) self start_date end_date category with
  | Ok None => share_rows t start_date end_date category = []
  | Raise _ =>
      share_rows t start_date end_date category <> [] /\
      category_total t start_date end_date category = 0%Z
  | Ok (Some row) =>
      category_total t start_date end_date category <> 0%Z /\
      (exists r, In r (share_rows t start_date end_date category) /\
                 manufacturer r = sh_manufacturer row) /\
      sh_total_registrations row
      = manufacturer_total t start_date end_date category (sh_manufacturer row) /\
      forall r, In r (share_rows t start_date end_date category) ->
        (manufacturer_total t start_date end_date category (manufacturer r)
         <= sh_total_registrations row)%Z
  end.
Proof.
  unfold market_leader. rewrite get_market_share_data_eval. cbn [bind].
  match goal with |- context [sort_by ?f ?l] =>
    pose proof (sort_by_perm f l) as Hperm;
    pose proof (Z_geb_sorted sh_total_registrations l) as Hsorted;
    set (rows := sort_by f l) in * end.
  assert (Hmember : forall r, In r (share_rows t start_date end_date category) ->
            exists row, In row rows /\
              sh_total_registrations row
              = manufacturer_total t start_date end_date category (manufacturer r)).
  { intros r Hr.
    set (sel := share_rows t start_date end_date category) in *.
    set (g := (manufacturer r,
               filter (fun x => String.eqb (manufacturer x) (manufacturer r)) sel)).
    exists (market_share_of (sql_sum (map registrations sel)) g).
    split; [| reflexivity].
    apply (Permutation_in _ (Permutation_sym Hperm)). apply in_map.
    apply (group_by_In String.eqb String.eqb_eq manufacturer sel g).
    split; [exact (in_map manufacturer sel r Hr) | reflexivity]. }
  destruct rows as [|row rest] eqn:Erows.
  - destruct (share_rows t start_date end_date category) as [|r sel]; [reflexivity |].
    destruct (Hmember r) as (row & [] & _). now left.
  - assert (Hrow : In row (row :: rest)) by now left.
    apply (Permutation_in _ Hperm) in Hrow.
    destruct (grouped_row _ _ _ _ _ Hrow) as [Htotal Hshare].
    assert (Hsel : exists r, In r (share_rows t start_date end_date category) /\
                             manufacturer r = sh_manufacturer row).
    { apply in_map_iff in Hrow as (g & <- & Hg).
      apply (group_by_In String.eqb String.eqb_eq) in Hg as [Hg _].
      apply in_map_iff in Hg as (r & E & Hr). exists r. split; [exact Hr | exact E]. }
    assert (Hne : share_rows t start_date end_date category <> []).
    { destruct Hsel as (r & Hr & _). intros E. now rewrite E in Hr. }
    rewrite Hshare.
    destruct (category_total t start_date end_date category) as [|p|p] eqn:Ec;
      cbn [percent_of sql_round2].
    + split; [exact Hne | reflexivity].
    + split; [discriminate |]. split; [exact Hsel |]. split; [exact Htotal |].
      intros r Hr. destruct (Hmember r Hr) as (row' & Hin & <-).
      destruct Hin as [<-|Hin]; [lia |].
      now apply (StronglySorted_head _ _ _ Hsorted).
    + split; [discriminate |]. split; [exact Hsel |]. split; [exact Htotal |].
      intros r Hr. destruct (Hmember r Hr) as (row' & Hin & <-).
      destruct Hin as [<-|Hin]; [lia |].
      now apply (StronglySorted_head _ _ _ Hsorted).
Qed.

(** * [dashboard.py]: the manufacturer filter and the indicators *)

Lemma sort_by_text_strict (l : list string) :
  NoDup l -> StronglySorted text_lt (sort_by String.leb l).
Proof.
  intros Hnd.
  apply StronglySorted_weaken
    with (R := fun a b => String.leb a b = true /\ a <> b).
  - intros x y _ _ [H Hne]. apply string_leb_spec in H. tauto.
  - apply StronglySorted_strict.
    + apply sort_by_strongly_sorted; [apply string_leb_total | apply string_leb_trans].
    + eapply Permutation_NoDup; [apply Permutation_sym, sort_by_perm | exact Hnd].
Qed.

Lemma extend_manufacturers (t : table) (self : DatabaseManager)
    (cats : list string) (acc : list string) :
  exists l,
    fold_left
      (fun acc cat =>
         manufacturers <- acc ;;
         more <- get_manufacturers (sqlite (Some t)) self (Some cat) ;;
         Ok (manufacturers ++ more))
      cats (Ok acc) = Ok l /\
    forall m, In m l <->
      In m acc \/
      exists c r, In c cats /\ In r t /\ category_selected (Some c) r /\
                  manufacturer r = m.
Proof.
  revert acc. induction cats as [|c cats IH]; intros acc; cbn [fold_left].
  - exists acc. split; [reflexivity |]. intros m. split; [auto |].
    intros [H|(c & r & [] & _)]. exact H.
  - cbn [bind]. rewrite get_manufacturers_eval. cbn [bind].
    match goal with |- context [Ok (acc ++ ?more)] =>
      destruct (IH (acc ++ more)) as (l & E & Hl) end.
    exists l. split; [exact E |]. intros m. rewrite Hl, in_app_iff, listed_In.
    split.
    + intros [[H|(r & Hr & Hc & Hm)]|(c' & r & Hc' & H)]; [auto | |].
      * right. exists c, r. split; [now left | tauto].
      * right. exists c', r. split; [now right | tauto].
    + intros [H|(c' & r & [<-|Hc'] & Hr & Hc & Hm)]; [auto | |].
      * left. right. exists r. tauto.
      * right. exists c', r. tauto.
Qed.

(** X16.  The options of the dashboard's manufacturer filter ascend strictly and
    are exactly the manufacturers with a row in one of the selected
    categories (every manufacturer when no category is selected, and also
    when the empty text is among the selected categories), whatever the
    order in which the set is listed. *)
Theorem manufacturer_options_of_selected (t : table) (self : DatabaseManager)
    (list_set : list string -> list string) (selected_categories : list string) :
  (forall l, NoDup (list_set l) /\ forall x, In x (list_set l) <-> In x l) ->
  exists options,
    manufacturer_options (sqlite (Some t)) self list_set selected_categories
      = Ok options /\
    StronglySorted text_lt options /\
    forall m, In m options <->
      exists r, In r t /\ manufacturer r = m /\
        (selected_categories = [] \/
         exists c, In c selected_categories /\ category_selected (Some c) r).
Proof.
  intros Hset. unfold manufacturer_options.
  destruct selected_categories as [|c cats].
  - rewrite get_manufacturers_eval. cbn [bind]. eexists. split; [reflexivity |].
    split.
    + apply sort_by_text_strict.
      eapply Permutation_NoDup; [apply Permutation_sym, sort_by_perm |].
      apply distinct_NoDup, String.eqb_eq.
    + intros m. rewrite sort_by_In, listed_In.
      split; intros (r & H); exists r; cbn in *; tauto.
  - destruct (extend_manufacturers t self (c :: cats) []) as (l & -> & Hl).
    cbn [bind]. eexists. split; [reflexivity |]. split.
    + apply sort_by_text_strict, Hset.
    + intros m. rewrite sort_by_In. destruct (Hset l) as [_ ->]. rewrite Hl.
      split.
      * intros [[]|(c' & r & Hc' & Hr & Hc & Hm)]. exists r.
        split; [exact Hr |]. split; [exact Hm |]. right. now exists c'.
      * intros (r & Hr & Hm & [H|(c' & Hc' & Hc)]); [discriminate |].
        right. exists c', r. tauto.
Qed.

Lemma manufacturer_options_of_selected_witness :
  exists options,
    manufacturer_options (sqlite (Some market_sample)) vehicle_data_db
                         (distinct String.eqb) ["4W"; "2W"] = Ok options /\
    StronglySorted text_lt options /\
    forall m, In m options <->
      exists r, In r market_sample /\ manufacturer r = m /\
        (["4W"; "2W"] = [] \/
         exists c, In c ["4W"; "2W"] /\ category_selected (Some c) r).
Proof.
  apply (manufacturer_options_of_selected market_sample vehicle_data_db
           (distinct String.eqb) ["4W"; "2W"]).
  intros l. split.
  - apply distinct_NoDup, String.eqb_eq.
  - intros x. apply distinct_In, String.eqb_eq.
Defined.

Section Counting.
Context {A B : Type}.

Lemma NoDup_flat_map (f : A -> list B) (l : list A) :
  NoDup l -> (forall a, In a l -> NoDup (f a)) ->
  (forall a a' b, In a l -> In a' l -> In b (f a) -> In b (f a') -> a = a') ->
  NoDup (flat_map f l).
Proof.
  induction 1 as [|x l Hx Hnd IH]; intros Hf Hdis; simpl; [constructor |].
  apply NoDup_app.
  - apply Hf. now left.
  - apply IH.
    + intros a Ha. apply Hf. now right.
    + intros a a' b Ha Ha'. apply Hdis; now right.
  - intros b Hb Hb'. apply in_flat_map in Hb' as (a & Ha & Hb').
    apply Hx. rewrite (Hdis x a b); auto. now left. now right.
Qed.

Lemma sum_lengths (f : A -> list B) (l : list A) :
  sum_int (map (fun a => Z.of_nat (List.length (f a))) l)
  = Z.of_nat (List.length (flat_map f l)).
Proof.
  induction l as [|x l IH]; simpl; [reflexivity |].
  rewrite length_app, IH. lia.
Qed.
End Counting.

(** The manufacturers counted per category are the pairs of manufacturer
    and category. *)
Lemma manufacturers_per_category (rows : table) :
  sum_int (map cs_num_manufacturers
               (map category_summary_of (group_by String.eqb vehicle_category rows)))
  = count_distinct pair_eqb (map by_manufacturer_category rows).
Proof.
  unfold group_by, count_distinct. rewrite !map_map.
  cbn [category_summary_of cs_num_manufacturers snd].
  set (ms := fun c => distinct String.eqb
                 (map manufacturer
                      (filter (fun r => String.eqb (vehicle_category r) c) rows))).
  set (pairs := fun c => map (fun m => (m, c)) (ms c)).
  rewrite (map_ext _ (fun c => Z.of_nat (List.length (pairs c))))
    by (intros c; unfold pairs; now rewrite length_map).
  rewrite sum_lengths. f_equal. apply Permutation_length, NoDup_Permutation.
  - apply NoDup_flat_map.
    + apply distinct_NoDup, String.eqb_eq.
    + intros c _. unfold pairs. apply Finite.Injective_map_NoDup.
      * intros a b [= ->]. reflexivity.
      * apply distinct_NoDup, String.eqb_eq.
    + intros c c' b _ _. unfold pairs. rewrite !in_map_iff.
      intros (m & <- & _) (m' & [= _ ->] & _). reflexivity.
  - apply distinct_NoDup, pair_eqb_eq.
  - intros [m c]. rewrite in_flat_map, (distinct_In pair_eqb pair_eqb_eq), in_map_iff.
    unfold pairs, ms. split.
    + intros (c' & _ & H). apply in_map_iff in H as (m' & [= -> ->] & H).
      rewrite (distinct_In String.eqb String.eqb_eq), in_map_iff in H.
      destruct H as (r & Hm & Hr). apply filter_In in Hr as [Hr Hc].
      apply String.eqb_eq in Hc. exists r. split; [| exact Hr].
      unfold by_manufacturer_category. congruence.
    + intros (r & [= Hm Hc] & Hr). exists c. split.
      * rewrite (distinct_In String.eqb String.eqb_eq), <- Hc. now apply in_map.
      * apply (in_map (fun m => (m, c))).
        apply (distinct_In String.eqb String.eqb_eq), in_map_iff.
        exists r. split; [exact Hm |]. apply filter_In. split; [exact Hr |].
        now apply String.eqb_eq.
Qed.

Lemma manufacturers_at_most_pairs (rows : table) :
  (count_distinct String.eqb (map manufacturer rows)
   <= count_distinct pair_eqb (map by_manufacturer_category rows))%Z.
Proof.
  unfold count_distinct. apply inj_le.
  rewrite <- (length_map fst (distinct pair_eqb _)).
  apply NoDup_incl_length; [apply distinct_NoDup, String.eqb_eq |].
  intros m. rewrite (distinct_In String.eqb String.eqb_eq), !in_map_iff.
  intros (r & Hm & Hr). exists (by_manufacturer_category r). split; [exact Hm |].
  apply (distinct_In pair_eqb pair_eqb_eq). now apply in_map.
Qed.

(** X17.  [main] computes the two integer indicators only when the date
    range was read and at least one category is selected, and then exactly
    when some row lies in the date range.  As int64 sums, the first is the
    sum of the registrations of the rows in the range; the second, "Active
    Manufacturers", is the number of different pairs of manufacturer and
    category in the range, a number that counts a manufacturer once for
    every category it has rows in and is never less than the number of
    different manufacturers. *)
Theorem key_indicators_count (t : table) (self : DatabaseManager)
    (date_range : option (datetime * datetime)) (selected_categories : list string) :
  exists shown,
    key_indicators (sqlite (Some t)) self date_range selected_categories = Ok shown /\
    match date_range, selected_categories with
    | Some (start_date, end_date), _ :: _ =>
        match shown with
        | None => rows_in_range t start_date end_date = []
        | Some (total_registrations, total_manufacturers) =>
            rows_in_range t start_date end_date <> [] /\
            total_registrations
            = wrap_int64
                (sum_int (map registrations (rows_in_range t start_date end_date))) /\
            total_manufacturers
            = wrap_int64
                (count_distinct pair_eqb
                   (map by_manufacturer_category
                        (rows_in_range t start_date end_date))) /\
            (count_distinct String.eqb
               (map manufacturer (rows_in_range t start_date end_date))
             <= count_distinct pair_eqb
                  (map by_manufacturer_category
                       (rows_in_range t start_date end_date)))%Z
        end
    | _, _ => shown = None
    end.
Proof.
  unfold key_indicators.
  destruct date_range as [[start_date end_date]|]; [| eexists; split; reflexivity].
  destruct selected_categories as [|c cs]; [eexists; split; reflexivity |].
  rewrite get_category_summary_eval. cbn [bind].
  match goal with |- context [sort_by ?f ?l] =>
    pose proof (sort_by_perm f l) as Hperm; set (rows := sort_by f l) in * end.
  set (sel := rows_in_range t start_date end_date) in *.
  assert (Htotal : sum_int (map cs_total_registrations rows)
                   = sum_int (map registrations sel)).
  { rewrite (sum_int_perm _ _ (Permutation_map _ Hperm)), map_map.
    cbn [category_summary_of cs_total_registrations].
    apply (group_by_totals String.eqb String.eqb_eq). }
  assert (Hcount : sum_int (map cs_num_manufacturers rows)
                   = count_distinct pair_eqb (map by_manufacturer_category sel)).
  { rewrite (sum_int_perm _ _ (Permutation_map _ Hperm)).
    apply manufacturers_per_category. }
  destruct rows as [|row rest] eqn:E; eexists; (split; [reflexivity |]).
  - apply Permutation_nil in Hperm. unfold group_by in Hperm.
    destruct sel; [reflexivity | discriminate].
  - unfold int64_sum. rewrite Htotal, Hcount. repeat split.
    + intros Hnil. rewrite Hnil in Hperm. apply Permutation_sym in Hperm.
      now apply Permutation_nil in Hperm.
    + apply manufacturers_at_most_pairs.
Qed.

(** * [get_growth_leaders] *)

Lemma sum_filter_le {A} (f : A -> Z) (p : A -> bool) (l : list A) :
  (forall x, In x l -> (0 <= f x)%Z) ->
  (sum_int (map f (filter p l)) <= sum_int (map f l))%Z.
Proof.
  induction l as [|x l IH]; intros Hpos; simpl; [lia |].
  assert (Hx : (0 <= f x)%Z) by (apply Hpos; now left).
  assert (Hl : (sum_int (map f (filter p l)) <= sum_int (map f l))%Z)
    by (apply IH; intros y Hy; apply Hpos; now right).
  unfold sum_int in *. destruct (p x); simpl; lia.
Qed.

Lemma group_nonempty {K} (eqb : K -> K -> bool) (key : registration -> K)
    (rows : table) (k : K) :
  (forall a b, eqb a b = true <-> a = b) ->
  In k (map key rows) <-> filter (fun r => eqb (key r) k) rows <> [].
Proof.
  intros eqb_eq. split.
  - intros H E. apply in_map_iff in H as (r & Hk & Hr).
    assert (Hin : In r (filter (fun r => eqb (key r) k) rows)).
    { apply filter_In. split; [exact Hr |]. now apply eqb_eq. }
    rewrite E in Hin. contradiction.
  - intros H. destruct (filter (fun r => eqb (key r) k) rows) as [|r l] eqn:E;
      [congruence |].
    assert (Hin : In r (filter (fun r => eqb (key r) k) rows))
      by (rewrite E; now left).
    apply filter_In in Hin as [Hr Hk]. apply eqb_eq in Hk.
    apply in_map_iff. now exists r.
Qed.

Lemma filter_three {A} (p q k : A -> bool) (l : list A) :
  filter q (filter k (filter p l)) = filter k (filter (fun x => p x && q x) l).
Proof.
  induction l as [|a l IH]; [reflexivity |].
  cbn [filter].
  destruct (p a) eqn:Hp; cbn [filter andb].
  - destruct (k a) eqn:Hk; destruct (q a) eqn:Hq; cbn [filter];
      rewrite ?Hq, ?Hk, IH; reflexivity.
  - exact IH.
Qed.

Section Leaders.
Variable t : table.
Variables start_date end_date : datetime.
Variable growth_type : string.

Let col : growth_column := growth_column_of growth_type.

Lemma leaders_rows_In (r : registration) :
  In r (leaders_rows t start_date end_date growth_type) <->
  In r t /\ in_range start_date end_date r /\ growth_of col r <> None.
Proof.
  unfold leaders_rows, select_where, in_range. rewrite filter_In. cbn.
  fold col. rewrite andb_true_r, !andb_true_iff.
  destruct (growth_of col r); intuition congruence.
Qed.

Lemma leaders_group_In (m c : string) (r : registration) :
  In r (leaders_group t start_date end_date growth_type m c) <->
  In r t /\ in_range start_date end_date r /\ growth_of col r <> None /\
  manufacturer r = m /\ vehicle_category r = c.
Proof.
  unfold leaders_group. rewrite filter_In, leaders_rows_In, pair_eqb_eq.
  unfold by_manufacturer_category. intuition congruence.
Qed.

(** The group the statement aggregates is the group of the range without
    its rows that have no growth value. *)
Lemma leaders_group_of_range (m c : string) :
  leaders_group t start_date end_date growth_type m c
  = filter (fun r => match growth_of col r with Some _ => true | None => false end)
           (group_in_range t start_date end_date m c).
Proof.
  unfold leaders_group, leaders_rows, group_in_range, rows_in_range, select_where.
  fold col.
  set (p := fun r => holds r (DateBetween (strftime_ymd start_date)
                                          (strftime_ymd end_date))).
  set (q := fun r => holds r (GrowthNotNull col)).
  assert (E2 : filter (fun r => forallb (holds r)
                         [DateBetween (strftime_ymd start_date) (strftime_ymd end_date);
                          GrowthNotNull col]) t
               = filter (fun r => p r && q r) t).
  { apply filter_ext. intros r. cbn [forallb]. now rewrite andb_true_r. }
  assert (E1 : filter (fun r => forallb (holds r)
                         [DateBetween (strftime_ymd start_date) (strftime_ymd end_date)]) t
               = filter p t).
  { apply filter_ext. intros r. cbn [forallb]. now rewrite andb_true_r. }
  rewrite E2, E1. symmetry.
  exact (filter_three p q _ t).
Qed.

Lemma leaders_total_le (m c : string) :
  (forall r, In r t -> (0 <= registrations r)%Z) ->
  (leaders_group_total t start_date end_date growth_type m c
   <= spec_total_count t start_date end_date m c)%Z.
Proof.
  intros Hpos. unfold leaders_group_total, spec_total_count.
  rewrite leaders_group_of_range. apply sum_filter_le.
  intros r Hr. apply Hpos.
  unfold group_in_range in Hr. apply filter_In in Hr as [Hr _].
  now apply rows_in_range_In in Hr.
Qed.

(** The groups that pass HAVING, read off the table. *)
Lemma leaders_qualifying_In (g : growth_leader) :
  In g (leaders_qualifying t start_date end_date growth_type) <->
  leaders_group t start_date end_date growth_type
                (gl_manufacturer g) (gl_vehicle_category g) <> [] /\
  (1000 < total_registrations g)%Z /\
  g = growth_leader_of col
        (leader_key g,
         leaders_group t start_date end_date growth_type
                       (gl_manufacturer g) (gl_vehicle_category g)).
Proof.
  unfold leaders_qualifying. fold col. rewrite filter_In, Z.ltb_lt, in_map_iff.
  split.
  - intros [([k grp] & <- & Hin) Hgt].
    apply (group_by_In pair_eqb pair_eqb_eq) in Hin as [Hk Hgrp].
    cbn [fst snd] in Hk, Hgrp. destruct k as [m c]. subst grp.
    cbn [growth_leader_of gl_manufacturer gl_vehicle_category fst snd leader_key].
    split; [| split; [exact Hgt | reflexivity]].
    now apply (group_nonempty pair_eqb by_manufacturer_category _ (m, c) pair_eqb_eq).
  - intros (Hne & Hgt & E). split; [| exact Hgt].
    exists (leader_key g,
            leaders_group t start_date end_date growth_type
                          (gl_manufacturer g) (gl_vehicle_category g)).
    split; [now rewrite <- E |].
    apply (group_by_In pair_eqb pair_eqb_eq). cbn [fst snd]. split; [| reflexivity].
    now apply (group_nonempty pair_eqb by_manufacturer_category _ _ pair_eqb_eq).
Qed.

Lemma leaders_qualifying_keys :
  NoDup (map leader_key (leaders_qualifying t start_date end_date growth_type)).
Proof.
  unfold leaders_qualifying. apply NoDup_map_filter.
  rewrite map_map.
  rewrite (map_ext _ fst) by (now intros [[m c] grp]).
  apply group_by_NoDup, pair_eqb_eq.
Qed.
End Leaders.

(** C7, as amended.  On a store holding [t], for any range and metric,
    [get_growth_leaders] returns at most 10 rows, one for a (manufacturer,
    category) pair each, in descending order of avg_growth.  What a row
    says of its pair is computed from the rows of the pair in the range
    that have a growth value, which are at least one: total_registrations
    is the sum of their registrations and is above 1000, and avg_growth is
    the mean of their growth values.  A pair whose total over these rows is
    at most 1000 is never returned, whatever its average growth, nor is,
    the registrations being non-negative, a pair whose registrations in the
    range are at most 1000; every other pair with a growth value in the
    range is returned, unless 10 rows that rank at least as high are. *)
Theorem growth_leaders_threshold_order_limit :
  forall (t : table) (self : DatabaseManager) (start_date end_date : datetime)
         (growth_type : string),
  exists rows,
    get_growth_leaders (sqlite (Some t)) self start_date end_date growth_type = Ok rows /\
    (forall m c,
        (leaders_group_total t start_date end_date growth_type m c <= 1000)%Z ->
        forall g, In g rows -> ~ (gl_manufacturer g = m /\ gl_vehicle_category g = c)) /\
    Sorted outranks rows /\
    (List.length rows <= 10)%nat /\
    (exists rest,
      Permutation (rows ++ rest)
                  (leaders_qualifying t start_date end_date growth_type) /\
      forall a b, In a rows -> In b rest -> outranks a b) /\
    NoDup (map leader_key rows) /\
    (forall m c r,
        In r (leaders_group t start_date end_date growth_type m c) <->
        In r t /\ in_range start_date end_date r /\
        growth_of (growth_column_of growth_type) r <> None /\
        manufacturer r = m /\ vehicle_category r = c) /\
    (forall g, In g rows ->
        leaders_group t start_date end_date growth_type
                      (gl_manufacturer g) (gl_vehicle_category g) <> [] /\
        total_registrations g
        = leaders_group_total t start_date end_date growth_type
                              (gl_manufacturer g) (gl_vehicle_category g) /\
        (1000 < total_registrations g)%Z /\
        avg_growth g
        = sql_avg (map (growth_of (growth_column_of growth_type))
                       (leaders_group t start_date end_date growth_type
                                      (gl_manufacturer g) (gl_vehicle_category g)))) /\
    (forall m c,
        leaders_group t start_date end_date growth_type m c <> [] ->
        (1000 < leaders_group_total t start_date end_date growth_type m c)%Z ->
        (exists g, In g rows /\ leader_key g = (m, c)) \/
        (List.length rows = 10%nat /\
         forall g, In g rows ->
           sql_leb (sql_avg (map (growth_of (growth_column_of growth_type))
                                 (leaders_group t start_date end_date growth_type m c)))
                   (avg_growth g) = true)) /\
    ((forall r, In r t -> (0 <= registrations r)%Z) ->
     forall m c,
       (spec_total_count t start_date end_date m c <= 1000)%Z ->
       forall g, In g rows -> leader_key g <> (m, c)).
Proof.
  intros. eexists. split; [apply get_growth_leaders_eval |].
  set (leb := fun a b : growth_leader => sql_leb (avg_growth b) (avg_growth a)).
  set (qualifying := leaders_qualifying t start_date end_date growth_type).
  set (ranked := sort_by leb qualifying).
  assert (Hsorted : StronglySorted outranks ranked).
  { apply (sort_by_strongly_sorted leb).
    - intros a b. apply sql_leb_total.
    - intros a b c Hab Hbc. unfold leb in *. eapply sql_leb_trans; eassumption. }
  assert (Hperm : Permutation ranked qualifying) by apply sort_by_perm.
  assert (Hsplit : firstn 10 ranked ++ skipn 10 ranked = ranked)
    by apply firstn_skipn.
  assert (Hin : forall g, In g (firstn 10 ranked) -> In g qualifying).
  { intros g Hg. apply (Permutation_in _ Hperm). eapply In_firstn_In. exact Hg. }
  assert (Hthreshold : forall m c,
            (leaders_group_total t start_date end_date growth_type m c <= 1000)%Z ->
            forall g, In g (firstn 10 ranked) ->
              ~ (gl_manufacturer g = m /\ gl_vehicle_category g = c)).
  { intros m c Hle g Hg [Hm Hc]. apply Hin in Hg.
    apply leaders_qualifying_In in Hg as (_ & Hgt & E).
    rewrite E in Hgt. cbn [growth_leader_of total_registrations snd] in Hgt.
    rewrite Hm, Hc in Hgt. unfold leaders_group_total in Hle. lia. }
  split; [exact Hthreshold |].
  split; [apply Sorted_firstn, StronglySorted_Sorted, Hsorted |].
  split; [rewrite length_firstn; apply Nat.le_min_l |].
  split.
  { exists (skipn 10 ranked). split; [now rewrite Hsplit |].
    apply StronglySorted_app_le. now rewrite Hsplit. }
  split.
  { assert (Hnd : NoDup (map leader_key ranked)).
    { eapply Permutation_NoDup;
        [apply Permutation_map, Permutation_sym, Hperm |].
      apply leaders_qualifying_keys. }
    rewrite <- Hsplit, map_app in Hnd. now apply NoDup_app_remove_r in Hnd. }
  split; [intros m c r; apply leaders_group_In |].
  split.
  { intros g Hg. apply Hin in Hg.
    apply leaders_qualifying_In in Hg as (Hne & Hgt & E).
    split; [exact Hne |]. split; [| split; [exact Hgt |]].
    - rewrite E at 1. reflexivity.
    - rewrite E at 1. reflexivity. }
  split.
  { intros m c Hne Hgt.
    set (g0 := growth_leader_of (growth_column_of growth_type)
                 ((m, c), leaders_group t start_date end_date growth_type m c)).
    assert (Hq : In g0 ranked).
    { apply (Permutation_in _ (Permutation_sym Hperm)).
      apply leaders_qualifying_In. split; [exact Hne |].
      split; [exact Hgt | reflexivity]. }
    rewrite <- Hsplit in Hq. apply in_app_or in Hq as [Hq|Hq].
    - left. exists g0. split; [exact Hq | reflexivity].
    - right. split.
      + rewrite length_firstn. apply Nat.min_l.
        destruct (Nat.le_gt_cases 10 (List.length ranked)) as [H|H]; [exact H |].
        rewrite skipn_all2 in Hq by lia. contradiction.
      + intros g Hg.
        assert (Ho : outranks g g0).
        { apply (StronglySorted_app_le outranks (firstn 10 ranked) (skipn 10 ranked));
            [now rewrite Hsplit | exact Hg | exact Hq]. }
        exact Ho. }
  intros Hpos m c Hle g Hg Hkey.
  injection Hkey as Hm Hc.
  refine (Hthreshold m c _ g Hg (conj Hm Hc)).
  pose proof (leaders_total_le t start_date end_date growth_type m c Hpos). lia.
Qed.

Lemma growth_leaders_threshold_order_limit_witness :
  exists rows,
    get_growth_leaders (sqlite (Some leaders_sample)) vehicle_data_db
                       jan_2024 dec_2024 "yoy" = Ok rows /\
    (forall g, In g rows ->
       ~ (gl_manufacturer g = "Atul Auto" /\ gl_vehicle_category g = "3W")) /\
    (List.length rows <= 10)%nat.
Proof.
  destruct (growth_leaders_threshold_order_limit leaders_sample vehicle_data_db
              jan_2024 dec_2024 "yoy") as (rows & E & Hthr & _ & Hlen & _).
  exists rows. split; [exact E |]. split; [| exact Hlen].
  apply Hthr. vm_compute. discriminate.
Defined.

(** C7 as stated fails: with [total_count] the registrations of the group
    in the range, Atul Auto is above the threshold (1800) and has the
    highest growth (95), yet the only row returned is Bajaj's, because the
    900 registrations of its row without growth value are not counted. *)
Lemma growth_leaders_total_skips_rows_without_growth :
  get_growth_leaders (sqlite (Some leaders_with_gap)) vehicle_data_db
                     jan_2024 dec_2024 "yoy"
  = Ok [ {| gl_manufacturer := "Bajaj"; gl_vehicle_category := "3W";
            avg_growth := Some (Finite ((0 + (8 # 1)) / inject_Z (Z.of_nat 1)));
            total_registrations := 11250 |} ] /\
  spec_total_count leaders_with_gap jan_2024 dec_2024 "Atul Auto" "3W" = 1800%Z /\
  ~ spec_growth_leaders leaders_with_gap jan_2024 dec_2024 "yoy"
      [ {| gl_manufacturer := "Bajaj"; gl_vehicle_category := "3W";
           avg_growth := Some (Finite ((0 + (8 # 1)) / inject_Z (Z.of_nat 1)));
           total_registrations := 11250 |} ].
Proof.
  split; [reflexivity |]. split; [reflexivity |].
  intros (_ & _ & _ & H).
  destruct (H "Atul Auto" "3W") as [(g & [<-|[]] & Hkey)|[Hlen _]].
  - vm_compute. reflexivity.
  - vm_compute. discriminate.
  - discriminate Hkey.
  - discriminate Hlen.
Qed.

(** * [get_filtered_data]: the range of periods *)

(** ** Formatted dates compare as the days they denote *)

Lemma digit_compare (x y : Z) :
  Ascii.compare (ascii_of_N (Z.to_N (48 + x mod 10)))
                (ascii_of_N (Z.to_N (48 + y mod 10)))
  = Z.compare (x mod 10) (y mod 10).
Proof.
  pose proof (Z.mod_pos_bound x 10 ltac:(lia)) as Hx.
  pose proof (Z.mod_pos_bound y 10 ltac:(lia)) as Hy.
  unfold Ascii.compare.
  rewrite !N_ascii_embedding by lia.
  rewrite Z2N.inj_compare by lia.
  apply Z.add_compare_mono_l.
Qed.

Lemma four_digits (y : Z) :
  (0 <= y <= 9999)%Z ->
  (y = 1000 * (y / 1000 mod 10) + 100 * (y / 100 mod 10)
       + 10 * (y / 10 mod 10) + y mod 10)%Z.
Proof. intros H. Z.div_mod_to_equations. lia. Qed.

Lemma two_digits (y : Z) :
  (0 <= y <= 99)%Z -> (y = 10 * (y / 10 mod 10) + y mod 10)%Z.
Proof. intros H. Z.div_mod_to_equations. lia. Qed.

Ltac by_digits :=
  repeat match goal with
         | |- context [Z.compare ?a ?b] => destruct (Z.compare_spec a b)
         end;
  try reflexivity; exfalso; lia.

Lemma zero_pad4_compare (y y' : Z) (r r' : string) :
  (0 <= y <= 9999)%Z -> (0 <= y' <= 9999)%Z ->
  String.compare (zero_pad4 y ++ r) (zero_pad4 y' ++ r')
  = match Z.compare y y' with
    | Eq => String.compare r r'
    | c => c
    end.
Proof.
  intros Hy Hy'. unfold zero_pad4, digit. cbn [append String.compare].
  rewrite !digit_compare.
  pose proof (four_digits y Hy) as E. pose proof (four_digits y' Hy') as E'.
  pose proof (Z.mod_pos_bound (y / 1000) 10 ltac:(lia)).
  pose proof (Z.mod_pos_bound (y / 100) 10 ltac:(lia)).
  pose proof (Z.mod_pos_bound (y / 10) 10 ltac:(lia)).
  pose proof (Z.mod_pos_bound y 10 ltac:(lia)).
  pose proof (Z.mod_pos_bound (y' / 1000) 10 ltac:(lia)).
  pose proof (Z.mod_pos_bound (y' / 100) 10 ltac:(lia)).
  pose proof (Z.mod_pos_bound (y' / 10) 10 ltac:(lia)).
  pose proof (Z.mod_pos_bound y' 10 ltac:(lia)).
  set (a := (y / 1000 mod 10)%Z) in *. set (b := (y / 100 mod 10)%Z) in *.
  set (c := (y / 10 mod 10)%Z) in *. set (d := (y mod 10)%Z) in *.
  set (a' := (y' / 1000 mod 10)%Z) in *. set (b' := (y' / 100 mod 10)%Z) in *.
  set (c' := (y' / 10 mod 10)%Z) in *. set (d' := (y' mod 10)%Z) in *.
  clearbody a b c d a' b' c' d'.
  generalize (String.compare r r'). intros rest.
  by_digits.
Qed.

Lemma zero_pad2_compare (y y' : Z) (r r' : string) :
  (0 <= y <= 99)%Z -> (0 <= y' <= 99)%Z ->
  String.compare (zero_pad2 y ++ r) (zero_pad2 y' ++ r')
  = match Z.compare y y' with
    | Eq => String.compare r r'
    | c => c
    end.
Proof.
  intros Hy Hy'. unfold zero_pad2, digit. cbn [append String.compare].
  rewrite !digit_compare.
  pose proof (two_digits y Hy) as E. pose proof (two_digits y' Hy') as E'.
  pose proof (Z.mod_pos_bound (y / 10) 10 ltac:(lia)).
  pose proof (Z.mod_pos_bound y 10 ltac:(lia)).
  pose proof (Z.mod_pos_bound (y' / 10) 10 ltac:(lia)).
  pose proof (Z.mod_pos_bound y' 10 ltac:(lia)).
  set (c := (y / 10 mod 10)%Z) in *. set (d := (y mod 10)%Z) in *.
  set (c' := (y' / 10 mod 10)%Z) in *. set (d' := (y' mod 10)%Z) in *.
  clearbody c d c' d'.
  generalize (String.compare r r'). intros rest.
  by_digits.
Qed.

Lemma strftime_ymd_append (d : datetime) (s : string) :
  (strftime_ymd d ++ s
   = zero_pad4 (dt_year d)
       ++ String "-" (zero_pad2 (dt_month d)
                        ++ String "-" (zero_pad2 (dt_day d) ++ s)))%string.
Proof. reflexivity. Qed.

(** The text of two formatted days, each followed by more text, compares
    as the days, and then as what follows them. *)
Lemma strftime_ymd_compare (a b : datetime) (s s' : string) :
  four_digit_day a -> four_digit_day b ->
  String.compare (strftime_ymd a ++ s) (strftime_ymd b ++ s')
  = match Z.compare (dt_year a) (dt_year b) with
    | Eq => match Z.compare (dt_month a) (dt_month b) with
            | Eq => match Z.compare (dt_day a) (dt_day b) with
                    | Eq => String.compare s s'
                    | c => c
                    end
            | c => c
            end
    | c => c
    end.
Proof.
  intros (Hy & Hm & Hd) (Hy' & Hm' & Hd').
  rewrite !strftime_ymd_append.
  rewrite zero_pad4_compare by lia.
  destruct (Z.compare (dt_year a) (dt_year b)); try reflexivity.
  cbn [String.compare Ascii.compare]. change (N.compare _ _) with Eq. cbv beta iota.
  rewrite zero_pad2_compare by lia.
  destruct (Z.compare (dt_month a) (dt_month b)); try reflexivity.
  cbn [String.compare Ascii.compare]. change (N.compare _ _) with Eq. cbv beta iota.
  now rewrite zero_pad2_compare by lia.
Qed.

Lemma strftime_ymd_nil (d : datetime) : (strftime_ymd d ++ "")%string = strftime_ymd d.
Proof. reflexivity. Qed.

(** The lower bound admits the days from the start day on, whatever
    follows the day in the text. *)
Lemma start_bound (start_date d : datetime) (time_of_day : string) :
  four_digit_day start_date -> four_digit_day d ->
  String.leb (strftime_ymd start_date) (strftime_ymd d ++ time_of_day) = true
  <-> day_le start_date d.
Proof.
  intros Hs Hd. unfold String.leb.
  rewrite <- (strftime_ymd_nil start_date), strftime_ymd_compare by assumption.
  unfold day_le.
  destruct (Z.compare_spec (dt_year start_date) (dt_year d));
    destruct (Z.compare_spec (dt_month start_date) (dt_month d));
    destruct (Z.compare_spec (dt_day start_date) (dt_day d));
    destruct time_of_day; cbn [String.compare];
    split; intros; try discriminate; try reflexivity; lia.
Qed.

(** The upper bound admits the days before the end day, and the end day
    itself when nothing follows it in the text. *)
Lemma end_bound (end_date d : datetime) (time_of_day : string) :
  four_digit_day end_date -> four_digit_day d ->
  String.leb (strftime_ymd d ++ time_of_day) (strftime_ymd end_date) = true
  <-> day_le d end_date /\ (time_of_day = "" \/ ~ day_le end_date d).
Proof.
  intros He Hd. unfold String.leb.
  rewrite <- (strftime_ymd_nil end_date), strftime_ymd_compare by assumption.
  unfold day_le.
  destruct (Z.compare_spec (dt_year d) (dt_year end_date));
    destruct (Z.compare_spec (dt_month d) (dt_month end_date));
    destruct (Z.compare_spec (dt_day d) (dt_day end_date));
    destruct time_of_day; cbn [String.compare];
    split; intros; try discriminate; try reflexivity;
    try (split; [lia | first [left; reflexivity | right; lia]]);
    try (exfalso; intuition (try discriminate; lia)).
Qed.

(** C1, as amended.  On a store holding table [t], for bounds in the years
    1000 to 9999, [get_filtered_data] returns (never raises) records of the
    table, each as often as the table holds it, such that all three
    conditions hold at once of every record returned: its period (the day
    its date text starts with) lies within the range, both bounds
    inclusive, its category is allowed and its manufacturer is allowed,
    where a list that is omitted or empty allows every value and a
    non-empty list allows its members.  Every record of the table that
    meets the three conditions is returned; of the records of the end day
    whose date text goes on after the day, nothing is said here. *)
Theorem get_filtered_data_conjunction :
  forall (t : table) (self : DatabaseManager) (start_date end_date : datetime)
         (vehicle_categories manufacturers : option (list string)),
    four_digit_day start_date -> four_digit_day end_date ->
    exists rows,
      get_filtered_data (sqlite (Some t)) self start_date end_date
                        vehicle_categories manufacturers = Ok rows /\
      (exists keep, Permutation rows (filter keep t)) /\
      (forall r, In r rows ->
         In r t /\ allows vehicle_categories (vehicle_category r) /\
         allows manufacturers (manufacturer r)) /\
      forall r d time_of_day,
        In r t -> stored_on r d time_of_day ->
        (In r rows -> day_le start_date d /\ day_le d end_date) /\
        (day_le start_date d -> day_le d end_date ->
         allows vehicle_categories (vehicle_category r) ->
         allows manufacturers (manufacturer r) ->
         time_of_day = "" \/ ~ day_le end_date d ->
         In r rows).
Proof.
  intros t self start_date end_date vehicle_categories manufacturers Hs He.
  destruct (filtered_data_rows t self start_date end_date
              vehicle_categories manufacturers) as (rows & E & Hperm & Hin).
  exists rows. split; [exact E |].
  split; [eexists; exact Hperm |].
  split; [intros r Hr; apply Hin in Hr; tauto |].
  intros r d time_of_day Hr [Hd Hdate]. rewrite Hin. unfold in_range.
  rewrite Hdate, (start_bound _ _ _ Hs Hd), (end_bound _ _ _ He Hd).
  tauto.
Qed.

Lemma get_filtered_data_conjunction_witness :
  exists rows,
    get_filtered_data (sqlite (Some [honda_row])) vehicle_data_db
                      jan_2024 dec_2024 (Some ["2W"]) None = Ok rows /\
    In honda_row rows.
Proof.
  destruct (get_filtered_data_conjunction [honda_row] vehicle_data_db
              jan_2024 dec_2024 (Some ["2W"]) None)
    as (rows & E & _ & _ & H); try (unfold four_digit_day; cbn; lia).
  exists rows. split; [exact E |].
  apply (H honda_row {| dt_year := 2024; dt_month := 1; dt_day := 31 |} " 00:00:00").
  - now left.
  - split; [unfold four_digit_day; cbn; lia | reflexivity].
  - unfold day_le; cbn; lia.
  - unfold day_le; cbn; lia.
  - now left.
  - exact I.
  - right. unfold day_le; cbn; lia.
Defined.

(** C1 as stated fails when a filter is passed as an empty list: the row of
    category 2W, of 31 January 2024, is returned although no category is in
    the empty set. *)
Lemma get_filtered_data_empty_list_allows_all :
  get_filtered_data (sqlite (Some [honda_row])) vehicle_data_db jan_2024 dec_2024
                    (Some []) None = Ok [honda_row] /\
  ~ spec_filtered [honda_row] jan_2024 dec_2024 (Some []) None [honda_row].
Proof.
  split; [reflexivity |].
  intros H. destruct (proj1 (H honda_row)) as (_ & _ & Hc & _).
  - now left.
  - exact Hc.
Qed.

(** * Failure of the statement, and the files *)

Section OnFiles.
Variable time : Clock.
Variable self : DatabaseManager.

Lemma files_execute_query {A} (q : query A) (fs : files) :
  Files.execute_query self q fs
  = (execute_query (backend_of (fs (db_path self))) self q, opened self fs).
Proof.
  unfold Files.execute_query, Files.try_catch, Files.bind, Files.get_connection,
    Files.read_sql_query, Files.lift, Files.ret, opened, execute_query,
    get_connection.
  destruct (fs (db_path self)) as [| |[t|]]; reflexivity.
Qed.

Lemma perform_answer {A} (c : call A) (fs : files) :
  perform time self c fs
  = (answer (backend_of (fs (db_path self))) time self c, opened self fs).
Proof.
  destruct c; cbn [perform answer];
    unfold Files.get_date_range, Files.get_vehicle_categories,
      Files.get_manufacturers, Files.get_filtered_data,
      Files.get_category_summary, Files.get_manufacturer_summary,
      Files.get_monthly_trends, Files.get_growth_leaders,
      Files.get_market_share_data, Files.bind;
    rewrite files_execute_query;
    unfold get_date_range, get_vehicle_categories, get_manufacturers,
      get_filtered_data, get_category_summary, get_manufacturer_summary,
      get_monthly_trends, get_growth_leaders, get_market_share_data;
    try reflexivity.
  - destruct (execute_query _ self SelectDateRange) as [[|row df]|e];
      cbn [bind]; try reflexivity.
    unfold Files.lift, Files.ret.
    destruct (to_datetime time (min_date row)); cbn [bind]; [| reflexivity].
    destruct (to_datetime time (max_date row)); reflexivity.
  - destruct (execute_query _ self SelectCategories) as [df|e]; reflexivity.
  - match goal with |- context [execute_query ?b self ?q] =>
      destruct (execute_query b self q) as [df|e]; reflexivity end.
Qed.

Lemma opened_table (fs : files) (path : string) :
  stored_table (opened self fs path) = stored_table (fs path).
Proof.
  unfold opened. destruct (fs (db_path self)) as [| |db] eqn:E; try reflexivity.
  unfold write. destruct (String.eqb path (db_path self)) eqn:Ep; [| reflexivity].
  apply String.eqb_eq in Ep. subst path. now rewrite E.
Qed.

Lemma opened_backend (fs : files) :
  backend_of (opened self fs (db_path self)) = backend_of (fs (db_path self)).
Proof.
  unfold opened. destruct (fs (db_path self)) as [| |db] eqn:E; rewrite ?E;
    try reflexivity.
  unfold write. now rewrite String.eqb_refl.
Qed.
End OnFiles.

(** C10, as amended.  [execute_query] never raises, and returns the empty
    table when connecting or running the statement raises.  Hence, when their
    statement fails, the six table methods return the empty table,
    [get_vehicle_categories] and [get_manufacturers] return the empty list,
    and [get_date_range] returns the range from 365 days before now to now;
    the eight table and list methods raise on no backend at all.  On the
    files, a call of any of the nine methods, failed or not, is answered as
    the database file at [db_path] stands, leaves the table of every file as
    it was, and leaves the answer of every later call what it would have
    been without it. *)
Theorem failed_query_is_absorbed :
  forall (backend : Backend) (time : Clock) (self : DatabaseManager),
    (forall A (q : query A), exists df, execute_query backend self q = Ok df) /\
    (forall A (q : query A),
        statement_fails backend self q -> execute_query backend self q = Ok []) /\
    (forall s e c m,
        statement_fails backend self (filtered_data_query s e c m) ->
        get_filtered_data backend self s e c m = Ok []) /\
    (forall s e,
        statement_fails backend self (category_summary_query s e) ->
        get_category_summary backend self s e = Ok []) /\
    (forall s e c,
        statement_fails backend self (manufacturer_summary_query s e c) ->
        get_manufacturer_summary backend self s e c = Ok []) /\
    (forall s e c m,
        statement_fails backend self (monthly_trends_query s e c m) ->
        get_monthly_trends backend self s e c m = Ok []) /\
    (forall s e g,
        statement_fails backend self (growth_leaders_query s e g) ->
        get_growth_leaders backend self s e g = Ok []) /\
    (forall s e c,
        statement_fails backend self (market_share_query s e c) ->
        get_market_share_data backend self s e c = Ok []) /\
    (statement_fails backend self SelectCategories ->
     get_vehicle_categories backend self = Ok []) /\
    (forall c,
        statement_fails backend self (manufacturers_query c) ->
        get_manufacturers backend self c = Ok []) /\
    (statement_fails backend self SelectDateRange ->
     get_date_range backend time self
     = Ok (Some (minus_days (clock time 0) 365), Some (clock time 1))) /\
    (exists l, get_vehicle_categories backend self = Ok l) /\
    (forall c, exists l, get_manufacturers backend self c = Ok l) /\
    (forall A (c : call A) (fs : files),
        fst (perform time self c fs)
        = answer (backend_of (fs (db_path self))) time self c) /\
    (forall A (c : call A) (fs : files) (path : string),
        stored_table (snd (perform time self c fs) path) = stored_table (fs path)) /\
    (forall A B (c1 : call A) (c2 : call B) (fs : files),
        fst (perform time self c2 (snd (perform time self c1 fs)))
        = fst (perform time self c2 fs)).
Proof.
  intros backend time self.
  repeat match goal with |- _ /\ _ => split end;
    intros; try (now apply execute_query_failed).
  - apply execute_query_total.
  - unfold get_vehicle_categories. now rewrite execute_query_failed.
  - unfold get_manufacturers. now rewrite execute_query_failed.
  - now apply get_date_range_failed.
  - apply get_vehicle_categories_total.
  - apply get_manufacturers_total.
  - now rewrite perform_answer.
  - rewrite perform_answer. apply opened_table.
  - rewrite !perform_answer. cbn [fst snd]. now rewrite opened_backend.
Qed.

Lemma sqlite_without_table_fails (self : DatabaseManager) {A} (q : query A) :
  statement_fails (sqlite None) self q.
Proof. eexists. reflexivity. Qed.

Lemma failed_query_is_absorbed_witness :
  get_filtered_data (sqlite None) vehicle_data_db jan_2024 dec_2024 None None = Ok [] /\
  get_vehicle_categories (sqlite None) vehicle_data_db = Ok [] /\
  get_date_range (sqlite None) noon_clock vehicle_data_db
  = Ok (Some {| dt_year := 2024; dt_month := 6; dt_day := 15 |},
        Some {| dt_year := 2025; dt_month := 6; dt_day := 15 |}).
Proof.
  destruct (failed_query_is_absorbed (sqlite None) noon_clock vehicle_data_db)
    as (_ & _ & Hf & _ & _ & _ & _ & _ & Hc & _ & Hd & _).
  split; [| split].
  - apply Hf. apply sqlite_without_table_fails.
  - apply Hc. apply sqlite_without_table_fails.
  - apply Hd. apply sqlite_without_table_fails.
Defined.

(** C10 as stated fails for [get_date_range]: on a database without the
    table its statement raises, and the method returns the fallback pair of
    dates, which is no empty table. *)
Lemma get_date_range_fallback_not_empty :
  statement_fails (sqlite None) vehicle_data_db SelectDateRange /\
  get_date_range (sqlite None) noon_clock vehicle_data_db
  = Ok (Some {| dt_year := 2024; dt_month := 6; dt_day := 15 |},
        Some {| dt_year := 2025; dt_month := 6; dt_day := 15 |}) /\
  ~ spec_returns_empty (get_date_range (sqlite None) noon_clock vehicle_data_db).
Proof.
  split; [apply sqlite_without_table_fails |]. split; [reflexivity |].
  intros (v & E & Hlen). discriminate Hlen.
Qed.

(** * binary64: signs of rounded results *)

Import Scraper.

Local Open Scope Z_scope.

Lemma shr_1_m (r : shr_record) : 0 <= shr_m r -> shr_m (shr_1 r) = shr_m r / 2.
Proof.
  destruct r as [m rb sb]. simpl. intros Hm.
  destruct m as [|[p|p|]|p]; simpl; try reflexivity; try lia.
  - rewrite Pos2Z.inj_xI. apply Z.div_unique with (r := 1); lia.
  - rewrite Pos2Z.inj_xO. apply Z.div_unique with (r := 0); lia.
Qed.

Lemma pow2_xI (p : positive) : 2 ^ Zpos p~1 = 2 * 2 ^ Zpos p * 2 ^ Zpos p.
Proof.
  replace (Zpos p~1) with (1 + Zpos p + Zpos p) by lia.
  rewrite !Z.pow_add_r by lia. reflexivity.
Qed.

Lemma pow2_xO (p : positive) : 2 ^ Zpos p~0 = 2 ^ Zpos p * 2 ^ Zpos p.
Proof.
  replace (Zpos p~0) with (Zpos p + Zpos p) by lia.
  rewrite !Z.pow_add_r by lia. reflexivity.
Qed.

Lemma iter_shr_1_m (p : positive) (r : shr_record) :
  0 <= shr_m r -> shr_m (iter_pos shr_1 p r) = shr_m r / 2 ^ Zpos p.
Proof.
  revert r. induction p as [p IH|p IH|]; intros r Hm.
  - cbn [iter_pos].
    assert (H1 : 0 <= shr_m (shr_1 r)) by (rewrite shr_1_m by lia; apply Z.div_pos; lia).
    assert (H2 : 0 <= shr_m (iter_pos shr_1 p (shr_1 r)))
      by (rewrite IH by lia; apply Z.div_pos; lia).
    rewrite IH, IH, shr_1_m by lia.
    rewrite !Z.div_div by lia. f_equal. rewrite pow2_xI. ring.
  - cbn [iter_pos].
    assert (H2 : 0 <= shr_m (iter_pos shr_1 p r))
      by (rewrite IH by lia; apply Z.div_pos; lia).
    rewrite IH, IH by lia.
    rewrite !Z.div_div by lia. f_equal. rewrite pow2_xO. ring.
  - cbn [iter_pos]. rewrite shr_1_m by lia. reflexivity.
Qed.

Lemma digits2_pos_bound (p : positive) : 2 ^ (Zpos (digits2_pos p) - 1) <= Zpos p.
Proof.
  induction p as [p IH|p IH|]; cbn [digits2_pos].
  - rewrite Pos2Z.inj_succ. replace (Z.succ (Zpos (digits2_pos p)) - 1) with (Z.succ (Zpos (digits2_pos p) - 1)) by lia.
    rewrite Z.pow_succ_r by lia. lia.
  - rewrite Pos2Z.inj_succ. replace (Z.succ (Zpos (digits2_pos p)) - 1) with (Z.succ (Zpos (digits2_pos p) - 1)) by lia.
    rewrite Z.pow_succ_r by lia. lia.
  - simpl. lia.
Qed.

Lemma shr_fexp_pos (m e : Z) (l : location) :
  0 < m -> emin <= e ->
  0 < shr_m (fst (shr_fexp prec emax m e l)) /\ emin <= snd (shr_fexp prec emax m e l).
Proof.
  intros Hm He. unfold shr_fexp, shr.
  destruct m as [|p|p]; try lia. cbn [Zdigits2].
  assert (Hrec : shr_m (shr_record_of_loc (Zpos p) l) = Zpos p)
    by (destruct l as [|[| |]]; reflexivity).
  destruct (fexp prec emax (Zpos (digits2_pos p) + e) - e) as [|n|n] eqn:En;
    cbn [fst snd]; try (rewrite Hrec; split; lia).
  rewrite iter_shr_1_m by (rewrite Hrec; lia). rewrite Hrec.
  unfold fexp in En. fold emin in En.
  assert (Hn : Zpos n = Zpos (digits2_pos p) - prec) by (unfold prec in *; lia).
  split; [| lia].
  apply Z.div_str_pos. split; [apply Z.pow_pos_nonneg; lia |].
  eapply Z.le_trans; [| apply digits2_pos_bound].
  apply Z.pow_le_mono_r; unfold prec in *; lia.
Qed.

Lemma binary_round_aux_sign (s : bool) (m e : Z) (l : location) :
  0 < m -> emin <= e ->
  (exists m' e', binary_round_aux prec emax s m e l = S754_finite s m' e') \/
  binary_round_aux prec emax s m e l = S754_infinity s.
Proof.
  intros Hm He. unfold binary_round_aux.
  destruct (shr_fexp_pos m e l Hm He) as [H1 H2].
  destruct (shr_fexp prec emax m e l) as [mrs' e'] eqn:E1. cbn [fst snd] in H1, H2.
  set (m2 := round_nearest_even (shr_m mrs') (loc_of_shr_record mrs')).
  assert (Hm2 : 0 < m2).
  { unfold m2, round_nearest_even.
    destruct (loc_of_shr_record mrs') as [|[| |]]; try lia.
    destruct (Z.even (shr_m mrs')); lia. }
  destruct (shr_fexp_pos m2 e' loc_Exact Hm2 H2) as [H3 H4].
  destruct (shr_fexp prec emax m2 e' loc_Exact) as [mrs'' e''] eqn:E2.
  cbn [fst snd] in H3, H4.
  destruct (shr_m mrs'') as [|q|q]; try lia.
  destruct (e'' <=? emax - prec)%Z; eauto.
Qed.

Lemma float_of_int_sign (n : Z) :
  n <> 0 ->
  (exists m e, float_of_int n = S754_finite (n <? 0) m e) \/
  float_of_int n = S754_infinity (n <? 0).
Proof.
  intros Hn. unfold float_of_int, binary_normalize, binary_round.
  destruct n as [|p|p]; [lia | |];
    (destruct (shl_align p 0 (fexp prec emax (Zpos (digits2_pos p) + 0))) as [mz ez] eqn:E;
     apply binary_round_aux_sign; [lia |];
     unfold shl_align in E;
     destruct (fexp prec emax (Zpos (digits2_pos p) + 0) - 0) eqn:E';
     injection E as <- <-; unfold emin, SpecFloat.emin, prec, emax; try lia;
     unfold fexp, SpecFloat.emin; lia).
Qed.

(** * binary64: magnitudes of rounded results *)

Lemma digits2_pos_upper (p : positive) : Zpos p < 2 ^ Zpos (digits2_pos p).
Proof.
  induction p as [p IH|p IH|]; cbn [digits2_pos].
  - rewrite Pos2Z.inj_succ, Z.pow_succ_r by lia. lia.
  - rewrite Pos2Z.inj_succ, Z.pow_succ_r by lia. lia.
  - reflexivity.
Qed.

Lemma Zdigits2_nonneg (m : Z) : 0 <= Zdigits2 m.
Proof. destruct m; simpl; lia. Qed.

Lemma Zdigits2_upper (m : Z) : 0 <= m -> m < 2 ^ Zdigits2 m.
Proof.
  destruct m as [|p|p]; simpl; intros H; try lia. apply digits2_pos_upper.
Qed.

Lemma Zdigits2_le (m j : Z) : 0 <= m -> 0 <= j -> m < 2 ^ j -> Zdigits2 m <= j.
Proof.
  intros Hm Hj Hlt. destruct m as [|p|p]; simpl; try lia.
  pose proof (digits2_pos_bound p) as Hlow.
  destruct (Z_le_gt_dec (Zpos (digits2_pos p)) j) as [H|H]; [exact H |].
  assert (2 ^ j <= 2 ^ (Zpos (digits2_pos p) - 1)) by (apply Z.pow_le_mono_r; lia).
  lia.
Qed.

Lemma Zdigits2_ge (m j : Z) : 0 <= j -> 2 ^ j <= m -> j + 1 <= Zdigits2 m.
Proof.
  intros Hj Hle.
  assert (Hm : 0 < m) by (pose proof (Z.pow_pos_nonneg 2 j); lia).
  pose proof (Zdigits2_upper m ltac:(lia)) as Hup.
  pose proof (Zdigits2_nonneg m).
  destruct (Z_le_gt_dec (j + 1) (Zdigits2 m)) as [H'|H']; [exact H' |].
  assert (2 ^ Zdigits2 m <= 2 ^ j) by (apply Z.pow_le_mono_r; lia).
  lia.
Qed.

Lemma shr_record_of_loc_m (m : Z) (l : location) : shr_m (shr_record_of_loc m l) = m.
Proof. destruct l as [|[| |]]; reflexivity. Qed.

Lemma shr_fexp_upper (m e k : Z) (l : location) :
  0 <= m -> Zdigits2 m + e <= k -> e <= k -> emin <= k ->
  0 <= shr_m (fst (shr_fexp prec emax m e l)) /\
  Zdigits2 (shr_m (fst (shr_fexp prec emax m e l))) + snd (shr_fexp prec emax m e l) <= k /\
  snd (shr_fexp prec emax m e l) <= k.
Proof.
  intros Hm Hd He Hk. unfold shr_fexp, shr.
  destruct (fexp prec emax (Zdigits2 m + e) - e) as [|n|n] eqn:En;
    cbn [fst snd]; rewrite ?shr_record_of_loc_m; try (repeat split; lia).
  rewrite iter_shr_1_m by (rewrite shr_record_of_loc_m; lia).
  rewrite shr_record_of_loc_m.
  assert (Hfe : e + Zpos n = fexp prec emax (Zdigits2 m + e)) by lia.
  assert (Hfk : e + Zpos n <= k).
  { rewrite Hfe. unfold fexp. fold emin. unfold prec. lia. }
  assert (Hq : 0 <= m / 2 ^ Zpos n) by (apply Z.div_pos; lia).
  repeat split; try lia.
  destruct (Z_le_gt_dec (Zpos n) (Zdigits2 m)) as [Hn|Hn].
  - assert (Zdigits2 (m / 2 ^ Zpos n) <= Zdigits2 m - Zpos n); [| lia].
    apply Zdigits2_le; try lia.
    apply Z.div_lt_upper_bound; [lia |].
    rewrite <- Z.pow_add_r by lia.
    replace (Zpos n + (Zdigits2 m - Zpos n)) with (Zdigits2 m) by lia.
    now apply Zdigits2_upper.
  - assert (m / 2 ^ Zpos n = 0); [| rewrite H; simpl; lia].
    apply Z.div_small. split; [lia |].
    eapply Z.lt_le_trans; [apply Zdigits2_upper; lia |].
    apply Z.pow_le_mono_r; lia.
Qed.

Lemma round_nearest_even_bounds (m : Z) (l : location) :
  0 <= m ->
  m <= round_nearest_even m l <= m + 1.
Proof.
  intros Hm. unfold round_nearest_even.
  destruct l as [|[| |]]; try lia. destruct (Z.even m); lia.
Qed.

Lemma Zdigits2_succ (m m' : Z) : 0 <= m -> m <= m' <= m + 1 -> Zdigits2 m' <= Zdigits2 m + 1.
Proof.
  intros Hm Hm'. pose proof (Zdigits2_nonneg m).
  apply Zdigits2_le; try lia.
  pose proof (Zdigits2_upper m Hm).
  rewrite Z.pow_add_r, Z.pow_1_r by lia. lia.
Qed.

Lemma binary_round_aux_below (s : bool) (m e k : Z) (l : location) :
  0 <= m -> Zdigits2 m + e <= k -> e <= k -> emin <= k -> k + 1 <= emax - prec ->
  magnitude_below (k + 1) (binary_round_aux prec emax s m e l).
Proof.
  intros Hm Hd He Hk Hmax. unfold binary_round_aux.
  destruct (shr_fexp_upper m e k l Hm Hd He Hk) as (H1 & H2 & H3).
  destruct (shr_fexp prec emax m e l) as [mrs' e'] eqn:E1. cbn [fst snd] in *.
  set (m2 := round_nearest_even (shr_m mrs') (loc_of_shr_record mrs')).
  pose proof (round_nearest_even_bounds (shr_m mrs') (loc_of_shr_record mrs') H1) as Hr.
  fold m2 in Hr.
  pose proof (Zdigits2_succ (shr_m mrs') m2 H1 Hr) as Hd2.
  destruct (shr_fexp_upper m2 e' (k + 1) loc_Exact) as (H4 & H5 & H6); try lia.
  destruct (shr_fexp prec emax m2 e' loc_Exact) as [mrs'' e''] eqn:E2.
  cbn [fst snd] in *.
  destruct (shr_m mrs'') as [|q|q] eqn:Eq; try lia; [exact I |].
  destruct (Z.leb_spec e'' (emax - prec)); [| lia].
  cbn [Zdigits2] in H5. exact H5.
Qed.

Lemma iter_xO_value (p d : positive) : Zpos (Pos.iter xO p d) = Zpos p * 2 ^ Zpos d.
Proof.
  induction d as [|d IH] using Pos.peano_ind.
  - simpl. lia.
  - rewrite Pos.iter_succ, Pos2Z.inj_xO, IH, Pos2Z.inj_succ, Z.pow_succ_r by lia. ring.
Qed.

Lemma iter_xO_digits (p d : positive) :
  Zpos (digits2_pos (Pos.iter xO p d)) = Zpos (digits2_pos p) + Zpos d.
Proof.
  induction d as [|d IH] using Pos.peano_ind.
  - simpl. lia.
  - rewrite Pos.iter_succ. cbn [digits2_pos]. rewrite Pos2Z.inj_succ, IH. lia.
Qed.

(** [shl_align] keeps the value: the sum of digits and exponent. *)
Lemma shl_align_spec (mx : positive) (ex ex' : Z) :
  let '(mz, ez) := shl_align mx ex ex' in
  Zpos (digits2_pos mz) + ez = Zpos (digits2_pos mx) + ex /\
  ez <= ex /\ (ex' <= ex -> ez = ex') /\ (ex <= ex' -> ez = ex) /\
  Zpos mz = Zpos mx * 2 ^ (ex - ez).
Proof.
  unfold shl_align. destruct (ex' - ex) as [|d|d] eqn:E.
  - repeat split; try lia. now rewrite Z.sub_diag, Z.pow_0_r, Z.mul_1_r.
  - repeat split; try lia. now rewrite Z.sub_diag, Z.pow_0_r, Z.mul_1_r.
  - rewrite iter_xO_digits, iter_xO_value.
    repeat split; try lia. f_equal. f_equal. lia.
Qed.

Lemma binary_round_below (s : bool) (p : positive) (e k : Z) :
  Zpos (digits2_pos p) + e <= k -> emin <= k -> k + 1 <= emax - prec ->
  magnitude_below (k + 1) (binary_round prec emax s p e).
Proof.
  intros Hd Hk Hmax. unfold binary_round.
  pose proof (shl_align_spec p e (fexp prec emax (Zpos (digits2_pos p) + e))) as H.
  destruct (shl_align p e (fexp prec emax (Zpos (digits2_pos p) + e))) as [mz ez].
  destruct H as (H1 & H2 & _ & _ & _).
  apply binary_round_aux_below; try lia.
  cbn [Zdigits2]. lia.
Qed.

Lemma shr_fexp_lower (m e : Z) (l : location) :
  0 < m -> emin <= e ->
  0 < shr_m (fst (shr_fexp prec emax m e l)) /\
  emin <= snd (shr_fexp prec emax m e l) /\
  Zdigits2 m + e <= Zdigits2 (shr_m (fst (shr_fexp prec emax m e l)))
                    + snd (shr_fexp prec emax m e l).
Proof.
  intros Hm He. unfold shr_fexp, shr.
  destruct (fexp prec emax (Zdigits2 m + e) - e) as [|n|n] eqn:En;
    cbn [fst snd]; rewrite ?shr_record_of_loc_m; try (repeat split; lia).
  rewrite iter_shr_1_m by (rewrite shr_record_of_loc_m; lia).
  rewrite shr_record_of_loc_m.
  unfold fexp in En. fold emin in En.
  assert (Hn : Zpos n = Zdigits2 m - prec) by (unfold prec in *; lia).
  destruct m as [|p|p]; try lia. cbn [Zdigits2] in *.
  pose proof (digits2_pos_bound p) as Hlow.
  assert (Hpow : 2 ^ (Zpos (digits2_pos p) - 1) = 2 ^ (prec - 1) * 2 ^ Zpos n).
  { rewrite <- Z.pow_add_r by (unfold prec; lia). f_equal. lia. }
  assert (Hq : 2 ^ (prec - 1) <= Zpos p / 2 ^ Zpos n).
  { apply Z.div_le_lower_bound; [lia |]. rewrite Z.mul_comm. lia. }
  assert (0 < 2 ^ (prec - 1)) by (unfold prec; lia).
  repeat split; try lia.
  pose proof (Zdigits2_ge (Zpos p / 2 ^ Zpos n) (prec - 1) ltac:(unfold prec; lia) Hq).
  lia.
Qed.

Lemma Zdigits2_mono (m m' : Z) : 0 <= m <= m' -> Zdigits2 m <= Zdigits2 m'.
Proof.
  intros [Hm Hle]. pose proof (Zdigits2_nonneg m').
  apply Zdigits2_le; try lia.
  eapply Z.le_lt_trans; [exact Hle | apply Zdigits2_upper; lia].
Qed.

Lemma binary_round_aux_above (s : bool) (m e : Z) (l : location) :
  0 < m -> emin <= e ->
  match binary_round_aux prec emax s m e l with
  | S754_finite s' m' e' => s' = s /\ Zdigits2 m + e <= Zpos (digits2_pos m') + e'
  | S754_infinity s' => s' = s
  | _ => False
  end.
Proof.
  intros Hm He. unfold binary_round_aux.
  destruct (shr_fexp_lower m e l Hm He) as (H1 & H2 & H3).
  destruct (shr_fexp prec emax m e l) as [mrs' e'] eqn:E1. cbn [fst snd] in *.
  set (m2 := round_nearest_even (shr_m mrs') (loc_of_shr_record mrs')).
  pose proof (round_nearest_even_bounds (shr_m mrs') (loc_of_shr_record mrs') ltac:(lia)) as Hr.
  fold m2 in Hr.
  pose proof (Zdigits2_mono (shr_m mrs') m2 ltac:(lia)) as Hd2.
  destruct (shr_fexp_lower m2 e' loc_Exact ltac:(lia) H2) as (H4 & H5 & H6).
  destruct (shr_fexp prec emax m2 e' loc_Exact) as [mrs'' e''] eqn:E2.
  cbn [fst snd] in *.
  destruct (shr_m mrs'') as [|q|q] eqn:Eq; try lia.
  destruct (e'' <=? emax - prec); [| reflexivity].
  split; [reflexivity |]. cbn [Zdigits2] in H6. lia.
Qed.

Lemma binary_round_above (s : bool) (p : positive) (e : Z) :
  emin <= e ->
  match binary_round prec emax s p e with
  | S754_finite s' m' e' => s' = s /\ Zpos (digits2_pos p) + e <= Zpos (digits2_pos m') + e'
  | S754_infinity s' => s' = s
  | _ => False
  end.
Proof.
  intros He. unfold binary_round.
  pose proof (shl_align_spec p e (fexp prec emax (Zpos (digits2_pos p) + e))) as H.
  destruct (shl_align p e (fexp prec emax (Zpos (digits2_pos p) + e))) as [mz ez].
  destruct H as (H1 & H2 & H3 & H3' & _).
  pose proof (binary_round_aux_above s (Zpos mz) ez loc_Exact ltac:(lia)) as Ha.
  assert (Hez : emin <= ez).
  { destruct (Z_le_gt_dec (fexp prec emax (Zpos (digits2_pos p) + e)) e) as [Hle|Hgt].
    - rewrite (H3 Hle). unfold fexp. fold emin. lia.
    - rewrite H3' by lia. exact He. }
  specialize (Ha Hez). cbn [Zdigits2] in Ha. rewrite H1 in Ha. exact Ha.
Qed.

Lemma magnitude_below_weaken (k k' : Z) (x : float) :
  k <= k' -> magnitude_below k x -> magnitude_below k' x.
Proof. destruct x; simpl; auto. lia. Qed.

Lemma magnitude_below_finite (k : Z) (x : float) :
  magnitude_below k x -> is_finite x = true.
Proof. destruct x; simpl; auto; contradiction. Qed.

Lemma float_of_int_below (a j : Z) :
  Z.abs a < 2 ^ j -> 0 <= j -> j + 1 <= emax - prec ->
  magnitude_below (j + 1) (float_of_int a).
Proof.
  intros Ha Hj Hmax. unfold float_of_int, binary_normalize.
  destruct a as [|p|p]; [exact I | |];
    (apply binary_round_below; [| unfold emin, SpecFloat.emin, emax, prec; lia | exact Hmax];
     rewrite Z.add_0_r; apply (Zdigits2_le (Zpos p)); lia).
Qed.

Lemma float_of_int_nonzero (a j : Z) :
  a <> 0 -> Z.abs a < 2 ^ j -> 0 <= j -> j + 1 <= emax - prec ->
  exists s m e,
    float_of_int a = S754_finite s m e /\
    1 <= Zpos (digits2_pos m) + e <= j + 1.
Proof.
  intros Hne Ha Hj Hmax.
  pose proof (float_of_int_below a j Ha Hj Hmax) as Hb.
  unfold float_of_int, binary_normalize in *.
  destruct a as [|p|p]; [lia | |].
  - pose proof (binary_round_above false p 0 ltac:(unfold emin, SpecFloat.emin, emax, prec; lia)) as Hab.
    destruct (binary_round prec emax false p 0) as [| | |s m e]; try contradiction.
    exists s, m, e. split; [reflexivity |]. cbn [magnitude_below] in Hb.
    destruct Hab as [_ Hab]. pose proof (Pos2Z.is_pos (digits2_pos p)). lia.
  - pose proof (binary_round_above true p 0 ltac:(unfold emin, SpecFloat.emin, emax, prec; lia)) as Hab.
    destruct (binary_round prec emax true p 0) as [| | |s m e]; try contradiction.
    exists s, m, e. split; [reflexivity |]. cbn [magnitude_below] in Hb.
    destruct Hab as [_ Hab]. pose proof (Pos2Z.is_pos (digits2_pos p)). lia.
Qed.

Lemma shl_align_fst_value (mx : positive) (ex ez : Z) :
  ez <= ex -> Zpos (fst (shl_align mx ex ez)) = Zpos mx * 2 ^ (ex - ez).
Proof.
  intros Hle. pose proof (shl_align_spec mx ex ez) as H.
  destruct (shl_align mx ex ez) as [mz ez']. destruct H as (_ & _ & H3 & _ & H5).
  cbn [fst]. rewrite H5, (H3 Hle). reflexivity.
Qed.

Lemma aligned_below (mx : positive) (ex ez k : Z) :
  ez <= ex -> Zpos (digits2_pos mx) + ex <= k ->
  Zpos (fst (shl_align mx ex ez)) < 2 ^ (k - ez).
Proof.
  intros Hle Hk. rewrite shl_align_fst_value by exact Hle.
  pose proof (digits2_pos_upper mx) as Hup.
  pose proof (Pos2Z.is_pos (digits2_pos mx)).
  eapply Z.lt_le_trans.
  - apply Z.mul_lt_mono_pos_r; [apply Z.pow_pos_nonneg; lia | exact Hup].
  - rewrite <- Z.pow_add_r by lia. apply Z.pow_le_mono_r; lia.
Qed.

Lemma binary_normalize_below (d ez k : Z) (sz : bool) :
  Z.abs d < 2 ^ (k - ez) -> ez <= k -> emin <= k -> k + 1 <= emax - prec ->
  magnitude_below (k + 1) (binary_normalize prec emax d ez sz).
Proof.
  intros Hd Hez Hk Hmax. unfold binary_normalize.
  destruct d as [|p|p]; [exact I | |];
    (apply binary_round_below; [| exact Hk | exact Hmax];
     assert (Zdigits2 (Zpos p) <= k - ez) by (apply Zdigits2_le; lia);
     cbn [Zdigits2] in *; lia).
Qed.

Lemma fsub_below (x y : float) (k : Z) :
  magnitude_below k x -> magnitude_below k y ->
  emin <= k -> k + 2 <= emax - prec ->
  magnitude_below (k + 2) (fsub x y).
Proof.
  intros Hx Hy Hk Hmax.
  destruct x as [sx| | |sx mx ex], y as [sy| | |sy my ey]; try contradiction.
  - destruct sx, sy; exact I.
  - cbn [magnitude_below fsub SFsub] in *. lia.
  - cbn [magnitude_below fsub SFsub] in *. lia.
  - cbn [magnitude_below] in Hx, Hy. unfold fsub, SFsub.
    set (ez := Z.min ex ey).
    pose proof (aligned_below mx ex ez k ltac:(unfold ez; lia) Hx) as HX.
    pose proof (aligned_below my ey ez k ltac:(unfold ez; lia) Hy) as HY.
    pose proof (Pos2Z.is_pos (digits2_pos mx)).
    apply (magnitude_below_weaken (k + 1 + 1)); [lia |].
    apply binary_normalize_below; try lia.
    replace (k + 1 - ez) with (Z.succ (k - ez)) by lia.
    rewrite Z.pow_succ_r by (unfold ez; lia).
    unfold cond_Zopp. destruct sx, sy; lia.
Qed.

Lemma fmul_below (x y : float) (kx ky : Z) :
  magnitude_below kx x -> magnitude_below ky y ->
  emin <= kx + ky -> kx + ky + 1 <= emax - prec ->
  magnitude_below (kx + ky + 1) (fmul x y).
Proof.
  intros Hx Hy Hk Hmax.
  destruct x as [sx| | |sx mx ex], y as [sy| | |sy my ey]; try contradiction;
    try exact I.
  cbn [magnitude_below] in Hx, Hy. unfold fmul, SFmul.
  pose proof (Pos2Z.is_pos (digits2_pos mx)).
  pose proof (Pos2Z.is_pos (digits2_pos my)).
  apply binary_round_aux_below; try lia.
  assert (Zdigits2 (Zpos (mx * my))
          <= Zpos (digits2_pos mx) + Zpos (digits2_pos my)); [| lia].
  apply Zdigits2_le; try lia.
  rewrite Pos2Z.inj_mul, Z.pow_add_r by lia.
  pose proof (digits2_pos_upper mx). pose proof (digits2_pos_upper my).
  apply Z.mul_lt_mono_nonneg; lia.
Qed.

Lemma shifted_mantissa (m s : Z) :
  0 <= s ->
  match s with
  | 0 => m
  | Zpos _ => Z.shiftl m s
  | Zneg _ => 0
  end = m * 2 ^ s.
Proof.
  intros Hs. destruct s as [|p|p]; try lia.
  apply Z.shiftl_mul_pow2. lia.
Qed.

Lemma fdiv_below (x : float) (sy : bool) (my : positive) (ey kx ly k : Z) :
  magnitude_below kx x ->
  ly <= Zpos (digits2_pos my) + ey ->
  kx - ly + 1 <= k -> emin <= k -> k + 1 <= emax - prec ->
  magnitude_below (k + 1) (fdiv x (S754_finite sy my ey)).
Proof.
  intros Hx Hy Hk Hmin Hmax.
  destruct x as [sx| | |sx mx ex]; try contradiction; [exact I |].
  cbn [magnitude_below] in Hx. unfold fdiv, SFdiv, SFdiv_core_binary.
  cbn [Zdigits2].
  set (d1 := Zpos (digits2_pos mx)) in *. set (d2 := Zpos (digits2_pos my)) in *.
  set (e' := Z.min (fexp prec emax (d1 + ex - (d2 + ey))) (ex - ey)).
  assert (He' : e' <= ex - ey) by (unfold e'; lia).
  assert (He'k : e' <= k).
  { unfold e', fexp. fold emin. unfold prec. lia. }
  set (s := ex - ey - e').
  assert (Hs : 0 <= s) by (unfold s; lia).
  set (m' := match s with
             | 0 => Zpos mx
             | Zpos _ => Z.shiftl (Zpos mx) s
             | Zneg _ => 0
             end).
  assert (Hm' : m' = Zpos mx * 2 ^ s).
  { apply shifted_mantissa. exact Hs. }
  clearbody m'.
  destruct (Z.div_eucl m' (Zpos my)) as [q r] eqn:Ediv.
  assert (Hq : q = m' / Zpos my) by (unfold Z.div; now rewrite Ediv).
  pose proof (digits2_pos_upper mx) as Hupx. fold d1 in Hupx.
  pose proof (digits2_pos_bound my) as Hlowy. fold d2 in Hlowy.
  assert (Hd1 : 0 < d1) by (unfold d1; lia).
  assert (Hd2 : 0 < d2) by (unfold d2; lia).
  assert (Hm'up : m' < 2 ^ (d1 + s)).
  { rewrite Hm', Z.pow_add_r by lia.
    apply Z.mul_lt_mono_pos_r; [apply Z.pow_pos_nonneg; lia | exact Hupx]. }
  assert (Hm'0 : 0 <= m') by (rewrite Hm'; apply Z.mul_nonneg_nonneg; lia).
  assert (Hq0 : 0 <= q) by (rewrite Hq; apply Z.div_pos; lia).
  apply binary_round_aux_below; try lia.
  destruct (Z_le_gt_dec (d2 - 1) (d1 + s)) as [Hcase|Hcase].
  - assert (Zdigits2 q <= d1 + s - d2 + 1); [| unfold s in *; lia].
    apply Zdigits2_le; try lia.
    rewrite Hq. apply Z.div_lt_upper_bound; [lia |].
    eapply Z.lt_le_trans; [exact Hm'up |].
    assert (Hsplit : 2 ^ (d1 + s) = 2 ^ (d2 - 1) * 2 ^ (d1 + s - d2 + 1)).
    { rewrite <- Z.pow_add_r by lia. f_equal. lia. }
    rewrite Hsplit.
    apply Z.mul_le_mono_nonneg_r; [apply Z.pow_nonneg; lia | exact Hlowy].
  - assert (Hz : q = 0); [| rewrite Hz; cbn [Zdigits2]; lia].
    rewrite Hq. apply Z.div_small. split; [lia |].
    eapply Z.lt_le_trans; [exact Hm'up |].
    eapply Z.le_trans; [| exact Hlowy].
    apply Z.pow_le_mono_r; lia.
Qed.

Lemma shift_round_even_bounds (m k : Z) :
  0 <= m -> 0 < k ->
  m / 2 ^ k <= shift_round_even m k <= m / 2 ^ k + 1.
Proof.
  intros Hm Hk. unfold shift_round_even.
  destruct (2 * (m mod 2 ^ k) ?= 2 ^ k); try lia.
  destruct (Z.even (m / 2 ^ k)); lia.
Qed.

Lemma rint_below (x : float) (k : Z) :
  magnitude_below k x -> 0 <= k -> k + 2 <= emax - prec ->
  magnitude_below (k + 2) (rint x).
Proof.
  intros Hx Hk Hmax.
  destruct x as [sx| | |sx mx ex]; try contradiction; [exact I |].
  cbn [magnitude_below] in Hx. unfold rint.
  destruct (Z.leb_spec 0 ex) as [He|He].
  - cbn [magnitude_below]. lia.
  - pose proof (shift_round_even_bounds (Zpos mx) (- ex) ltac:(lia) ltac:(lia)) as Hn.
    set (n := shift_round_even (Zpos mx) (- ex)) in *.
    pose proof (digits2_pos_upper mx) as Hup.
    assert (Hq0 : 0 <= Zpos mx / 2 ^ (- ex)) by (apply Z.div_pos; lia).
    assert (Hq : Zpos mx / 2 ^ (- ex) < 2 ^ k).
    { apply Z.div_lt_upper_bound; [lia |].
      rewrite <- Z.pow_add_r by lia.
      eapply Z.lt_le_trans; [exact Hup |]. apply Z.pow_le_mono_r; lia. }
    assert (Hnk : n < 2 ^ (k + 1)).
    { rewrite Z.pow_add_r, Z.pow_1_r by lia. lia. }
    destruct n as [|p|p] eqn:En; [exact I | | lia].
    apply (magnitude_below_weaken (k + 1 + 1)); [lia |].
    destruct sx;
      (apply binary_normalize_below;
       [ rewrite Z.sub_0_r; simpl Z.abs; lia
       | lia | unfold emin, SpecFloat.emin, emax, prec; lia | lia ]).
Qed.

Lemma float_100 : float_of_int 100 = S754_finite false 7036874417766400 (-46).
Proof. reflexivity. Qed.

(** With int64 counts and a lagged count that is not 0, the growth is a
    finite number. *)
Lemma growth_finite (a b : Z) :
  b <> 0 -> Z.abs a < 2 ^ 63 -> Z.abs b < 2 ^ 63 ->
  is_finite (growth a (float_of_int b)) = true.
Proof.
  intros Hb Ha Hbb.
  destruct (float_of_int_nonzero b 63 Hb Hbb) as (sy & my & ey & Ey & Hy1 & Hy2);
    [lia | unfold emax, prec; lia |].
  pose proof (float_of_int_below a 63 Ha ltac:(lia) ltac:(unfold emax, prec; lia)) as Hx.
  unfold growth, round2. rewrite Ey, float_100.
  assert (Hy : magnitude_below 64 (S754_finite sy my ey))
    by (cbn [magnitude_below]; lia).
  assert (Hmin : forall k, 0 <= k -> emin <= k)
    by (intros; unfold emin, SpecFloat.emin, emax, prec; lia).
  assert (Hmax : forall k, k <= 100 -> k <= emax - prec)
    by (intros; unfold emax, prec; lia).
  pose proof (fsub_below _ _ 64 Hx Hy (Hmin 64 ltac:(lia)) (Hmax (64 + 2) ltac:(lia)))
    as H1.
  pose proof (fdiv_below _ sy my ey (64 + 2) 1 66 H1 ltac:(lia) ltac:(lia)
                (Hmin 66 ltac:(lia)) (Hmax (66 + 1) ltac:(lia))) as H2.
  assert (Hc : magnitude_below 7 (S754_finite false 7036874417766400 (-46)))
    by (vm_compute; discriminate).
  pose proof (fmul_below _ _ (66 + 1) 7 H2 Hc (Hmin (66 + 1 + 7) ltac:(lia))
                (Hmax (66 + 1 + 7 + 1) ltac:(lia))) as H3.
  pose proof (fmul_below _ _ (66 + 1 + 7 + 1) 7 H3 Hc
                (Hmin (66 + 1 + 7 + 1 + 7) ltac:(lia))
                (Hmax (66 + 1 + 7 + 1 + 7 + 1) ltac:(lia))) as H4.
  pose proof (rint_below _ (66 + 1 + 7 + 1 + 7 + 1) H4 ltac:(lia)
                (Hmax (66 + 1 + 7 + 1 + 7 + 1 + 2) ltac:(lia))) as H5.
  pose proof (fdiv_below _ false 7036874417766400 (-46)
                (66 + 1 + 7 + 1 + 7 + 1 + 2) 7 79 H5
                ltac:(vm_compute; discriminate) ltac:(lia)
                (Hmin 79 ltac:(lia)) (Hmax (79 + 1) ltac:(lia))) as H6.
  exact (magnitude_below_finite _ _ H6).
Qed.

(** * Growth metrics *)

Lemma assign_columns_enrich (earlier rows : list row) :
  assign_columns rows (shift_from 12 earlier rows) (shift_from 3 earlier rows)
  = enrich earlier rows.
Proof.
  revert earlier. induction rows as [|r rows IH]; intros earlier; simpl.
  - reflexivity.
  - now rewrite IH.
Qed.

Lemma calculate_growth_metrics_enrich (df : list row) :
  calculate_growth_metrics df = enrich [] (sort_by sort_values_leb df).
Proof. apply assign_columns_enrich. Qed.

Lemma map_base_enrich (earlier rows : list row) :
  map base (enrich earlier rows) = rows.
Proof.
  revert earlier. induction rows as [|r rows IH]; intros earlier; simpl.
  - reflexivity.
  - now rewrite IH.
Qed.

Lemma filter_implied {A} (f g : A -> bool) (l : list A) :
  (forall x, f x = true -> g x = true) ->
  filter f (filter g l) = filter f l.
Proof.
  intros H. induction l as [|x l IH]; simpl; [reflexivity |].
  destruct (g x) eqn:Eg; simpl.
  - now rewrite IH.
  - destruct (f x) eqn:Ef; [| exact IH].
    apply H in Ef. congruence.
Qed.

Lemma same_group_in_partition (c m : string) (r x : row) :
  in_partition c m r = true -> same_group r x = true -> in_partition c m x = true.
Proof.
  unfold in_partition, same_group.
  rewrite !andb_true_iff, !String.eqb_eq. intros [<- <-] [-> ->]. tauto.
Qed.

Lemma in_partition_same_group (c m : string) (r x : row) :
  in_partition c m r = true -> in_partition c m x = true -> same_group r x = true.
Proof.
  unfold in_partition, same_group.
  rewrite !andb_true_iff, !String.eqb_eq. intros [-> ->] [-> ->]. tauto.
Qed.

(** The lagged value of a row only depends on the earlier rows of its own
    partition. *)
Lemma shift_value_partition (c m : string) (k : nat) (earlier : list row) (r : row) :
  in_partition c m r = true ->
  shift_value k (filter (in_partition c m) earlier) r = shift_value k earlier r.
Proof.
  intros Hr. unfold shift_value.
  cbn [filter].
  rewrite (filter_implied (same_group r) (in_partition c m) earlier);
    [reflexivity |].
  intros x. now apply same_group_in_partition.
Qed.

(** Taking the partition commutes with the computation. *)
Lemma partition_enrich (c m : string) (earlier rows : list row) :
  partition c m (enrich earlier rows)
  = enrich (filter (in_partition c m) earlier) (filter (in_partition c m) rows).
Proof.
  unfold partition. revert earlier.
  induction rows as [|r rows IH]; intros earlier; [reflexivity |].
  cbn [enrich filter base with_growth].
  destruct (in_partition c m r) eqn:Hr.
  - cbn [enrich]. rewrite IH. cbn [filter]. rewrite Hr.
    now rewrite !(shift_value_partition c m) by exact Hr.
  - rewrite IH. cbn [filter]. now rewrite Hr.
Qed.

(** Inside one partition the lagged value is the one [k] places before. *)
Lemma shift_value_one_group (c m : string) (k : nat) (earlier : list row) (r : row) :
  in_partition c m r = true ->
  Forall (fun x => in_partition c m x = true) earlier ->
  shift_value k earlier r =
    match nth_error (r :: earlier) k with
    | Some p => float_of_int (registrations p)
    | None => NaN
    end.
Proof.
  intros Hr Hall. unfold shift_value.
  replace (filter (same_group r) (r :: earlier)) with (r :: earlier); [reflexivity |].
  symmetry. apply forallb_filter_id. cbn [forallb].
  rewrite (in_partition_same_group c m r r Hr Hr). simpl.
  apply forallb_forall. rewrite Forall_forall in Hall.
  intros x Hx. apply (in_partition_same_group c m); auto.
Qed.

Lemma enrich_nth (c m : string) (rows earlier : list row) (i : nat) (g : growth_row) :
  Forall (fun x => in_partition c m x = true) earlier ->
  Forall (fun x => in_partition c m x = true) rows ->
  nth_error (enrich earlier rows) i = Some g ->
  exists r,
    nth_error rows i = Some r /\
    g = with_growth r
          (match nth_error (r :: rev (firstn i rows) ++ earlier) 12 with
           | Some p => float_of_int (registrations p)
           | None => NaN
           end)
          (match nth_error (r :: rev (firstn i rows) ++ earlier) 3 with
           | Some p => float_of_int (registrations p)
           | None => NaN
           end).
Proof.
  revert earlier i. induction rows as [|r rows IH]; intros earlier i He Hr Hn.
  - destruct i; discriminate.
  - inversion Hr as [|? ? Hr1 Hr2]; subst.
    destruct i as [|i]; cbn [enrich nth_error] in Hn.
    + injection Hn as <-. exists r. split; [reflexivity |].
      now rewrite !(shift_value_one_group c m) by assumption.
    + destruct (IH (r :: earlier) i (Forall_cons _ Hr1 He) Hr2 Hn) as (r' & E & ->).
      exists r'. split; [exact E |].
      cbn [firstn rev]. now rewrite <- !app_assoc.
Qed.

Lemma lag_position {A} (rows : list A) (i k : nat) (r : A) :
  nth_error rows i = Some r ->
  nth_error (r :: rev (firstn i rows) ++ []) k
  = if (k <=? i)%nat then nth_error rows (i - k) else None.
Proof.
  intros Hr.
  assert (Hi : (i < List.length rows)%nat).
  { apply nth_error_Some. congruence. }
  destruct k as [|k]; cbn [nth_error].
  - now rewrite Nat.sub_0_r.
  - rewrite app_nil_r, nth_error_rev, length_firstn, Nat.min_l by lia.
    destruct (Nat.ltb_spec k i) as [Hk|Hk].
    + rewrite nth_error_firstn.
      destruct (Nat.ltb_spec (i - S k) i); [| lia].
      destruct (Nat.leb_spec (S k) i); [reflexivity | lia].
    + destruct (Nat.leb_spec (S k) i); [lia | reflexivity].
Qed.

Lemma growth_nan (n : Z) : growth n NaN = NaN.
Proof.
  unfold growth, round2, fmul, fdiv, fsub, NaN.
  destruct (float_of_int n); reflexivity.
Qed.

Section Partition.
Variable df : list row.
Variables c m : string.

Let sorted : list row := sort_by sort_values_leb df.
Let part : list growth_row := partition c m (calculate_growth_metrics df).

Lemma partition_calculate :
  part = enrich [] (filter (in_partition c m) sorted).
Proof.
  unfold part. rewrite calculate_growth_metrics_enrich.
  apply partition_enrich.
Qed.

Lemma partition_base : map base part = filter (in_partition c m) sorted.
Proof. rewrite partition_calculate. apply map_base_enrich. Qed.

(** The growth fields of the row at position [i] of the partition. *)
Lemma partition_nth (i : nat) (g : growth_row) :
  nth_error part i = Some g ->
  forall k,
    match nth_error (base g :: rev (firstn i (map base part)) ++ []) k with
    | Some p => float_of_int (registrations p)
    | None => NaN
    end
    = if (k <=? i)%nat
      then match nth_error part (i - k) with
           | Some p => float_of_int (registrations (base p))
           | None => NaN
           end
      else NaN.
Proof.
  intros Hg k.
  rewrite (lag_position (map base part) i k (base g)).
  - destruct (k <=? i)%nat; [| reflexivity].
    rewrite nth_error_map. now destruct (nth_error part (i - k)).
  - rewrite nth_error_map, Hg. reflexivity.
Qed.

Lemma partition_growth (i : nat) (g : growth_row) :
  nth_error part i = Some g ->
  g = with_growth (base g)
        (if (12 <=? i)%nat
         then match nth_error part (i - 12) with
              | Some p => float_of_int (registrations (base p))
              | None => NaN
              end
         else NaN)
        (if (3 <=? i)%nat
         then match nth_error part (i - 3) with
              | Some p => float_of_int (registrations (base p))
              | None => NaN
              end
         else NaN).
Proof.
  intros Hg. pose proof Hg as Hg'.
  rewrite partition_calculate in Hg'.
  apply (enrich_nth c m) in Hg' as (r & Hr & E).
  - assert (Hb : base g = r) by (rewrite E; reflexivity).
    rewrite <- partition_base in E. rewrite <- Hb in E.
    rewrite !(partition_nth i g Hg) in E. exact E.
  - constructor.
  - apply Forall_forall. intros x Hx. now apply filter_In in Hx.
Qed.
End Partition.

(** ** The order of [sort_values] *)

Lemma datetime_leb_spec (a b : datetime) :
  datetime_leb a b = true <->
  dt_year a < dt_year b \/
  (dt_year a = dt_year b /\
   (dt_month a < dt_month b \/
    (dt_month a = dt_month b /\ dt_day a <= dt_day b))).
Proof.
  unfold datetime_leb, datetime_compare.
  destruct (Z.compare_spec (dt_year a) (dt_year b));
    destruct (Z.compare_spec (dt_month a) (dt_month b));
    destruct (Z.compare_spec (dt_day a) (dt_day b));
    split; intros; try discriminate; try reflexivity; lia.
Qed.

Lemma datetime_leb_total (a b : datetime) :
  datetime_leb a b = true \/ datetime_leb b a = true.
Proof. rewrite !datetime_leb_spec. lia. Qed.

Lemma datetime_leb_trans (a b c : datetime) :
  datetime_leb a b = true -> datetime_leb b c = true -> datetime_leb a c = true.
Proof. rewrite !datetime_leb_spec. lia. Qed.

Lemma sort_values_leb_total (a b : row) :
  sort_values_leb a b = true \/ sort_values_leb b a = true.
Proof.
  unfold sort_values_leb.
  destruct (String.compare (vehicle_category a) (vehicle_category b)) eqn:Ec.
  - apply String.compare_eq_iff in Ec. rewrite Ec, string_compare_refl.
    destruct (String.compare (manufacturer a) (manufacturer b)) eqn:Em.
    + apply String.compare_eq_iff in Em. rewrite Em, string_compare_refl.
      apply datetime_leb_total.
    + now left.
    + right. now rewrite (string_compare_gt_lt _ _ Em).
  - now left.
  - right. now rewrite (string_compare_gt_lt _ _ Ec).
Qed.

Lemma sort_values_leb_trans (a b c : row) :
  sort_values_leb a b = true -> sort_values_leb b c = true ->
  sort_values_leb a c = true.
Proof.
  unfold sort_values_leb.
  destruct (String.compare (vehicle_category a) (vehicle_category b)) eqn:Eab;
    try discriminate;
    destruct (String.compare (vehicle_category b) (vehicle_category c)) eqn:Ebc;
    try discriminate.
  - apply String.compare_eq_iff in Eab, Ebc. rewrite Eab, Ebc, string_compare_refl.
    destruct (String.compare (manufacturer a) (manufacturer b)) eqn:Mab;
      try discriminate;
      destruct (String.compare (manufacturer b) (manufacturer c)) eqn:Mbc;
      try discriminate.
    + apply String.compare_eq_iff in Mab, Mbc. rewrite Mab, Mbc, string_compare_refl.
      apply datetime_leb_trans.
    + apply String.compare_eq_iff in Mab. now rewrite Mab, Mbc.
    + apply String.compare_eq_iff in Mbc. now rewrite <- Mbc, Mab.
    + now rewrite (string_compare_lt_trans _ _ _ Mab Mbc).
  - apply String.compare_eq_iff in Eab. now rewrite Eab, Ebc.
  - apply String.compare_eq_iff in Ebc. now rewrite <- Ebc, Eab.
  - now rewrite (string_compare_lt_trans _ _ _ Eab Ebc).
Qed.

Lemma sort_values_leb_in_partition (c m : string) (x y : row) :
  in_partition c m x = true -> in_partition c m y = true ->
  sort_values_leb x y = datetime_leb (date x) (date y).
Proof.
  unfold in_partition, sort_values_leb.
  rewrite !andb_true_iff, !String.eqb_eq. intros [-> ->] [-> ->].
  now rewrite !string_compare_refl.
Qed.

(** Every partition of the result is in ascending order of date. *)
Lemma partition_ascending (df : list row) (c m : string) :
  StronglySorted (fun a b => datetime_leb (date (base a)) (date (base b)) = true)
                 (partition c m (calculate_growth_metrics df)).
Proof.
  apply (StronglySorted_map (fun a b => datetime_leb (date a) (date b) = true) base).
  rewrite partition_base.
  assert (Hs : StronglySorted (fun a b => sort_values_leb a b = true)
                              (sort_by sort_values_leb df)).
  { apply Sorted_StronglySorted.
    - intros x y z. apply sort_values_leb_trans.
    - apply sort_by_sorted. apply sort_values_leb_total. }
  apply (StronglySorted_filter _ (in_partition c m)) in Hs.
  revert Hs. apply StronglySorted_weaken.
  intros x y Hx Hy. apply filter_In in Hx as [_ Hx], Hy as [_ Hy].
  now rewrite (sort_values_leb_in_partition c m x y Hx Hy).
Qed.

(** The partition holds the rows of the input with that category and
    manufacturer, each once, with their counts as they were. *)
Lemma partition_rows (df : list row) (c m : string) :
  Permutation (map base (partition c m (calculate_growth_metrics df)))
              (filter (in_partition c m) df).
Proof.
  rewrite partition_base.
  induction (sort_by_perm sort_values_leb df) as [| x l l' Hp IH | x y l | l l' l'' H1 IH1 H2 IH2];
    simpl.
  - constructor.
  - destruct (in_partition c m x); [now constructor | exact IH].
  - destruct (in_partition c m x), (in_partition c m y);
      try apply Permutation_refl. apply perm_swap.
  - eapply Permutation_trans; eassumption.
Qed.

(** ** The growth fields *)

Lemma growth_zero_denominator (n : Z) :
  growth n (float_of_int 0)
  = if n =? 0 then NaN else if 0 <? n then pos_inf else neg_inf.
Proof.
  destruct (Z.eqb_spec n 0) as [->|Hn]; [reflexivity |].
  unfold growth.
  assert (Hs : (n <? 0) = negb (0 <? n)).
  { destruct (Z.ltb_spec n 0), (Z.ltb_spec 0 n); simpl; lia. }
  destruct (float_of_int_sign n Hn) as [(mx & ex & E)|E]; rewrite E, Hs;
    destruct (0 <? n); reflexivity.
Qed.

Lemma nth_error_partition_lag (df : list row) (c m : string) (k i : nat)
    (g : growth_row) :
  nth_error (partition c m (calculate_growth_metrics df)) i = Some g ->
  (k <= i)%nat ->
  exists p, nth_error (partition c m (calculate_growth_metrics df)) (i - k) = Some p.
Proof.
  intros Hg Hk.
  destruct (nth_error (partition c m (calculate_growth_metrics df)) (i - k)) as [p|] eqn:E;
    [eauto |].
  apply nth_error_None in E.
  assert (nth_error (partition c m (calculate_growth_metrics df)) i <> None) by congruence.
  apply nth_error_Some in H. lia.
Qed.

Lemma partition_yoy (df : list row) (c m : string) (i : nat) (g p : growth_row) :
  nth_error (partition c m (calculate_growth_metrics df)) i = Some g ->
  (12 <= i)%nat ->
  nth_error (partition c m (calculate_growth_metrics df)) (i - 12) = Some p ->
  yoy_growth g = growth (registrations (base g)) (float_of_int (registrations (base p))).
Proof.
  intros Hg Hi Hp. rewrite (partition_growth df c m i g Hg) at 1.
  cbn [yoy_growth with_growth].
  destruct (Nat.leb_spec 12 i); [| lia]. now rewrite Hp.
Qed.

Lemma partition_qoq (df : list row) (c m : string) (i : nat) (g p : growth_row) :
  nth_error (partition c m (calculate_growth_metrics df)) i = Some g ->
  (3 <= i)%nat ->
  nth_error (partition c m (calculate_growth_metrics df)) (i - 3) = Some p ->
  qoq_growth g = growth (registrations (base g)) (float_of_int (registrations (base p))).
Proof.
  intros Hg Hi Hp. rewrite (partition_growth df c m i g Hg) at 1.
  cbn [qoq_growth with_growth].
  destruct (Nat.leb_spec 3 i); [| lia]. now rewrite Hp.
Qed.

Lemma partition_yoy_early (df : list row) (c m : string) (i : nat) (g : growth_row) :
  nth_error (partition c m (calculate_growth_metrics df)) i = Some g ->
  (i < 12)%nat -> yoy_growth g = NaN.
Proof.
  intros Hg Hi. rewrite (partition_growth df c m i g Hg).
  cbn [yoy_growth with_growth].
  destruct (Nat.leb_spec 12 i); [lia |]. apply growth_nan.
Qed.

Lemma partition_qoq_early (df : list row) (c m : string) (i : nat) (g : growth_row) :
  nth_error (partition c m (calculate_growth_metrics df)) i = Some g ->
  (i < 3)%nat -> qoq_growth g = NaN.
Proof.
  intros Hg Hi. rewrite (partition_growth df c m i g Hg).
  cbn [qoq_growth with_growth].
  destruct (Nat.leb_spec 3 i); [lia |]. apply growth_nan.
Qed.

(** C5.  Every (category, manufacturer) partition of the result holds the
    rows of the input with that category and manufacturer, in ascending
    order of date; in that order yoy_growth is absent (NaN) on the rows at
    positions 0 to 11 and qoq_growth is absent on the rows at positions 0
    to 2. *)
Theorem growth_absent_without_history :
  forall (df : list row) (c m : string),
    Permutation (map base (partition c m (calculate_growth_metrics df)))
                (filter (in_partition c m) df) /\
    StronglySorted (fun a b => datetime_leb (date (base a)) (date (base b)) = true)
                   (partition c m (calculate_growth_metrics df)) /\
    forall (i : nat) (g : growth_row),
      nth_error (partition c m (calculate_growth_metrics df)) i = Some g ->
      ((i < 12)%nat -> isna (yoy_growth g) = true) /\
      ((i < 3)%nat -> isna (qoq_growth g) = true).
Proof.
  intros df c m.
  split; [apply partition_rows |]. split; [apply partition_ascending |].
  intros i g Hg. split; intros Hi.
  - now rewrite (partition_yoy_early df c m i g Hg Hi).
  - now rewrite (partition_qoq_early df c m i g Hg Hi).
Qed.

Lemma growth_absent_without_history_witness :
  exists g,
    nth_error (partition "3W" "Piaggio"
                 (calculate_growth_metrics (monthly_frame [100; 110; 121; 121]))) 1
    = Some g /\
    isna (yoy_growth g) = true /\ isna (qoq_growth g) = true.
Proof.
  destruct (nth_error (partition "3W" "Piaggio"
              (calculate_growth_metrics (monthly_frame [100; 110; 121; 121]))) 1)
    as [g|] eqn:E; [| vm_compute in E; discriminate E].
  exists g. split; [reflexivity |].
  destruct (growth_absent_without_history
              (monthly_frame [100; 110; 121; 121]) "3W" "Piaggio")
    as (_ & _ & H).
  destruct (H _ _ E) as [H12 H3].
  split; [apply H12 | apply H3]; repeat constructor.
Defined.

(** C4, as amended.  In every (category, manufacturer) partition of the
    result, which is in ascending order of date, the row at a position
    [i >= 12] has yoy_growth equal to
    [(count[i] - count[i-12]) / count[i-12] * 100] evaluated in float64 and
    rounded to two decimals, and the row at a position [i >= 3] has
    qoq_growth equal to the same expression with a lag of 3.  For a
    partition with counts 100, 110, 121, 121 the 3-period-lag growth at the
    fourth position is 21.00. *)
Theorem growth_formula :
  (forall (df : list row) (c m : string) (i : nat) (g p : growth_row),
      nth_error (partition c m (calculate_growth_metrics df)) i = Some g ->
      (12 <= i)%nat ->
      nth_error (partition c m (calculate_growth_metrics df)) (i - 12) = Some p ->
      yoy_growth g
      = round2 (fmul (fdiv (fsub (float_of_int (registrations (base g)))
                                 (float_of_int (registrations (base p))))
                           (float_of_int (registrations (base p))))
                     (float_of_int 100))) /\
  (forall (df : list row) (c m : string) (i : nat) (g p : growth_row),
      nth_error (partition c m (calculate_growth_metrics df)) i = Some g ->
      (3 <= i)%nat ->
      nth_error (partition c m (calculate_growth_metrics df)) (i - 3) = Some p ->
      qoq_growth g
      = round2 (fmul (fdiv (fsub (float_of_int (registrations (base g)))
                                 (float_of_int (registrations (base p))))
                           (float_of_int (registrations (base p))))
                     (float_of_int 100))) /\
  (forall (df : list row) (c m : string),
      StronglySorted (fun a b => datetime_leb (date (base a)) (date (base b)) = true)
                     (partition c m (calculate_growth_metrics df))) /\
  map qoq_growth
      (partition "3W" "Piaggio"
         (calculate_growth_metrics (monthly_frame [100; 110; 121; 121])))
  = [NaN; NaN; NaN; float_of_int 21].
Proof.
  split; [| split; [| split]].
  - intros. now apply (partition_yoy df c m i).
  - intros. now apply (partition_qoq df c m i).
  - apply partition_ascending.
  - vm_compute. reflexivity.
Qed.

Lemma growth_formula_witness :
  exists g p,
    nth_error (partition "3W" "Piaggio"
                 (calculate_growth_metrics (monthly_frame [100; 110; 121; 121]))) 3
    = Some g /\
    nth_error (partition "3W" "Piaggio"
                 (calculate_growth_metrics (monthly_frame [100; 110; 121; 121]))) 0
    = Some p /\
    registrations (base g) = 121 /\ registrations (base p) = 100 /\
    qoq_growth g
    = round2 (fmul (fdiv (fsub (float_of_int 121) (float_of_int 100)) (float_of_int 100))
                   (float_of_int 100)).
Proof.
  destruct (nth_error (partition "3W" "Piaggio"
              (calculate_growth_metrics (monthly_frame [100; 110; 121; 121]))) 3)
    as [g|] eqn:Eg; [| vm_compute in Eg; discriminate Eg].
  destruct (nth_error (partition "3W" "Piaggio"
              (calculate_growth_metrics (monthly_frame [100; 110; 121; 121]))) 0)
    as [p|] eqn:Ep; [| vm_compute in Ep; discriminate Ep].
  exists g, p. split; [reflexivity |]. split; [reflexivity |].
  assert (Hg : registrations (base g) = 121).
  { vm_compute in Eg. injection Eg as <-. reflexivity. }
  assert (Hp : registrations (base p) = 100).
  { vm_compute in Ep. injection Ep as <-. reflexivity. }
  split; [exact Hg |]. split; [exact Hp |].
  pose proof (proj1 (proj2 growth_formula)
                (monthly_frame [100; 110; 121; 121]) "3W" "Piaggio" 3%nat g p Eg
                ltac:(repeat constructor) Ep) as H.
  rewrite Hg, Hp in H. exact H.
Defined.

(** C4 as stated fails on its example: with the three counts 100, 110, 121
    no row has a row three places before it, and the 3-period-lag growth at
    the third position is absent, not 21.00. *)
Lemma three_counts_have_no_quarter_lag :
  map qoq_growth
      (partition "3W" "Piaggio"
         (calculate_growth_metrics (monthly_frame [100; 110; 121])))
  = [NaN; NaN; NaN] /\
  NaN <> float_of_int 21.
Proof. split; [vm_compute; reflexivity | discriminate]. Qed.

(** C3, as amended.  [calculate_growth_metrics] raises no error.  For a row
    of a partition whose count 12 places earlier (for yoy_growth) or 3 places
    earlier (for qoq_growth) is exactly 0, the growth field is absent (NaN)
    when the row's own count is 0 as well, plus infinity when its own count
    is positive and minus infinity when it is negative.  When the earlier
    count is not 0, and both counts are int64 values, the growth field is a
    finite number. *)
Theorem growth_on_zero_denominator :
  (forall (df : list row) (c m : string) (i : nat) (g p : growth_row),
      nth_error (partition c m (calculate_growth_metrics df)) i = Some g ->
      (12 <= i)%nat ->
      nth_error (partition c m (calculate_growth_metrics df)) (i - 12) = Some p ->
      registrations (base p) = 0 ->
      yoy_growth g
      = if registrations (base g) =? 0 then NaN
        else if 0 <? registrations (base g) then pos_inf else neg_inf) /\
  (forall (df : list row) (c m : string) (i : nat) (g p : growth_row),
      nth_error (partition c m (calculate_growth_metrics df)) i = Some g ->
      (3 <= i)%nat ->
      nth_error (partition c m (calculate_growth_metrics df)) (i - 3) = Some p ->
      registrations (base p) = 0 ->
      qoq_growth g
      = if registrations (base g) =? 0 then NaN
        else if 0 <? registrations (base g) then pos_inf else neg_inf) /\
  (forall (df : list row) (c m : string) (i : nat) (g p : growth_row),
      nth_error (partition c m (calculate_growth_metrics df)) i = Some g ->
      (12 <= i)%nat ->
      nth_error (partition c m (calculate_growth_metrics df)) (i - 12) = Some p ->
      registrations (base p) <> 0 ->
      Z.abs (registrations (base g)) < 2 ^ 63 ->
      Z.abs (registrations (base p)) < 2 ^ 63 ->
      is_finite (yoy_growth g) = true) /\
  (forall (df : list row) (c m : string) (i : nat) (g p : growth_row),
      nth_error (partition c m (calculate_growth_metrics df)) i = Some g ->
      (3 <= i)%nat ->
      nth_error (partition c m (calculate_growth_metrics df)) (i - 3) = Some p ->
      registrations (base p) <> 0 ->
      Z.abs (registrations (base g)) < 2 ^ 63 ->
      Z.abs (registrations (base p)) < 2 ^ 63 ->
      is_finite (qoq_growth g) = true).
Proof.
  split; [| split; [| split]].
  - intros df c m i g p Hg Hi Hp Hz.
    rewrite (partition_yoy df c m i g p Hg Hi Hp), Hz.
    apply growth_zero_denominator.
  - intros df c m i g p Hg Hi Hp Hz.
    rewrite (partition_qoq df c m i g p Hg Hi Hp), Hz.
    apply growth_zero_denominator.
  - intros df c m i g p Hg Hi Hp Hnz Hbg Hbp.
    rewrite (partition_yoy df c m i g p Hg Hi Hp).
    now apply growth_finite.
  - intros df c m i g p Hg Hi Hp Hnz Hbg Hbp.
    rewrite (partition_qoq df c m i g p Hg Hi Hp).
    now apply growth_finite.
Qed.

Lemma growth_on_zero_denominator_witness :
  (exists g p,
      nth_error (partition "3W" "Piaggio"
                   (calculate_growth_metrics (monthly_frame [0; 110; 121; 0]))) 3
      = Some g /\
      nth_error (partition "3W" "Piaggio"
                   (calculate_growth_metrics (monthly_frame [0; 110; 121; 0]))) 0
      = Some p /\
      registrations (base p) = 0 /\ registrations (base g) = 0 /\
      qoq_growth g = NaN) /\
  (exists g p,
      nth_error (partition "3W" "Piaggio"
                   (calculate_growth_metrics (monthly_frame [100; 110; 121; 121]))) 3
      = Some g /\
      nth_error (partition "3W" "Piaggio"
                   (calculate_growth_metrics (monthly_frame [100; 110; 121; 121]))) 0
      = Some p /\
      registrations (base p) = 100 /\ is_finite (qoq_growth g) = true).
Proof.
  split.
  - destruct (nth_error (partition "3W" "Piaggio"
                (calculate_growth_metrics (monthly_frame [0; 110; 121; 0]))) 3)
      as [g|] eqn:Eg; [| vm_compute in Eg; discriminate Eg].
    destruct (nth_error (partition "3W" "Piaggio"
                (calculate_growth_metrics (monthly_frame [0; 110; 121; 0]))) 0)
      as [p|] eqn:Ep; [| vm_compute in Ep; discriminate Ep].
    exists g, p. split; [reflexivity |]. split; [reflexivity |].
    assert (Hg : registrations (base g) = 0).
    { vm_compute in Eg. injection Eg as <-. reflexivity. }
    assert (Hp : registrations (base p) = 0).
    { vm_compute in Ep. injection Ep as <-. reflexivity. }
    split; [exact Hp |]. split; [exact Hg |].
    rewrite (proj1 (proj2 growth_on_zero_denominator)
               (monthly_frame [0; 110; 121; 0]) "3W" "Piaggio" 3%nat g p Eg
               ltac:(repeat constructor) Ep Hp).
    now rewrite Hg.
  - destruct (nth_error (partition "3W" "Piaggio"
                (calculate_growth_metrics (monthly_frame [100; 110; 121; 121]))) 3)
      as [g|] eqn:Eg; [| vm_compute in Eg; discriminate Eg].
    destruct (nth_error (partition "3W" "Piaggio"
                (calculate_growth_metrics (monthly_frame [100; 110; 121; 121]))) 0)
      as [p|] eqn:Ep; [| vm_compute in Ep; discriminate Ep].
    exists g, p. split; [reflexivity |]. split; [reflexivity |].
    assert (Hg : registrations (base g) = 121).
    { vm_compute in Eg. injection Eg as <-. reflexivity. }
    assert (Hp : registrations (base p) = 100).
    { vm_compute in Ep. injection Ep as <-. reflexivity. }
    split; [exact Hp |].
    apply (proj2 (proj2 (proj2 growth_on_zero_denominator))
             (monthly_frame [100; 110; 121; 121]) "3W" "Piaggio" 3%nat g p Eg
             ltac:(repeat constructor) Ep).
    + rewrite Hp. discriminate.
    + rewrite Hg. reflexivity.
    + rewrite Hp. reflexivity.
Defined.

(** C3 as stated fails: after a count of 0 three months earlier a count of
    5 has an infinite qoq_growth, and thirteen months with counts 0, 1, ...,
    1, 5 give an infinite yoy_growth; neither is absent. *)
Lemma positive_count_over_zero_is_infinite :
  map qoq_growth
      (partition "3W" "Piaggio"
         (calculate_growth_metrics (monthly_frame [0; 110; 121; 5])))
  = [NaN; NaN; NaN; pos_inf] /\
  option_map yoy_growth
    (nth_error
       (partition "3W" "Piaggio"
          (calculate_growth_metrics
             (monthly_frame [0; 1; 1; 1; 1; 1; 1; 1; 1; 1; 1; 1; 5]))) 12)
  = Some pos_inf /\
  isna pos_inf = false /\ is_finite pos_inf = false.
Proof. repeat split; vm_compute; reflexivity. Qed.

(** * The generator *)

Lemma is_ok_lookup {V} (default : V) (k : string) (d : dict V) :
  is_ok (dict_get k d) = true -> dict_get k d = Ok (lookup default k d).
Proof.
  unfold lookup. destruct (dict_get k d); [reflexivity | discriminate].
Qed.

Lemma categories_ok : forall c, In c categories -> category_ok c = true.
Proof.
  apply forallb_forall. reflexivity.
Qed.

Section GeneratorFacts.
Variable rng : Type.
Variable random : rng -> Q * rng.

Lemma for_each_steps {A} (l : list A) (body : A -> M rng unit)
    (step : gen_state rng -> A -> gen_state rng) :
  (forall x, In x l -> forall st, body x st = Ok (tt, step st x)) ->
  forall st, for_each rng l body st = Ok (tt, fold_left step l st).
Proof.
  induction l as [|x l IH]; intros Hbody st.
  - reflexivity.
  - cbn [for_each fold_left]. unfold bind.
    rewrite (Hbody x (or_introl eq_refl)).
    apply IH. intros y Hy. apply Hbody. now right.
Qed.

Lemma generate_row_step (date : datetime) (c m : string) (st : gen_state rng) :
  is_ok (dict_get c base_registrations) = true ->
  is_ok (dict_get c market_shares) = true ->
  is_ok (dict_get m (lookup [] c market_shares)) = true ->
  generate_row rng random date (dt_year date) (dt_month date)
    ("Q" ++ str ((dt_month date - 1) / 3 + 1))%string
    (Qpower (1 + (8 # 100)) (dt_year date - 2020))
    (seasonal_factor_of (dt_month date))
    (covid_factor_of (dt_year date) (dt_month date)) c m st
  = Ok (tt, step_slot rng random st (slot_of date c m)).
Proof.
  intros Hb Hs Hm.
  unfold generate_row, bind, lift, step_slot, slot_of, row_of_slot, uniform, append.
  cbn [s_date s_year s_month s_quarter s_category s_manufacturer s_base_reg
       s_growth_factor s_seasonal_factor s_covid_factor].
  rewrite (is_ok_lookup 0 c base_registrations Hb). cbv beta iota.
  rewrite (is_ok_lookup (V := dict Q) [] c market_shares Hs). cbv beta iota.
  rewrite (is_ok_lookup 0%Q m (lookup (V := dict Q) [] c market_shares) Hm).
  cbv beta iota.
  destruct (random (random_state st)) as [u s']. reflexivity.
Qed.

Lemma fold_left_map {A B C} (f : C -> B -> C) (g : A -> B) (l : list A) (x : C) :
  fold_left f (map g l) x = fold_left (fun acc a => f acc (g a)) l x.
Proof.
  revert x. induction l as [|a l IH]; intros x; simpl; [reflexivity | apply IH].
Qed.

Lemma run_slots_app (l1 l2 : list slot) (st : gen_state rng) :
  run_slots rng random (l1 ++ l2) st
  = run_slots rng random l2 (run_slots rng random l1 st).
Proof. apply fold_left_app. Qed.

Lemma run_slots_flat_map {A} (f : A -> list slot) (l : list A) (st : gen_state rng) :
  run_slots rng random (flat_map f l) st
  = fold_left (fun acc x => run_slots rng random (f x) acc) l st.
Proof.
  revert st. induction l as [|x l IH]; intros st; simpl; [reflexivity |].
  now rewrite run_slots_app, IH.
Qed.

Lemma generate_category_steps (date : datetime) (c : string) (st : gen_state rng) :
  category_ok c = true ->
  bind rng (lift rng (dict_get c manufacturers)) (fun names =>
    for_each rng names (fun m =>
      generate_row rng random date (dt_year date) (dt_month date)
        ("Q" ++ str ((dt_month date - 1) / 3 + 1))%string
        (Qpower (1 + (8 # 100)) (dt_year date - 2020))
        (seasonal_factor_of (dt_month date))
        (covid_factor_of (dt_year date) (dt_month date)) c m)) st
  = Ok (tt, run_slots rng random (slots_of_category date c) st).
Proof.
  unfold category_ok. rewrite !andb_true_iff, forallb_forall.
  intros [[[Hb Hs] Hn] Hm].
  unfold bind, lift at 1. rewrite (is_ok_lookup [] c manufacturers Hn).
  unfold slots_of_category, run_slots. rewrite fold_left_map.
  apply for_each_steps. intros m Hin st'.
  apply generate_row_step; auto.
Qed.

Lemma generate_month_steps (date : datetime) (st : gen_state rng) :
  generate_month rng random date st
  = Ok (tt, run_slots rng random (slots_of_month date) st).
Proof.
  unfold generate_month, slots_of_month. rewrite run_slots_flat_map.
  apply for_each_steps. intros c Hc st'.
  apply generate_category_steps. now apply categories_ok.
Qed.

Lemma generate_dates_steps (dates : list datetime) (st : gen_state rng) :
  for_each rng dates (generate_month rng random) st
  = Ok (tt, run_slots rng random (flat_map slots_of_month dates) st).
Proof.
  rewrite run_slots_flat_map. apply for_each_steps.
  intros d _ st'. apply generate_month_steps.
Qed.

Lemma run_slots_explicit (slots : list slot) (st : gen_state rng) :
  run_slots rng random slots st
  = {| random_state := advance rng random (List.length slots) (random_state st);
       data := data st
               ++ rows_of slots (draws rng random (List.length slots) (random_state st)) |}.
Proof.
  revert st. induction slots as [|sl slots IH]; intros st.
  - destruct st. unfold rows_of. simpl. now rewrite app_nil_r.
  - unfold run_slots in *. cbn [fold_left]. rewrite IH.
    unfold step_slot, rows_of.
    cbn [random_state data List.length advance draws combine map fst snd].
    now rewrite <- app_assoc.
Qed.

(** A run never raises; its frame is the schedule filled with the next
    draws of the generator, which it leaves that many draws further. *)
Lemma generate_synthetic_data_explicit (s : rng) :
  generate_synthetic_data rng random s
  = Ok (rows_of schedule (draws rng random (List.length schedule) s),
        advance rng random (List.length schedule) s).
Proof.
  unfold generate_synthetic_data. rewrite generate_dates_steps.
  fold schedule. rewrite run_slots_explicit. reflexivity.
Qed.
End GeneratorFacts.

Lemma schedule_length : List.length schedule = 1080%nat.
Proof. vm_compute. reflexivity. Qed.

Lemma schedule_nonneg : forall sl, In sl schedule -> slot_nonneg sl = true.
Proof. apply forallb_forall. vm_compute. reflexivity. Qed.

Lemma int_of_Q_nonneg (q : Q) : (0 <= q)%Q -> 0 <= int_of_Q q.
Proof.
  unfold Qle, int_of_Q. simpl. intros H.
  apply Z.quot_pos; lia.
Qed.

Lemma row_of_slot_nonneg (sl : slot) (u : Q) :
  slot_nonneg sl = true -> (0 <= u)%Q -> 0 <= registrations (row_of_slot sl u).
Proof.
  unfold slot_nonneg. rewrite !andb_true_iff, !Qle_bool_iff.
  intros [[[Hb Hg] Hs] Hc] Hu.
  cbn [registrations row_of_slot]. apply int_of_Q_nonneg.
  repeat apply Qmult_le_0_compat; try assumption.
  assert (0 <= ((115 # 100) - (85 # 100)) * u)%Q.
  { apply Qmult_le_0_compat; [discriminate | exact Hu]. }
  lra.
Qed.

Lemma rows_of_length (slots : list slot) (us : list Q) :
  List.length us = List.length slots ->
  List.length (rows_of slots us) = List.length slots.
Proof.
  intros H. unfold rows_of. rewrite length_map, length_combine. lia.
Qed.

Lemma rows_of_describe (slots : list slot) (us : list Q) :
  List.length us = List.length slots ->
  map describe (rows_of slots us)
  = map (fun sl => (s_date sl, s_year sl, s_month sl, s_quarter sl,
                    s_category sl, s_manufacturer sl)) slots.
Proof.
  revert us. induction slots as [|sl slots IH]; intros [|u us] H;
    try discriminate; [reflexivity |].
  unfold rows_of in *. cbn [combine map]. rewrite IH by (simpl in H; lia).
  reflexivity.
Qed.

Lemma rows_of_nonneg (slots : list slot) (us : list Q) :
  (forall sl, In sl slots -> slot_nonneg sl = true) ->
  Forall (fun u => (0 <= u)%Q) us ->
  Forall (fun r => 0 <= registrations r) (rows_of slots us).
Proof.
  intros Hs Hu. apply Forall_forall. intros r Hr.
  unfold rows_of in Hr. apply in_map_iff in Hr as ([sl u] & <- & Hin).
  pose proof (in_combine_l _ _ _ _ Hin). pose proof (in_combine_r _ _ _ _ Hin).
  rewrite Forall_forall in Hu.
  apply row_of_slot_nonneg; auto.
Qed.

Section Draws.
Variable rng : Type.
Variable random : rng -> Q * rng.

Lemma draws_length (n : nat) (s : rng) : List.length (draws rng random n s) = n.
Proof.
  revert s. induction n as [|n IH]; intros s; simpl; [reflexivity |].
  now rewrite IH.
Qed.

Hypothesis random_range : forall s, (0 <= fst (random s) < 1)%Q.

Lemma draws_nonneg (n : nat) (s : rng) :
  Forall (fun u => (0 <= u)%Q) (draws rng random n s).
Proof.
  revert s. induction n as [|n IH]; intros s; simpl; constructor.
  - apply random_range.
  - apply IH.
Qed.
End Draws.

Lemma calculate_growth_metrics_rows (df : list row) :
  Permutation (map base (calculate_growth_metrics df)) df.
Proof.
  rewrite calculate_growth_metrics_enrich, map_base_enrich.
  apply sort_by_perm.
Qed.

Lemma lcg_random_range (s : Z) : (0 <= fst (lcg_random s) < 1)%Q.
Proof.
  unfold lcg_random, Qle, Qlt. cbn [fst Qnum Qden].
  pose proof (Z.mod_pos_bound s 2147483648 ltac:(lia)). lia.
Qed.

(** C9.  With [random.random()] returning numbers of [0, 1), every run of
    the generator returns a frame (it does not raise) in which every count
    is a non-negative integer; growth derivation keeps the rows and their
    counts as they are, so the counts of its result are non-negative too. *)
Theorem generated_counts_nonneg :
  forall (rng : Type) (random : rng -> Q * rng),
    (forall s, (0 <= fst (random s) < 1)%Q) ->
    forall s : rng,
    exists df s',
      generate_synthetic_data rng random s = Ok (df, s') /\
      Forall (fun r => 0 <= registrations r) df /\
      Permutation (map base (calculate_growth_metrics df)) df /\
      Forall (fun g => 0 <= registrations (base g)) (calculate_growth_metrics df).
Proof.
  intros rng random Hrange s.
  eexists. eexists. split; [apply generate_synthetic_data_explicit |].
  set (df := rows_of schedule (draws rng random (List.length schedule) s)).
  assert (Hdf : Forall (fun r => 0 <= registrations r) df).
  { apply rows_of_nonneg; [apply schedule_nonneg | now apply draws_nonneg]. }
  clearbody df.
  split; [exact Hdf |]. split; [apply calculate_growth_metrics_rows |].
  apply Forall_forall. intros g Hg.
  rewrite Forall_forall in Hdf. apply Hdf.
  apply (Permutation_in _ (calculate_growth_metrics_rows df)).
  exact (in_map base _ g Hg).
Qed.

Lemma generated_counts_nonneg_witness :
  exists df s',
    generate_synthetic_data Z lcg_random 1 = Ok (df, s') /\
    Forall (fun r => 0 <= registrations r) df.
Proof.
  destruct (generated_counts_nonneg Z lcg_random lcg_random_range 1)
    as (df & s' & E & H & _).
  exists df, s'. split; assumption.
Defined.

(** C8.  The method takes no argument: its configuration is fixed in its
    body, and its random seed is the state in which it finds the generator
    of module [random] (what [random.seed] sets).  Any two runs return 1080
    rows each and agree on every field but the count; and two runs whose
    generators are in states that yield the same 1080 numbers, as two
    generators seeded alike are, return identical frames, row for row. *)
Theorem generated_frame_determined_by_draws :
  forall (rng1 : Type) (random1 : rng1 -> Q * rng1)
         (rng2 : Type) (random2 : rng2 -> Q * rng2) (s1 : rng1) (s2 : rng2),
  exists df1 t1 df2 t2,
    generate_synthetic_data rng1 random1 s1 = Ok (df1, t1) /\
    generate_synthetic_data rng2 random2 s2 = Ok (df2, t2) /\
    List.length df1 = 1080%nat /\ List.length df2 = 1080%nat /\
    map describe df1 = map describe df2 /\
    (draws rng1 random1 1080 s1 = draws rng2 random2 1080 s2 -> df1 = df2).
Proof.
  intros. do 4 eexists.
  split; [apply generate_synthetic_data_explicit |].
  split; [apply generate_synthetic_data_explicit |].
  rewrite !rows_of_length, !rows_of_describe by apply draws_length.
  rewrite schedule_length.
  repeat split. intros ->. reflexivity.
Qed.

Lemma generated_frame_determined_by_draws_witness :
  frame_of (generate_synthetic_data Z lcg_random 7)
  = frame_of (generate_synthetic_data Z lcg_random (7 + 2147483648)).
Proof.
  destruct (generated_frame_determined_by_draws
              Z lcg_random Z lcg_random 7 (7 + 2147483648))
    as (df1 & t1 & df2 & t2 & E1 & E2 & _ & _ & _ & H).
  rewrite E1, E2. cbn [frame_of]. apply H.
  vm_compute. reflexivity.
Defined.

(** * [calculate_growth_metrics]: order and partitions *)

Import Pipeline.

Section StableSort.
Context {A : Type}.
Variable leb : A -> A -> bool.
Hypothesis leb_total : forall a b, leb a b = true \/ leb b a = true.
Hypothesis leb_trans : forall a b c, leb a b = true -> leb b c = true -> leb a c = true.
Variable p : A -> bool.

Lemma insert_sorted_first (x : A) (l : list A) :
  (forall y, In y l -> leb x y = true) -> insert_sorted leb x l = x :: l.
Proof.
  destruct l as [|y l]; [reflexivity |]. intros H. simpl.
  now rewrite (H y) by now left.
Qed.

Lemma filter_insert_sorted (x : A) (l : list A) :
  StronglySorted (fun a b => leb a b = true) l ->
  filter p (insert_sorted leb x l)
  = if p x then insert_sorted leb x (filter p l) else filter p l.
Proof.
  induction 1 as [|y l Hs IH Hall].
  - simpl. now destruct (p x).
  - cbn [insert_sorted]. destruct (leb x y) eqn:E.
    + cbn [filter]. destruct (p x); [| reflexivity].
      symmetry. apply insert_sorted_first.
      rewrite Forall_forall in Hall.
      intros z Hz. destruct (p y).
      * destruct Hz as [<-|Hz]; [exact E |].
        apply filter_In in Hz as [Hz _]. eauto.
      * apply filter_In in Hz as [Hz _]. eauto.
    + cbn [filter]. rewrite IH.
      destruct (p y), (p x); try reflexivity.
      cbn [insert_sorted]. now rewrite E.
Qed.

(** A stable sort commutes with the selection of rows. *)
Lemma filter_sort_by (l : list A) :
  filter p (sort_by leb l) = sort_by leb (filter p l).
Proof.
  induction l as [|x l IH]; [reflexivity |].
  cbn [sort_by filter]. rewrite filter_insert_sorted.
  - rewrite IH. now destruct (p x).
  - now apply sort_by_strongly_sorted.
Qed.

Lemma sort_by_sorted_id (l : list A) :
  StronglySorted (fun a b => leb a b = true) l -> sort_by leb l = l.
Proof.
  induction 1 as [|x l Hs IH Hall]; [reflexivity |].
  cbn [sort_by]. rewrite IH. apply insert_sorted_first.
  now rewrite Forall_forall in Hall.
Qed.
End StableSort.

Lemma sort_values_leb_spec (a b : row) :
  sort_values_leb a b = true <-> by_category_manufacturer_date a b.
Proof.
  unfold sort_values_leb, by_category_manufacturer_date, text_lt.
  destruct (String.compare (vehicle_category a) (vehicle_category b)) eqn:C.
  - apply String_as_OT.cmp_eq in C.
    destruct (String.compare (manufacturer a) (manufacturer b)) eqn:M.
    + apply String_as_OT.cmp_eq in M. intuition congruence.
    + intuition congruence.
    + split; [discriminate |].
      intros [H|[_ [H|[H _]]]]; try discriminate.
      rewrite H, string_compare_refl in M. discriminate.
  - tauto.
  - split; [discriminate |]. intros [H|[H _]]; [discriminate |].
    rewrite H, string_compare_refl in C. discriminate.
Qed.

(** X18.  [calculate_growth_metrics] returns the rows it is given, with their
    seven columns unchanged, ordered by category, then manufacturer, then
    date; rows that agree on all three keep the order they came in. *)
Theorem calculate_growth_metrics_sorted (df : list row) :
  map base (calculate_growth_metrics df) = sort_by sort_values_leb df /\
  Permutation (map base (calculate_growth_metrics df)) df /\
  StronglySorted by_category_manufacturer_date
                 (map base (calculate_growth_metrics df)).
Proof.
  assert (E : map base (calculate_growth_metrics df) = sort_by sort_values_leb df).
  { rewrite calculate_growth_metrics_enrich. apply map_base_enrich. }
  split; [exact E |]. split; [apply calculate_growth_metrics_rows |].
  rewrite E.
  apply StronglySorted_weaken with (R := fun a b => sort_values_leb a b = true).
  - intros x y _ _. apply sort_values_leb_spec.
  - apply sort_by_strongly_sorted;
      [apply sort_values_leb_total | apply sort_values_leb_trans].
Qed.

(** X19.  The growth columns of a pair of category and manufacturer depend on the
    rows of that pair only: the partition of the result is the result of the
    computation on the rows of the partition alone. *)
Theorem calculate_growth_metrics_partition (df : list row) (c m : string) :
  partition c m (calculate_growth_metrics df)
  = calculate_growth_metrics (filter (in_partition c m) df).
Proof.
  rewrite partition_calculate, calculate_growth_metrics_enrich.
  f_equal. apply filter_sort_by;
    [apply sort_values_leb_total | apply sort_values_leb_trans].
Qed.

(** * [generate_synthetic_data]: the band of the counts *)

Lemma int_of_Q_floor (q : Q) :
  (0 <= q)%Q -> (inject_Z (int_of_Q q) <= q /\ q < inject_Z (int_of_Q q) + 1)%Q.
Proof.
  destruct q as [n d]. unfold Qle, Qlt, int_of_Q, inject_Z, Qplus.
  cbn [Qnum Qden]. intros Hn.
  assert (Hn' : 0 <= n) by lia.
  rewrite Z.quot_div_nonneg by lia.
  pose proof (Z.div_mod n (Zpos d) ltac:(lia)) as Hdm.
  pose proof (Z.mod_pos_bound n (Zpos d) ltac:(lia)) as Hmod.
  set (k := n / Zpos d) in *. set (r := n mod Zpos d) in *. clearbody k r.
  change (Z.pos (1 * 1)) with 1. split; nia.
Qed.

Lemma slot_expected_nonneg (sl : slot) :
  slot_nonneg sl = true -> (0 <= expected_count sl)%Q.
Proof.
  unfold slot_nonneg, expected_count.
  rewrite !andb_true_iff, !Qle_bool_iff. intros [[[Hb Hg] Hs] Hc].
  repeat apply Qmult_le_0_compat; assumption.
Qed.

Lemma row_of_slot_band (sl : slot) (u : Q) :
  slot_nonneg sl = true -> (0 <= u < 1)%Q ->
  ((85 # 100) * expected_count sl - 1 < inject_Z (registrations (row_of_slot sl u))
   /\ inject_Z (registrations (row_of_slot sl u)) <= (115 # 100) * expected_count sl)%Q.
Proof.
  intros Hsl [Hu0 Hu1].
  pose proof (slot_expected_nonneg sl Hsl) as He.
  cbn [registrations row_of_slot]. fold (expected_count sl).
  set (e := expected_count sl) in *. clearbody e.
  assert (Heu0 : (0 <= e * u)%Q) by now apply Qmult_le_0_compat.
  assert (Heu1 : (e * u <= e)%Q).
  { rewrite <- (Qmult_1_r e) at 2. rewrite !(Qmult_comm e).
    apply Qmult_le_compat_r; [now apply Qlt_le_weak | exact He]. }
  assert (Hq : (e * ((85 # 100) + ((115 # 100) - (85 # 100)) * u)
                == (85 # 100) * e + (30 # 100) * (e * u))%Q) by ring.
  assert (Hpos : (0 <= e * ((85 # 100) + ((115 # 100) - (85 # 100)) * u))%Q)
    by (rewrite Hq; lra).
  destruct (int_of_Q_floor _ Hpos) as [Hlo Hhi].
  set (x := (e * ((85 # 100) + ((115 # 100) - (85 # 100)) * u))%Q) in *.
  set (z := inject_Z (int_of_Q x)) in *. clearbody z. clearbody x.
  split; lra.
Qed.

Lemma rows_of_Forall2 (P : slot -> row -> Prop) (slots : list slot) (us : list Q) :
  List.length us = List.length slots ->
  (forall sl u, In sl slots -> In u us -> P sl (row_of_slot sl u)) ->
  Forall2 P slots (rows_of slots us).
Proof.
  revert us. induction slots as [|sl slots IH]; intros [|u us] Hlen H;
    try discriminate; [constructor |].
  unfold rows_of in *. cbn [combine map fst snd]. constructor.
  - apply H; now left.
  - apply IH; [simpl in Hlen; lia |]. intros sl' u' Hs Hu. apply H; now right.
Qed.

Section DrawsRange.
Variable rng : Type.
Variable random : rng -> Q * rng.
Hypothesis random_range : forall s, (0 <= fst (random s) < 1)%Q.

Lemma draws_range (n : nat) (s : rng) (u : Q) :
  In u (draws rng random n s) -> (0 <= u < 1)%Q.
Proof.
  revert s. induction n as [|n IH]; intros s; simpl; [contradiction |].
  intros [<-|H]; [apply random_range | eauto].
Qed.
End DrawsRange.

(** X20.  With [random.random()] returning numbers of [0, 1), a run fills the
    rows in the order of the loops, and the count of each row lies within
    15 percent of the product of its base count, growth, seasonal and COVID
    factors: above 0.85 times the product less one (the truncation) and at
    most 1.15 times the product. *)
Theorem generated_counts_in_band :
  forall (rng : Type) (random : rng -> Q * rng),
    (forall s, (0 <= fst (random s) < 1)%Q) ->
    forall s : rng,
    exists df s',
      generate_synthetic_data rng random s = Ok (df, s') /\
      Forall2
        (fun sl r =>
           describe r = description sl /\
           ((85 # 100) * expected_count sl - 1 < inject_Z (registrations r) /\
            inject_Z (registrations r) <= (115 # 100) * expected_count sl)%Q)
        schedule df.
Proof.
  intros rng random Hrange s.
  eexists. eexists. split; [apply generate_synthetic_data_explicit |].
  apply rows_of_Forall2; [apply draws_length |].
  intros sl u Hsl Hu. split; [reflexivity |].
  apply row_of_slot_band; [exact (schedule_nonneg sl Hsl) |].
  exact (draws_range rng random Hrange _ _ _ Hu).
Qed.

Lemma generated_counts_in_band_witness :
  exists df s',
    generate_synthetic_data Z lcg_random 1 = Ok (df, s') /\
    Forall2
      (fun sl r =>
         describe r = description sl /\
         ((85 # 100) * expected_count sl - 1 < inject_Z (registrations r) /\
          inject_Z (registrations r) <= (115 # 100) * expected_count sl)%Q)
      schedule df.
Proof.
  exact (generated_counts_in_band Z lcg_random lcg_random_range 1).
Defined.

(** * [generate_synthetic_data]: one record a month for every pair *)

Lemma nodupb_NoDup {A} (eqb : A -> A -> bool) (l : list A) :
  (forall a, eqb a a = true) -> nodupb eqb l = true -> NoDup l.
Proof.
  intros Hrefl. induction l as [|x l IH]; simpl; [constructor |].
  rewrite andb_true_iff, negb_true_iff. intros [Hx Hl].
  constructor; [| now apply IH].
  intros Hin. assert (E : existsb (eqb x) l = true).
  { apply existsb_exists. exists x. split; [exact Hin | apply Hrefl]. }
  congruence.
Qed.

Lemma key_eqb_refl (a : datetime * string * string) : key_eqb a a = true.
Proof.
  destruct a as [[d c] m]. unfold key_eqb.
  now rewrite !Z.eqb_refl, !String.eqb_refl.
Qed.

Lemma described_keys (slots : list slot) (rows : list row) :
  Forall2 (fun sl r => describe r = description sl) slots rows ->
  map key_of rows = map slot_key slots.
Proof.
  induction 1 as [|sl r slots' rows' E _ IH]; [reflexivity |].
  cbn [map]. rewrite IH. f_equal.
  unfold describe, description in E. injection E as Hd _ _ _ Hc Hm.
  unfold key_of, slot_key. now rewrite Hd, Hc, Hm.
Qed.

Lemma described_partition (slots : list slot) (rows : list row) (c m : string) :
  Forall2 (fun sl r => describe r = description sl) slots rows ->
  Forall2 (fun sl r => describe r = description sl)
          (filter (slot_in c m) slots) (filter (in_partition c m) rows).
Proof.
  induction 1 as [|sl r slots' rows' E _ IH]; [constructor |].
  cbn [filter].
  assert (Hin : in_partition c m r = slot_in c m sl).
  { unfold describe, description in E. injection E as _ _ _ _ Hc Hm.
    unfold in_partition, slot_in. now rewrite Hc, Hm. }
  rewrite Hin. destruct (slot_in c m sl); [now constructor | exact IH].
Qed.

Lemma described_dates (slots : list slot) (rows : list row) :
  Forall2 (fun sl r => describe r = description sl) slots rows ->
  map date rows = map s_date slots.
Proof.
  induction 1 as [|sl r slots' rows' E _ IH]; [reflexivity |].
  cbn [map]. rewrite IH. f_equal.
  unfold describe, description in E. now injection E.
Qed.

Lemma described_pairs (slots : list slot) (rows : list row) (r : row) :
  Forall2 (fun sl r => describe r = description sl) slots rows ->
  In r rows ->
  exists sl, In sl slots /\ vehicle_category r = s_category sl /\
             manufacturer r = s_manufacturer sl.
Proof.
  induction 1 as [|sl r' slots' rows' E _ IH]; [contradiction |].
  intros [<-|H].
  - exists sl. split; [now left |].
    unfold describe, description in E. injection E as _ _ _ _ Hc Hm. now split.
  - destruct (IH H) as (sl' & Hsl & Hcm). exists sl'. split; [now right | exact Hcm].
Qed.

Lemma rows_of_described (slots : list slot) (us : list Q) :
  List.length us = List.length slots ->
  Forall2 (fun sl r => describe r = description sl) slots (rows_of slots us).
Proof. intros H. apply rows_of_Forall2; [exact H | reflexivity]. Qed.

Lemma schedule_keys : NoDup (map slot_key schedule).
Proof.
  apply (nodupb_NoDup key_eqb); [apply key_eqb_refl |].
  vm_compute. reflexivity.
Qed.

Lemma schedule_pairs (sl : slot) :
  In sl schedule -> In (s_category sl, s_manufacturer sl) configured.
Proof.
  assert (H : forallb (fun sl => existsb (pair_eqb (s_category sl, s_manufacturer sl))
                                         configured) schedule = true)
    by (vm_compute; reflexivity).
  rewrite forallb_forall in H. intros Hsl. specialize (H sl Hsl).
  apply existsb_exists in H as (p & Hp & E).
  apply pair_eqb_eq in E. rewrite E. exact Hp.
Qed.

Lemma schedule_months (c m : string) :
  In (c, m) configured ->
  map s_date (filter (slot_in c m) schedule) = month_ends.
Proof.
  intros H. unfold configured in H. cbn in H.
  repeat (destruct H as [H|H]; [injection H as <- <-; vm_compute; reflexivity |]).
  contradiction.
Qed.

(** X21.  Every run of the generator returns, for each of the 18 configured
    pairs of category and manufacturer and for no other pair, exactly one
    row for each of the 60 month ends from January 2020 to December 2024,
    in ascending order of date: no two rows share date, category and
    manufacturer. *)
Theorem generated_frame_monthly :
  forall (rng : Type) (random : rng -> Q * rng) (s : rng),
    exists df s',
      generate_synthetic_data rng random s = Ok (df, s') /\
      NoDup (map key_of df) /\
      (forall r, In r df -> In (vehicle_category r, manufacturer r) configured) /\
      forall c m, In (c, m) configured ->
        map date (filter (in_partition c m) df) = month_ends.
Proof.
  intros rng random s.
  eexists. eexists. split; [apply generate_synthetic_data_explicit |].
  pose proof (rows_of_described schedule _
                (draws_length rng random (List.length schedule) s)) as Hd.
  set (df := rows_of schedule _) in *. clearbody df.
  split; [| split].
  - rewrite (described_keys _ _ Hd). apply schedule_keys.
  - intros r Hr. destruct (described_pairs _ _ r Hd Hr) as (sl & Hsl & -> & ->).
    exact (schedule_pairs sl Hsl).
  - intros c m Hcm.
    rewrite (described_dates _ _ (described_partition _ _ c m Hd)).
    exact (schedule_months c m Hcm).
Qed.

(** * [scrape_and_process_data]: the lags on the generated frame *)

Lemma month_ends_sorted :
  StronglySorted (fun a b => datetime_leb a b = true) month_ends.
Proof.
  assert (E : sort_by datetime_leb month_ends = month_ends)
    by (vm_compute; reflexivity).
  rewrite <- E.
  apply sort_by_strongly_sorted; [apply datetime_leb_total | apply datetime_leb_trans].
Qed.

Lemma month_ends_index :
  map months_since_2020 month_ends = map Z.of_nat (seq 0 60).
Proof. vm_compute. reflexivity. Qed.

Lemma nth_error_seq_0 (n i j : nat) : nth_error (seq 0 n) i = Some j -> j = i.
Proof.
  intros H.
  assert (Hi : (i < List.length (seq 0 n))%nat) by (apply nth_error_Some; congruence).
  rewrite length_seq in Hi.
  apply (nth_error_nth _ _ 0%nat) in H. now rewrite seq_nth in H.
Qed.

Section GeneratedPartition.
Variable df : list row.
Variables c m : string.
Hypothesis dates : map date (filter (in_partition c m) df) = month_ends.

Let part : list growth_row := partition c m (calculate_growth_metrics df).

Lemma generated_partition_sorted :
  StronglySorted (fun a b => sort_values_leb a b = true)
                 (filter (in_partition c m) df).
Proof.
  apply StronglySorted_weaken
    with (R := fun a b => datetime_leb (date a) (date b) = true).
  - intros x y Hx Hy H. apply filter_In in Hx as [_ Hx]. apply filter_In in Hy as [_ Hy].
    now rewrite (sort_values_leb_in_partition c m).
  - apply (StronglySorted_map (fun a b => datetime_leb a b = true) date).
    rewrite dates. apply month_ends_sorted.
Qed.

(** The partition of the result holds the rows of the pair in the order
    the generator made them. *)
Lemma generated_partition_base :
  map base part = filter (in_partition c m) df.
Proof.
  unfold part. rewrite partition_base.
  rewrite (filter_sort_by sort_values_leb sort_values_leb_total sort_values_leb_trans).
  apply sort_by_sorted_id, generated_partition_sorted.
Qed.

(** The row at place [i] of the partition is the row of month [i]. *)
Lemma generated_partition_month (i : nat) (g : growth_row) :
  nth_error part i = Some g ->
  months_since_2020 (date (base g)) = Z.of_nat i.
Proof.
  intros Hg.
  assert (H : nth_error (map months_since_2020 (map date (map base part))) i
              = Some (months_since_2020 (date (base g)))).
  { rewrite !nth_error_map, Hg. reflexivity. }
  rewrite generated_partition_base, dates, month_ends_index, nth_error_map in H.
  destruct (nth_error (seq 0 60) i) as [j|] eqn:E; [| discriminate].
  apply nth_error_seq_0 in E. subst j. now injection H.
Qed.

Lemma generated_partition_lag (periods i : nat) (g : growth_row) :
  nth_error part i = Some g ->
  if (periods <=? i)%nat
  then exists p,
         In p (calculate_growth_metrics df) /\
         same_group (base g) (base p) = true /\
         months_since_2020 (date (base p)) = Z.of_nat i - Z.of_nat periods /\
         lagged periods part i = float_of_int (registrations (base p))
  else lagged periods part i = NaN.
Proof.
  intros Hg. unfold lagged.
  destruct (Nat.leb_spec periods i) as [Hle|Hlt]; [| reflexivity].
  destruct (nth_error_partition_lag df c m periods i g Hg Hle) as (p & Hp).
  fold part in Hp. rewrite Hp. exists p.
  pose proof (nth_error_In _ _ Hg) as Hgin. pose proof (nth_error_In _ _ Hp) as Hpin.
  unfold part, partition in Hgin, Hpin.
  apply filter_In in Hgin as [_ Hgc]. apply filter_In in Hpin as [Hpin Hpc].
  split; [exact Hpin |]. split; [exact (in_partition_same_group c m _ _ Hgc Hpc) |].
  split; [| reflexivity].
  rewrite (generated_partition_month _ _ Hp). lia.
Qed.
End GeneratedPartition.

(** What [calculate_growth_metrics] gives a row of a frame made of complete
    monthly partitions. *)
Lemma generated_row (df : list row) (g : growth_row) :
  (forall r, In r df -> In (vehicle_category r, manufacturer r) configured) ->
  (forall c m, In (c, m) configured ->
     map date (filter (in_partition c m) df) = month_ends) ->
  In g (calculate_growth_metrics df) ->
  exists (i : nat) (part : list growth_row),
    months_since_2020 (date (base g)) = Z.of_nat i /\
    g = with_growth (base g) (lagged 12 part i) (lagged 3 part i) /\
    forall periods,
      if (periods <=? i)%nat
      then exists p,
             In p (calculate_growth_metrics df) /\
             same_group (base g) (base p) = true /\
             months_since_2020 (date (base p)) = Z.of_nat i - Z.of_nat periods /\
             lagged periods part i = float_of_int (registrations (base p))
      else lagged periods part i = NaN.
Proof.
  intros Hpairs Hdates Hg.
  set (c := vehicle_category (base g)). set (m := manufacturer (base g)).
  assert (Hbase : In (base g) df).
  { apply (Permutation_in _ (calculate_growth_metrics_rows df)).
    exact (in_map base _ g Hg). }
  pose proof (Hdates c m (Hpairs _ Hbase)) as Hd.
  assert (Hpart : In g (partition c m (calculate_growth_metrics df))).
  { apply filter_In. split; [exact Hg |].
    unfold in_partition, c, m. now rewrite !String.eqb_refl. }
  apply In_nth_error in Hpart as (i & Hi).
  exists i, (partition c m (calculate_growth_metrics df)).
  split; [exact (generated_partition_month df c m Hd i g Hi) |].
  split; [exact (partition_growth df c m i g Hi) |].
  intros periods. exact (generated_partition_lag df c m Hd periods i g Hi).
Qed.

Lemma generated_frame_shape (rng : Type) (random : rng -> Q * rng) (s : rng) :
  let df := rows_of schedule (draws rng random (List.length schedule) s) in
  (forall r, In r df -> In (vehicle_category r, manufacturer r) configured) /\
  (forall c m, In (c, m) configured ->
     map date (filter (in_partition c m) df) = month_ends).
Proof.
  intros df.
  pose proof (rows_of_described schedule _
                (draws_length rng random (List.length schedule) s)) as Hd.
  fold df in Hd. clearbody df. split.
  - intros r Hr. destruct (described_pairs _ _ r Hd Hr) as (sl & Hsl & -> & ->).
    exact (schedule_pairs sl Hsl).
  - intros c m Hcm.
    rewrite (described_dates _ _ (described_partition _ _ c m Hd)).
    exact (schedule_months c m Hcm).
Qed.

Lemma scrape_and_process_data_explicit (rng : Type) (random : rng -> Q * rng)
    (s : rng) :
  scrape_and_process_data rng random s
  = Ok (calculate_growth_metrics
          (rows_of schedule (draws rng random (List.length schedule) s)),
        advance rng random (List.length schedule) s).
Proof.
  unfold scrape_and_process_data.
  now rewrite generate_synthetic_data_explicit.
Qed.

(** X22.  In the frame [scrape_and_process_data] computes, the positional lags
    are calendar lags: [prev_year_registrations] is absent on the rows of
    the first 12 months (the year 2020) and on every other row is the count
    of the row of the same category and manufacturer 12 months earlier;
    [prev_quarter_registrations] is absent on the rows of January to March
    2020 and otherwise is the count of the row 3 months earlier. *)
Theorem processed_lags_by_calendar :
  forall (rng : Type) (random : rng -> Q * rng) (s : rng),
    exists out s',
      scrape_and_process_data rng random s = Ok (out, s') /\
      forall g, In g out ->
        let k := months_since_2020 (date (base g)) in
        (if k <? 12
         then prev_year_registrations g = NaN
         else exists p,
                In p out /\ same_group (base g) (base p) = true /\
                months_since_2020 (date (base p)) = k - 12 /\
                prev_year_registrations g = float_of_int (registrations (base p))) /\
        (if k <? 3
         then prev_quarter_registrations g = NaN
         else exists p,
                In p out /\ same_group (base g) (base p) = true /\
                months_since_2020 (date (base p)) = k - 3 /\
                prev_quarter_registrations g = float_of_int (registrations (base p))).
Proof.
  intros rng random s.
  eexists. eexists. split; [apply scrape_and_process_data_explicit |].
  destruct (generated_frame_shape rng random s) as [Hpairs Hdates].
  set (df := rows_of schedule _) in *. clearbody df.
  intros g Hg.
  destruct (generated_row df g Hpairs Hdates Hg) as (i & part & Hk & E & Hlag).
  cbv zeta. rewrite Hk.
  pose proof (Hlag 12%nat) as H12. pose proof (Hlag 3%nat) as H3.
  assert (Ey : prev_year_registrations g = lagged 12 part i) by (rewrite E; reflexivity).
  assert (Eq : prev_quarter_registrations g = lagged 3 part i) by (rewrite E; reflexivity).
  split.
  - destruct (Nat.leb_spec 12 i) as [Hle|Hlt];
      destruct (Z.ltb_spec (Z.of_nat i) 12) as [Hz|Hz]; try lia.
    + destruct H12 as (p & Hp & Hsame & Hm & Hv). exists p.
      rewrite Ey, Hv. repeat split; assumption.
    + congruence.
  - destruct (Nat.leb_spec 3 i) as [Hle|Hlt];
      destruct (Z.ltb_spec (Z.of_nat i) 3) as [Hz|Hz]; try lia.
    + destruct H3 as (p & Hp & Hsame & Hm & Hv). exists p.
      rewrite Eq, Hv. repeat split; assumption.
    + congruence.
Qed.

(** * [scrape_and_process_data]: the growth columns are finite *)

Lemma schedule_countable : forall sl, In sl schedule -> slot_countable sl = true.
Proof. apply forallb_forall. vm_compute. reflexivity. Qed.

Lemma row_of_slot_countable (sl : slot) (u : Q) :
  slot_nonneg sl = true -> slot_countable sl = true -> (0 <= u < 1)%Q ->
  1 <= registrations (row_of_slot sl u) < 2 ^ 63.
Proof.
  intros Hn Hc Hu.
  destruct (row_of_slot_band sl u Hn Hu) as [Hlo Hhi].
  unfold slot_countable in Hc.
  rewrite andb_true_iff, !Qle_bool_iff in Hc. destruct Hc as [Hc1 Hc2].
  set (n := registrations (row_of_slot sl u)) in *. clearbody n.
  set (e := expected_count sl) in *. clearbody e.
  assert (H1 : (1 < inject_Z n)%Q) by lra.
  assert (H2 : (inject_Z n <= inject_Z (2 ^ 62))%Q) by lra.
  rewrite <- Zle_Qle in H2.
  change 1%Q with (inject_Z 1) in H1. rewrite <- Zlt_Qlt in H1.
  lia.
Qed.

Lemma rows_of_countable (slots : list slot) (us : list Q) (r : row) :
  (forall sl, In sl slots -> slot_nonneg sl = true) ->
  (forall sl, In sl slots -> slot_countable sl = true) ->
  (forall u, In u us -> (0 <= u < 1)%Q) ->
  In r (rows_of slots us) ->
  1 <= registrations r < 2 ^ 63.
Proof.
  intros Hn Hc Hrange Hr.
  unfold rows_of in Hr. apply in_map_iff in Hr as ([sl u] & <- & Hin).
  pose proof (in_combine_l _ _ _ _ Hin) as Hsl.
  pose proof (in_combine_r _ _ _ _ Hin) as Hu.
  cbn [fst snd]. apply row_of_slot_countable; auto.
Qed.

Lemma generated_counts_countable (rng : Type) (random : rng -> Q * rng) :
  (forall s, (0 <= fst (random s) < 1)%Q) ->
  forall s r,
    In r (rows_of schedule (draws rng random (List.length schedule) s)) ->
    1 <= registrations r < 2 ^ 63.
Proof.
  intros Hrange s r.
  exact (rows_of_countable schedule _ r schedule_nonneg schedule_countable
           (draws_range rng random Hrange _ s)).
Qed.

(** X23.  With [random.random()] returning numbers of [0, 1), the frame
    [scrape_and_process_data] computes has no infinite growth value:
    [yoy_growth] is absent on the rows of 2020 and a finite number on every
    other row, and [qoq_growth] is absent on the rows of January to March
    2020 and a finite number on every other row. *)
Theorem processed_growth_finite :
  forall (rng : Type) (random : rng -> Q * rng),
    (forall s, (0 <= fst (random s) < 1)%Q) ->
    forall s : rng,
    exists out s',
      scrape_and_process_data rng random s = Ok (out, s') /\
      forall g, In g out ->
        let k := months_since_2020 (date (base g)) in
        (if k <? 12 then yoy_growth g = NaN else is_finite (yoy_growth g) = true) /\
        (if k <? 3 then qoq_growth g = NaN else is_finite (qoq_growth g) = true).
Proof.
  intros rng random Hrange s.
  eexists. eexists. split; [apply scrape_and_process_data_explicit |].
  destruct (generated_frame_shape rng random s) as [Hpairs Hdates].
  pose proof (generated_counts_countable rng random Hrange s) as Hcount.
  set (df := rows_of schedule _) in *. clearbody df.
  assert (Hout : forall p, In p (calculate_growth_metrics df) ->
                   1 <= registrations (base p) < 2 ^ 63).
  { intros p Hp. apply Hcount.
    apply (Permutation_in _ (calculate_growth_metrics_rows df)).
    exact (in_map base _ p Hp). }
  intros g Hg.
  destruct (generated_row df g Hpairs Hdates Hg) as (i & part & Hk & E & Hlag).
  cbv zeta. rewrite Hk.
  pose proof (Hlag 12%nat) as H12. pose proof (Hlag 3%nat) as H3.
  assert (Ey : yoy_growth g = growth (registrations (base g)) (lagged 12 part i))
    by (rewrite E at 1; reflexivity).
  assert (Eq : qoq_growth g = growth (registrations (base g)) (lagged 3 part i))
    by (rewrite E at 1; reflexivity).
  pose proof (Hout g Hg) as Hgc.
  split.
  - destruct (Nat.leb_spec 12 i) as [Hle|Hlt];
      destruct (Z.ltb_spec (Z.of_nat i) 12) as [Hz|Hz]; try lia.
    + destruct H12 as (p & Hp & _ & _ & Hv). rewrite Ey, Hv.
      pose proof (Hout p Hp). apply growth_finite; lia.
    + rewrite Ey, H12. apply growth_nan.
  - destruct (Nat.leb_spec 3 i) as [Hle|Hlt];
      destruct (Z.ltb_spec (Z.of_nat i) 3) as [Hz|Hz]; try lia.
    + destruct H3 as (p & Hp & _ & _ & Hv). rewrite Eq, Hv.
      pose proof (Hout p Hp). apply growth_finite; lia.
    + rewrite Eq, H3. apply growth_nan.
Qed.

Lemma processed_growth_finite_witness :
  exists out s',
    scrape_and_process_data Z lcg_random 1 = Ok (out, s') /\
    forall g, In g out ->
      let k := months_since_2020 (date (base g)) in
      (if k <? 12 then yoy_growth g = NaN else is_finite (yoy_growth g) = true) /\
      (if k <? 3 then qoq_growth g = NaN else is_finite (qoq_growth g) = true).
Proof.
  exact (processed_growth_finite Z lcg_random lcg_random_range 1).
Defined.
